(** * Synchronisation core of the classroom quiz application

    A shallow embedding of the Local Hub relay server (the WebSocket server
    script) and of the client's [HybridDataService] together with the part
    of [FirebaseConfig] it calls, followed by the properties of the
    natural-language specification that concern them.

    JavaScript [Map] and [Set] iterate in insertion order, and the payloads
    the Hub sends are built by iterating them, so both are modelled as
    insertion-ordered association lists with unique keys. *)

From Stdlib Require Import String List ZArith Bool Arith Lia.
Import ListNotations.
Open Scope string_scope.
Open Scope list_scope.
Open Scope Z_scope.

Set Implicit Arguments.

(* ------------------------------------------------------------------ *)
(** ** Keys of a JavaScript Map                                         *)
(* ------------------------------------------------------------------ *)

(** Keys are compared with SameValueZero; for strings and for object
    identities (numbered sockets) that is plain equality. *)
Class JsKey (K : Type) := {
  key_eqb : K -> K -> bool;
  key_eqb_eq : forall a b, key_eqb a b = true <-> a = b
}.

#[export] Instance string_JsKey : JsKey string :=
  {| key_eqb := String.eqb; key_eqb_eq := String.eqb_eq |}.

#[export] Instance nat_JsKey : JsKey nat :=
  {| key_eqb := Nat.eqb; key_eqb_eq := Nat.eqb_eq |}.

(* ------------------------------------------------------------------ *)
(** ** Insertion-ordered maps and sets                                  *)
(* ------------------------------------------------------------------ *)

Module JsMap.
Section Ops.
Context {K V : Type} `{JsKey K}.

Definition t := list (K * V).

Definition empty : t := [].

Fixpoint get (k : K) (m : t) : option V :=
  match m with
  | [] => None
  | (k', v) :: rest => if key_eqb k k' then Some v else get k rest
  end.

Definition has (k : K) (m : t) : bool :=
  match get k m with Some _ => true | None => false end.

(** [m.set(k, v)]: an existing key keeps its position, a new key goes to
    the end. *)
Fixpoint set (k : K) (v : V) (m : t) : t :=
  match m with
  | [] => [(k, v)]
  | (k', v') :: rest =>
      if key_eqb k k' then (k', v) :: rest else (k', v') :: set k v rest
  end.

(** [m.delete(k)]: no entry with key [k] remains. *)
Definition delete (k : K) (m : t) : t :=
  filter (fun e => negb (key_eqb k (fst e))) m.

Definition size (m : t) : nat := length m.

Definition values (m : t) : list V := map snd m.

End Ops.
Arguments t : clear implicits.
End JsMap.

Module JsSet.
Section Ops.
Context {K : Type} `{JsKey K}.

Definition t := list K.

Definition empty : t := [].

Fixpoint has (k : K) (s : t) : bool :=
  match s with
  | [] => false
  | k' :: rest => if key_eqb k k' then true else has k rest
  end.

Definition add (k : K) (s : t) : t := if has k s then s else s ++ [k].

Definition delete (k : K) (s : t) : t :=
  filter (fun k' => negb (key_eqb k k')) s.

Definition size (s : t) : nat := length s.

(** [Array.from(s)] *)
Definition to_array (s : t) : list K := s.

End Ops.
Arguments t : clear implicits.
End JsSet.

(* ------------------------------------------------------------------ *)
(** ** Data shared by the Hub and the client                            *)
(* ------------------------------------------------------------------ *)

(** One user's answer to one question.  [displayName] is optional because
    the identity provider may have none for a user. *)
Record Response := {
  resp_questionId : string;
  resp_answer : string;
  resp_reason : string;
  resp_userId : string;
  resp_displayName : option string;
  resp_timestamp : Z
}.

(** [WebSocket.readyState] *)
Inductive ReadyState := CONNECTING | OPEN | CLOSING | CLOSED.

Definition is_OPEN (s : ReadyState) : bool :=
  match s with OPEN => true | _ => false end.

(** Truthiness of a value that is a string, [null] or [undefined]. *)
Definition truthy_string (s : option string) : bool :=
  match s with
  | Some s => negb (String.eqb s "")
  | None => false
  end.

(** Truthiness of a value that is a number or absent. *)
Definition truthy_number (t : option Z) : bool :=
  match t with
  | Some t => negb (t =? 0)
  | None => false
  end.

(** Messages of the wire protocol, client to Hub. *)
Record SubmitFields := {
  sub_questionId : string;
  sub_answer : string;
  sub_reason : string;
  sub_userId : string;
  sub_displayName : option string;
  sub_timestamp : option Z
}.

Inductive ClientMsg :=
| identify (userId displayName : string)
| submit_response (fields : SubmitFields)
| request_sync
| ping
| get_stats
| unknown_type (type : string).

(** [`client_${Date.now()}_${Math.random()...}`] kept as its two parts. *)
Record ClientId := { cid_time : Z; cid_rand : string }.

(** Messages of the wire protocol, Hub to client.  Every element of a
    [bulk_update] carries the tag [peer_response] next to the fields of the
    Response; the elements of a [sync_response] are the stored objects.
    [protocol_ping] is the WebSocket ping frame of the liveness sweep. *)
Inductive ServerMsg :=
| welcome (clientId : ClientId) (serverTime : Z) (connectedClients : nat)
| bulk_update (responses : list Response)
| user_joined (userId displayName : string) (activeUsers : nat)
| identified (success : bool) (activeUsers : list string)
| peer_response (r : Response)
| response_confirmed (questionId : string) (success : bool)
| sync_response (responses : list Response) (activeUsers : list string)
                (timestamp : Z)
| pong (timestamp : Z)
| stats (connectedClients activeUsers totalResponses : nat) (uptime : Z)
| error (message : string)
| user_disconnected (userId : string) (displayName : option string)
                    (activeUsers : nat)
| server_shutdown
| protocol_ping.

(* ------------------------------------------------------------------ *)
(** ** Sequential code over a mutable state                             *)
(* ------------------------------------------------------------------ *)

Definition StateM (S A : Type) : Type := S -> A * S.

Definition ret {S A} (a : A) : StateM S A := fun s => (a, s).

Definition bind {S A B} (c : StateM S A) (k : A -> StateM S B) : StateM S B :=
  fun s => let (a, s') := c s in k a s'.

Notation "x <- c ;; k" := (bind c (fun x => k))
  (at level 61, c at next level, right associativity).
Notation "c ;; k" := (bind c (fun _ => k))
  (at level 61, right associativity).

Definition gets {S A} (f : S -> A) : StateM S A := fun s => (f s, s).

Definition exec {S A} (c : StateM S A) (s : S) : S := snd (c s).

Definition result {S A} (c : StateM S A) (s : S) : A := fst (c s).

(** [l.forEach(f)] *)
Fixpoint forEach {S A} (l : list A) (f : A -> StateM S unit) : StateM S unit :=
  match l with
  | [] => ret tt
  | x :: rest => f x ;; forEach rest f
  end.

(** The calls [f x] made in order, with their results collected. *)
Fixpoint mapM {S A B} (f : A -> StateM S B) (l : list A) : StateM S (list B) :=
  match l with
  | [] => ret []
  | x :: rest => y <- f x ;; ys <- mapM f rest ;; ret (y :: ys)
  end.

(* ------------------------------------------------------------------ *)
(** ** The Local Hub server                                             *)
(* ------------------------------------------------------------------ *)

Module Hub.

(** A socket object, by identity. *)
Definition Ws := nat.

Definition HEARTBEAT_INTERVAL : Z := 30000.
Definition CLEANUP_INTERVAL : Z := 60000.
Definition SESSION_TIMEOUT : Z := 3600000.

Record ClientInfo := {
  ci_id : ClientId;
  ci_connectedAt : Z;
  ci_ip : string;
  ci_userId : option string;
  ci_displayName : option string;
  ci_isAlive : bool
}.

Record SessionData := {
  startTime : Z;
  totalConnections : nat;
  activeUsers : JsSet.t string;
  responses : JsMap.t string (JsMap.t string Response)
}.

(** The server's global state.  [wss_clients] is the socket set kept by the
    WebSocket library, each member with its [readyState]; a socket that is
    not a member has been closed.  [clock] and [ticks] stand for the host
    clock: the k-th call of [Date.now()] returns [clock k].  [wire] lists
    every frame handed to a socket's [send], oldest first. *)
Record State := {
  connectedClients : JsMap.t Ws ClientInfo;
  sessionData : SessionData;
  wss_clients : JsMap.t Ws ReadyState;
  clock : nat -> Z;
  ticks : nat;
  wire : list (Ws * ServerMsg)
}.

Definition M : Type -> Type := StateM State.

Definition set_connectedClients (f : JsMap.t Ws ClientInfo -> JsMap.t Ws ClientInfo) : M unit :=
  fun s => (tt, {| connectedClients := f (connectedClients s);
                   sessionData := sessionData s;
                   wss_clients := wss_clients s;
                   clock := clock s; ticks := ticks s; wire := wire s |}).

Definition set_sessionData (f : SessionData -> SessionData) : M unit :=
  fun s => (tt, {| connectedClients := connectedClients s;
                   sessionData := f (sessionData s);
                   wss_clients := wss_clients s;
                   clock := clock s; ticks := ticks s; wire := wire s |}).

Definition set_wss_clients (f : JsMap.t Ws ReadyState -> JsMap.t Ws ReadyState) : M unit :=
  fun s => (tt, {| connectedClients := connectedClients s;
                   sessionData := sessionData s;
                   wss_clients := f (wss_clients s);
                   clock := clock s; ticks := ticks s; wire := wire s |}).

Definition with_totalConnections (n : nat) (d : SessionData) : SessionData :=
  {| startTime := startTime d; totalConnections := n;
     activeUsers := activeUsers d; responses := responses d |}.

Definition with_activeUsers (u : JsSet.t string) (d : SessionData) : SessionData :=
  {| startTime := startTime d; totalConnections := totalConnections d;
     activeUsers := u; responses := responses d |}.

Definition with_responses (r : JsMap.t string (JsMap.t string Response))
    (d : SessionData) : SessionData :=
  {| startTime := startTime d; totalConnections := totalConnections d;
     activeUsers := activeUsers d; responses := r |}.

(** [Date.now()] *)
Definition Date_now : M Z :=
  fun s => (clock s (ticks s),
            {| connectedClients := connectedClients s;
               sessionData := sessionData s;
               wss_clients := wss_clients s;
               clock := clock s; ticks := S (ticks s); wire := wire s |}).

(** [ws.send(JSON.stringify(message))] *)
Definition ws_send (ws : Ws) (message : ServerMsg) : M unit :=
  fun s => (tt, {| connectedClients := connectedClients s;
                   sessionData := sessionData s;
                   wss_clients := wss_clients s;
                   clock := clock s; ticks := ticks s;
                   wire := wire s ++ [(ws, message)] |}).

(** [ws.readyState] *)
Definition readyState (ws : Ws) : M ReadyState :=
  gets (fun s => match JsMap.get ws (wss_clients s) with
                 | Some st => st
                 | None => CLOSED
                 end).

(** [client !== senderWs], where [senderWs] defaults to [null]. *)
Definition differs (client : Ws) (senderWs : option Ws) : bool :=
  match senderWs with
  | Some w => negb (Nat.eqb client w)
  | None => true
  end.

Definition broadcast (message : ServerMsg) (senderWs : option Ws) : M unit :=
  clients <- gets wss_clients ;;
  forEach clients (fun client =>
    if differs (fst client) senderWs && is_OPEN (snd client)
    then ws_send (fst client) message
    else ret tt).

Definition sendToClient (clientWs : Ws) (message : ServerMsg) : M unit :=
  st <- readyState clientWs ;;
  if is_OPEN st then ws_send clientWs message else ret tt.

(** Every stored Response, questions in insertion order and users in
    insertion order within a question: the nested [forEach] of the
    connection handler and of [request_sync]. *)
Definition all_responses (rs : JsMap.t string (JsMap.t string Response))
  : list Response :=
  flat_map (fun q => map snd (snd q)) rs.

(** [timestamp || Date.now()]: the clock is read only when the message's
    timestamp is absent or zero. *)
Definition timestamp_or_now (timestamp : option Z) : M Z :=
  match timestamp with
  | Some t => if t =? 0 then Date_now else ret t
  | None => Date_now
  end.

Definition handleClientMessage (ws : Ws) (message : ClientMsg) : M unit :=
  match message with
  | identify userId displayName =>
      set_connectedClients (fun cc =>
        match JsMap.get ws cc with
        | Some clientInfo =>
            JsMap.set ws {| ci_id := ci_id clientInfo;
                            ci_connectedAt := ci_connectedAt clientInfo;
                            ci_ip := ci_ip clientInfo;
                            ci_userId := Some userId;
                            ci_displayName := Some displayName;
                            ci_isAlive := ci_isAlive clientInfo |} cc
        | None => cc
        end) ;;
      set_sessionData (fun d => with_activeUsers (JsSet.add userId (activeUsers d)) d) ;;
      n <- gets (fun s => JsSet.size (activeUsers (sessionData s))) ;;
      broadcast (user_joined userId displayName n) None ;;
      users <- gets (fun s => JsSet.to_array (activeUsers (sessionData s))) ;;
      sendToClient ws (identified true users)
  | submit_response m =>
      let questionId := sub_questionId m in
      let userId := sub_userId m in
      set_sessionData (fun d =>
        if JsMap.has questionId (responses d) then d
        else with_responses (JsMap.set questionId JsMap.empty (responses d)) d) ;;
      stored_ts <- timestamp_or_now (sub_timestamp m) ;;
      set_sessionData (fun d =>
        match JsMap.get questionId (responses d) with
        | Some userResponses =>
            with_responses
              (JsMap.set questionId
                 (JsMap.set userId
                    {| resp_questionId := questionId;
                       resp_answer := sub_answer m;
                       resp_reason := sub_reason m;
                       resp_userId := userId;
                       resp_displayName := sub_displayName m;
                       resp_timestamp := stored_ts |}
                    userResponses)
                 (responses d)) d
        | None => d
        end) ;;
      sent_ts <- timestamp_or_now (sub_timestamp m) ;;
      broadcast (peer_response
                   {| resp_questionId := questionId;
                      resp_answer := sub_answer m;
                      resp_reason := sub_reason m;
                      resp_userId := userId;
                      resp_displayName := sub_displayName m;
                      resp_timestamp := sent_ts |})
                (Some ws) ;;
      sendToClient ws (response_confirmed questionId true)
  | request_sync =>
      syncData <- gets (fun s => all_responses (responses (sessionData s))) ;;
      users <- gets (fun s => JsSet.to_array (activeUsers (sessionData s))) ;;
      now <- Date_now ;;
      sendToClient ws (sync_response syncData users now)
  | ping =>
      now <- Date_now ;;
      sendToClient ws (pong now)
  | get_stats =>
      nclients <- gets (fun s => JsMap.size (connectedClients s)) ;;
      nusers <- gets (fun s => JsSet.size (activeUsers (sessionData s))) ;;
      total <- gets (fun s =>
        fold_left (fun sum map => (sum + JsMap.size map)%nat)
                  (JsMap.values (responses (sessionData s))) 0%nat) ;;
      now <- Date_now ;;
      start <- gets (fun s => startTime (sessionData s)) ;;
      sendToClient ws (stats nclients nusers total (now - start))
  | unknown_type type =>
      sendToClient ws (error ("Unknown message type: " ++ type))
  end.

(** The handler of [wss.on('connection')], run for the new socket [ws];
    [ip] is the peer address and [rnd] the random part of the client id. *)
Definition on_connection (ws : Ws) (ip rnd : string) : M unit :=
  t_id <- Date_now ;;
  let clientId := {| cid_time := t_id; cid_rand := rnd |} in
  t_conn <- Date_now ;;
  let clientInfo := {| ci_id := clientId; ci_connectedAt := t_conn;
                       ci_ip := ip; ci_userId := None;
                       ci_displayName := None; ci_isAlive := true |} in
  set_connectedClients (JsMap.set ws clientInfo) ;;
  set_sessionData (fun d => with_totalConnections (S (totalConnections d)) d) ;;
  serverTime <- Date_now ;;
  nusers <- gets (fun s => JsSet.size (activeUsers (sessionData s))) ;;
  sendToClient ws (welcome clientId serverTime nusers) ;;
  rs <- gets (fun s => responses (sessionData s)) ;;
  if (0 <? JsMap.size rs)%nat then
    let existingData := all_responses rs in
    if (0 <? length existingData)%nat
    then sendToClient ws (bulk_update existingData)
    else ret tt
  else ret tt.

(** [ws.on('message')]: [None] stands for data that [JSON.parse] rejects. *)
Definition on_message (ws : Ws) (data : option ClientMsg) : M unit :=
  match data with
  | Some message => handleClientMessage ws message
  | None => sendToClient ws (error "Invalid message format")
  end.

(** [ws.on('close')].  The handler's [clientInfo] is the object registered
    under [ws] in [connectedClients]. *)
Definition on_close (ws : Ws) : M unit :=
  info <- gets (fun s => JsMap.get ws (connectedClients s)) ;;
  match info with
  | Some clientInfo =>
      if truthy_string (ci_userId clientInfo) then
        match ci_userId clientInfo with
        | Some userId =>
            set_sessionData (fun d =>
              with_activeUsers (JsSet.delete userId (activeUsers d)) d) ;;
            n <- gets (fun s => JsSet.size (activeUsers (sessionData s))) ;;
            broadcast (user_disconnected userId (ci_displayName clientInfo) n)
                      (Some ws)
        | None => ret tt
        end
      else ret tt
  | None => ret tt
  end ;;
  set_connectedClients (JsMap.delete ws).

(** [ws.on('pong')] *)
Definition on_pong (ws : Ws) : M unit :=
  set_connectedClients (fun cc =>
    match JsMap.get ws cc with
    | Some clientInfo =>
        JsMap.set ws {| ci_id := ci_id clientInfo;
                        ci_connectedAt := ci_connectedAt clientInfo;
                        ci_ip := ci_ip clientInfo;
                        ci_userId := ci_userId clientInfo;
                        ci_displayName := ci_displayName clientInfo;
                        ci_isAlive := true |} cc
    | None => cc
    end).

(** The liveness sweep.  [ws.terminate()] leaves the socket in state
    CLOSING until its close event is delivered. *)
Definition heartbeat : M unit :=
  clients <- gets wss_clients ;;
  forEach clients (fun client =>
    let ws := fst client in
    info <- gets (fun s => JsMap.get ws (connectedClients s)) ;;
    match info with
    | Some clientInfo =>
        if negb (ci_isAlive clientInfo)
        then set_wss_clients (JsMap.set ws CLOSING)
        else
          set_connectedClients
            (JsMap.set ws {| ci_id := ci_id clientInfo;
                             ci_connectedAt := ci_connectedAt clientInfo;
                             ci_ip := ci_ip clientInfo;
                             ci_userId := ci_userId clientInfo;
                             ci_displayName := ci_displayName clientInfo;
                             ci_isAlive := false |}) ;;
          ws_send ws protocol_ping
    | None => ws_send ws protocol_ping
    end).

(** The retention sweep: entries older than the cutoff are deleted, then a
    question whose map became empty is deleted. *)
Definition cleanup : M unit :=
  now <- Date_now ;;
  let cutoffTime := now - SESSION_TIMEOUT in
  set_sessionData (fun d =>
    with_responses
      (filter (fun q => negb (Nat.eqb (JsMap.size (snd q)) 0))
         (map (fun q =>
                 (fst q,
                  filter (fun u => negb (resp_timestamp (snd u) <? cutoffTime))
                         (snd q)))
              (responses d)))
      d).

(** The handler of SIGINT, up to the exit of the process: every client is
    told, then every socket is asked to close. *)
Definition on_SIGINT : M unit :=
  broadcast server_shutdown None ;;
  clients <- gets wss_clients ;;
  forEach clients (fun client => set_wss_clients (JsMap.set (fst client) CLOSING)).

(** What the environment can make the server do. *)
Inductive Event :=
| Accept (ws : Ws) (ip rnd : string)
| Message (ws : Ws) (data : option ClientMsg)
| Close (ws : Ws)
| Pong (ws : Ws)
| HeartbeatTick
| CleanupTick.

(** The library adds an accepted socket, already open, to its set before
    the connection handler runs, and removes a closed one before the close
    handler runs. *)
Definition step (e : Event) : M unit :=
  match e with
  | Accept ws ip rnd => set_wss_clients (JsMap.set ws OPEN) ;; on_connection ws ip rnd
  | Message ws data => on_message ws data
  | Close ws => set_wss_clients (JsMap.delete ws) ;; on_close ws
  | Pong ws => on_pong ws
  | HeartbeatTick => heartbeat
  | CleanupTick => cleanup
  end.

Definition run (events : list Event) (s : State) : State :=
  fold_left (fun s e => exec (step e) s) events s.

(** The state when the script has been loaded: empty maps, and
    [startTime] taken from the first reading of the clock. *)
Definition initial (clk : nat -> Z) : State :=
  {| connectedClients := JsMap.empty;
     sessionData := {| startTime := clk 0%nat; totalConnections := 0;
                       activeUsers := JsSet.empty;
                       responses := JsMap.empty |};
     wss_clients := JsMap.empty;
     clock := clk; ticks := 1; wire := [] |}.

Definition reachable (s : State) : Prop :=
  exists clk events, s = run events (initial clk).

(** The frames put on the wire by a computation started in [s]. *)
Definition sent_by {A} (c : M A) (s : State) : list (Ws * ServerMsg) :=
  skipn (length (wire s)) (wire (exec c s)).

(** [responses[questionId][userId]] *)
Definition stored (s : State) (questionId userId : string) : option Response :=
  match JsMap.get questionId (responses (sessionData s)) with
  | Some userResponses => JsMap.get userId userResponses
  | None => None
  end.

(** The map of stored Responses. *)
Definition stored_map (s : State) : JsMap.t string (JsMap.t string Response) :=
  responses (sessionData s).

(** A computation that leaves a part of the state as it was. *)
Definition preserves {A X} (f : State -> X) (c : M A) : Prop :=
  forall s, f (exec c s) = f s.

(** No question is stored with an empty map of users. *)
Definition questions_nonempty (s : State) : Prop :=
  Forall (fun q => snd q <> []) (stored_map s).

(** The sockets a broadcast reaches: the members of the library's socket
    set other than the sender that are open, in iteration order. *)
Definition recipients (senderWs : option Ws) (s : State) : list Ws :=
  map fst (filter (fun c => differs (fst c) senderWs && is_OPEN (snd c))
                  (wss_clients s)).

Definition is_open (ws : Ws) (s : State) : bool :=
  is_OPEN (result (readyState ws) s).

(** The state with further frames on the wire and nothing else changed. *)
Definition deliver (frames : list (Ws * ServerMsg)) (s : State) : State :=
  {| connectedClients := connectedClients s;
     sessionData := sessionData s;
     wss_clients := wss_clients s;
     clock := clock s; ticks := ticks s;
     wire := wire s ++ frames |}.

(** The Response the Hub builds from a submission whose timestamp
    expression evaluated to [ts]. *)
Definition response_of (m : SubmitFields) (ts : Z) : Response :=
  {| resp_questionId := sub_questionId m;
     resp_answer := sub_answer m;
     resp_reason := sub_reason m;
     resp_userId := sub_userId m;
     resp_displayName := sub_displayName m;
     resp_timestamp := ts |}.

(** The value of [timestamp || Date.now()] for a message handled in [s]. *)
Definition stamp (t : option Z) (s : State) : Z :=
  match t with
  | Some t => if t =? 0 then clock s (ticks s) else t
  | None => clock s (ticks s)
  end.

(** A sequence of [submit_response] messages, each with the connection it
    arrives on. *)
Definition submissions (l : list (Ws * SubmitFields)) : list Event :=
  map (fun p => Message (fst p) (Some (submit_response (snd p)))) l.

(** The sender is kept out of the recipients of [user_joined]. *)
Definition sender_excluded (ws : Ws) (frames : list (Ws * ServerMsg)) : Prop :=
  forall w userId displayName n,
    In (w, user_joined userId displayName n) frames -> w <> ws.

(** Whether a submission is filed under the given key. *)
Definition has_key (questionId userId : string) (m : SubmitFields) : bool :=
  String.eqb (sub_questionId m) questionId && String.eqb (sub_userId m) userId.

End Hub.


(* ------------------------------------------------------------------ *)
(** ** The client: FirebaseConfig and HybridDataService                 *)
(* ------------------------------------------------------------------ *)

Module Client.

(** What a promise is rejected with, as far as the program looks at it: an
    [Error] with its [message], or the [Event] that a socket hands to its
    [onerror] handler, which has no [message] property. *)
Inductive Reason :=
| Error (message : string)
| socket_Event.

(** How a promise settles. *)
Inductive Settled (A : Type) :=
| fulfilled (value : A)
| rejected (reason : Reason).
Arguments fulfilled {A} value.
Arguments rejected {A} reason.

Definition is_fulfilled {A} (r : Settled A) : bool :=
  match r with fulfilled _ => true | rejected _ => false end.

Definition is_rejected {A} (r : Settled A) : bool :=
  match r with fulfilled _ => false | rejected _ => true end.

(** The signed-in user of the identity provider. *)
Record User := {
  uid : string;
  user_displayName : option string;
  user_email : option string
}.

Inductive Mode := cloud | local | offline.

Definition Mode_eqb (a b : Mode) : bool :=
  match a, b with
  | cloud, cloud | local, local | offline, offline => true
  | _, _ => false
  end.

(** The client's socket object. *)
Record WebSocket := { ws_url : string; ws_readyState : ReadyState }.

(** Documents of the remote store written by [saveQuizResponse]:
    [users/{userId}/responses/{questionId}] and
    [quizResponses/{questionId}_{userId}]. *)
Inductive DocRef :=
| userResponseRef (userId questionId : string)
| classResponseRef (questionId userId : string).

(** What the cache keeps of a peer's Response. *)
Record PeerEntry := {
  peer_answer : string;
  peer_reason : string;
  peer_displayName : option string;
  peer_timestamp : Z
}.

Inductive Notice :=
| offline_notice
| sync_success_notice (count : nat)
| reconnect_failed_notice.

Inductive UiEvent :=
| connectionModeChanged (mode : Mode)
| peerDataUpdated (questionId : string) (response : Response)
| responseSaved (questionId : string) (saved : bool) (mode : Mode)
| activeUsersUpdated (message : ServerMsg).

(** What the client does that is visible outside its own fields, in program
    order.  [cache_set] records the write into [localCache.responses], so
    that its place among the transport actions can be read off the trace. *)
Inductive Effect :=
| cache_set (questionId userId : string) (responseData : Response)
| firestore_set (doc : DocRef) (ok : bool)
| socket_send (message : ClientMsg)
| dispatchEvent (e : UiEvent)
| setTimeout_reconnect (delay : Z)
| showNotification (n : Notice) (duration : Z)
| console_log_sync_complete (successful failed : nat).

(** The fields of [HybridDataService], the [auth.currentUser] of
    [FirebaseConfig], and the host: the persisted [lastLocalHubIP], and
    whether a write of the remote store to a given document succeeds. *)
Record State := {
  connectionMode : Mode;
  wsConnection : option WebSocket;
  wsReconnectAttempts : Z;
  cache_responses : JsMap.t string (JsMap.t string Response);
  cache_peerData : JsMap.t string (JsMap.t string PeerEntry);
  currentUser : option User;
  lastLocalHubIP : option string;
  store_accepts : DocRef -> bool;
  trace : list Effect
}.

Definition maxReconnectAttempts : Z := 5.
Definition reconnectDelay : Z := 2000.

Definition M : Type -> Type := StateM State.

Definition set_connectionMode (m : Mode) : M unit :=
  fun s => (tt, {| connectionMode := m; wsConnection := wsConnection s;
                   wsReconnectAttempts := wsReconnectAttempts s;
                   cache_responses := cache_responses s;
                   cache_peerData := cache_peerData s;
                   currentUser := currentUser s;
                   lastLocalHubIP := lastLocalHubIP s;
                   store_accepts := store_accepts s; trace := trace s |}).

Definition set_wsConnection (w : option WebSocket) : M unit :=
  fun s => (tt, {| connectionMode := connectionMode s; wsConnection := w;
                   wsReconnectAttempts := wsReconnectAttempts s;
                   cache_responses := cache_responses s;
                   cache_peerData := cache_peerData s;
                   currentUser := currentUser s;
                   lastLocalHubIP := lastLocalHubIP s;
                   store_accepts := store_accepts s; trace := trace s |}).

Definition set_wsReconnectAttempts (n : Z) : M unit :=
  fun s => (tt, {| connectionMode := connectionMode s;
                   wsConnection := wsConnection s;
                   wsReconnectAttempts := n;
                   cache_responses := cache_responses s;
                   cache_peerData := cache_peerData s;
                   currentUser := currentUser s;
                   lastLocalHubIP := lastLocalHubIP s;
                   store_accepts := store_accepts s; trace := trace s |}).

Definition set_cache_responses
    (f : JsMap.t string (JsMap.t string Response) ->
         JsMap.t string (JsMap.t string Response)) : M unit :=
  fun s => (tt, {| connectionMode := connectionMode s;
                   wsConnection := wsConnection s;
                   wsReconnectAttempts := wsReconnectAttempts s;
                   cache_responses := f (cache_responses s);
                   cache_peerData := cache_peerData s;
                   currentUser := currentUser s;
                   lastLocalHubIP := lastLocalHubIP s;
                   store_accepts := store_accepts s; trace := trace s |}).

Definition set_cache_peerData
    (f : JsMap.t string (JsMap.t string PeerEntry) ->
         JsMap.t string (JsMap.t string PeerEntry)) : M unit :=
  fun s => (tt, {| connectionMode := connectionMode s;
                   wsConnection := wsConnection s;
                   wsReconnectAttempts := wsReconnectAttempts s;
                   cache_responses := cache_responses s;
                   cache_peerData := f (cache_peerData s);
                   currentUser := currentUser s;
                   lastLocalHubIP := lastLocalHubIP s;
                   store_accepts := store_accepts s; trace := trace s |}).

Definition set_currentUser (u : option User) : M unit :=
  fun s => (tt, {| connectionMode := connectionMode s;
                   wsConnection := wsConnection s;
                   wsReconnectAttempts := wsReconnectAttempts s;
                   cache_responses := cache_responses s;
                   cache_peerData := cache_peerData s;
                   currentUser := u;
                   lastLocalHubIP := lastLocalHubIP s;
                   store_accepts := store_accepts s; trace := trace s |}).

Definition emit (e : Effect) : M unit :=
  fun s => (tt, {| connectionMode := connectionMode s;
                   wsConnection := wsConnection s;
                   wsReconnectAttempts := wsReconnectAttempts s;
                   cache_responses := cache_responses s;
                   cache_peerData := cache_peerData s;
                   currentUser := currentUser s;
                   lastLocalHubIP := lastLocalHubIP s;
                   store_accepts := store_accepts s;
                   trace := trace s ++ [e] |}).

(** *** FirebaseConfig *)

Definition getCurrentUser : M (option User) := gets currentUser.

Definition isSignedIn : M bool :=
  gets (fun s => match currentUser s with Some _ => true | None => false end).

(** [await ref.set(data)]: the write is attempted and either completes or
    throws. *)
Definition doc_set (doc : DocRef) : M (Settled unit) :=
  ok <- gets (fun s => store_accepts s doc) ;;
  emit (firestore_set doc ok) ;;
  ret (if ok then fulfilled tt else rejected (Error "write failed")).

(** [FirebaseConfig.saveQuizResponse]: both writes sit inside a [try] whose
    [catch] returns [false]. *)
Definition saveQuizResponse (questionId answer reason : string) : M (Settled bool) :=
  user <- gets currentUser ;;
  match user with
  | None => ret (fulfilled false)
  | Some u =>
      let userId := uid u in
      r1 <- doc_set (userResponseRef userId questionId) ;;
      match r1 with
      | rejected _ => ret (fulfilled false)
      | fulfilled _ =>
          r2 <- doc_set (classResponseRef questionId userId) ;;
          match r2 with
          | rejected _ => ret (fulfilled false)
          | fulfilled _ => ret (fulfilled true)
          end
      end
  end.

(** A call of [saveQuizResponse] that has not been awaited runs up to its
    first [await] and is suspended there: it has returned [false] already
    (nobody signed in), or it has started the write of the user's document
    and waits for it to settle. *)
Inductive Suspended :=
| returned (value : bool)
| awaits_user_write (questionId userId : string) (settled : Settled unit).

(** The part of [saveQuizResponse] up to its first [await]. *)
Definition saveQuizResponse_start (questionId answer reason : string)
  : M Suspended :=
  user <- gets currentUser ;;
  match user with
  | None => ret (returned false)
  | Some u =>
      let userId := uid u in
      r1 <- doc_set (userResponseRef userId questionId) ;;
      ret (awaits_user_write questionId userId r1)
  end.

(** The rest of [saveQuizResponse], run when the first write has settled. *)
Definition saveQuizResponse_resume (call : Suspended) : M (Settled bool) :=
  match call with
  | returned value => ret (fulfilled value)
  | awaits_user_write questionId userId r1 =>
      match r1 with
      | rejected _ => ret (fulfilled false)
      | fulfilled _ =>
          r2 <- doc_set (classResponseRef questionId userId) ;;
          match r2 with
          | rejected _ => ret (fulfilled false)
          | fulfilled _ => ret (fulfilled true)
          end
      end
  end.

(** *** HybridDataService *)

Definition setConnectionMode (mode : Mode) : M unit :=
  set_connectionMode mode ;;
  emit (dispatchEvent (connectionModeChanged mode)).

Definition showOfflineNotification : M unit :=
  emit (showNotification offline_notice 5000).

Definition showSyncSuccessNotification (count : nat) : M unit :=
  emit (showNotification (sync_success_notice count) 3000).

Definition showReconnectFailedNotification : M unit :=
  emit (showNotification reconnect_failed_notice 5000).

(** [this.wsConnection && this.wsConnection.readyState === WebSocket.OPEN] *)
Definition link_open (s : State) : bool :=
  match wsConnection s with
  | Some w => is_OPEN (ws_readyState w)
  | None => false
  end.

(** [this.wsConnection.send(JSON.stringify(message))], on the socket the
    handlers were installed on. *)
Definition wsConnection_send (message : ClientMsg) : M unit :=
  w <- gets wsConnection ;;
  match w with
  | Some _ => emit (socket_send message)
  | None => ret tt
  end.

(** The body of the [onopen] handler; the socket has just become OPEN. *)
Definition onopen : M unit :=
  w <- gets wsConnection ;;
  match w with
  | Some w => set_wsConnection (Some {| ws_url := ws_url w; ws_readyState := OPEN |})
  | None => ret tt
  end ;;
  setConnectionMode local ;;
  set_wsReconnectAttempts 0 ;;
  user <- getCurrentUser ;;
  match user with
  | Some u =>
      wsConnection_send
        (identify (uid u)
           (if truthy_string (user_displayName u)
            then match user_displayName u with Some n => n | None => "Anonymous" end
            else "Anonymous"))
  | None => ret tt
  end ;;
  wsConnection_send request_sync.

(** What becomes of an attempt to connect before its promise settles: the
    socket constructor throws, the socket opens, it reports an error, or
    the 5000 ms timer fires first. *)
Inductive Fate := constructor_throws | opens | errors | times_out.

Definition connectToLocalHub (serverIP : string) (fate : Fate) : M (Settled bool) :=
  already <- gets link_open ;;
  if already then ret (fulfilled true)
  else
    match fate with
    | constructor_throws => ret (fulfilled false)
    | opens =>
        set_wsConnection (Some {| ws_url := "ws://" ++ serverIP;
                                  ws_readyState := CONNECTING |}) ;;
        onopen ;;
        ret (fulfilled true)
    | errors =>
        set_wsConnection (Some {| ws_url := "ws://" ++ serverIP;
                                  ws_readyState := CONNECTING |}) ;;
        ret (rejected socket_Event)
    | times_out =>
        set_wsConnection (Some {| ws_url := "ws://" ++ serverIP;
                                  ws_readyState := CONNECTING |}) ;;
        ret (rejected (Error "Connection timeout"))
    end.

(** The callback given to [setTimeout] by [handleWebSocketDisconnect]. *)
Definition reconnect_callback (fate : Fate) : M unit :=
  lastServerIP <- gets lastLocalHubIP ;;
  if truthy_string lastServerIP then
    match lastServerIP with
    | Some ip => connectToLocalHub ip fate ;; ret tt
    | None => ret tt
    end
  else ret tt.

Definition handleWebSocketDisconnect : M unit :=
  set_wsConnection None ;;
  mode <- gets connectionMode ;;
  if Mode_eqb mode local then
    attempts <- gets wsReconnectAttempts ;;
    if attempts <? maxReconnectAttempts then
      set_wsReconnectAttempts (attempts + 1) ;;
      attempts' <- gets wsReconnectAttempts ;;
      emit (setTimeout_reconnect (reconnectDelay * attempts'))
    else
      setConnectionMode offline ;;
      showReconnectFailedNotification
  else ret tt.

(** [saveResponse(questionId, answer, reason)]; [now] is the reading of
    [Date.now()]. *)
Definition saveResponse (questionId answer reason : string) (now : Z) : M (Settled bool) :=
  user <- getCurrentUser ;;
  match user with
  | None => ret (fulfilled false)
  | Some user =>
      let responseData :=
        {| resp_questionId := questionId;
           resp_answer := answer;
           resp_reason := reason;
           resp_userId := uid user;
           resp_displayName := user_displayName user;
           resp_timestamp := now |} in
      set_cache_responses (fun rs =>
        if JsMap.has questionId rs then rs
        else JsMap.set questionId JsMap.empty rs) ;;
      set_cache_responses (fun rs =>
        match JsMap.get questionId rs with
        | Some m => JsMap.set questionId (JsMap.set (uid user) responseData m) rs
        | None => rs
        end) ;;
      emit (cache_set questionId (uid user) responseData) ;;
      mode <- gets connectionMode ;;
      outcome <-
        match mode with
        | cloud => saveQuizResponse questionId answer reason
        | local =>
            is_open <- gets link_open ;;
            if is_open then
              wsConnection_send
                (submit_response
                   {| sub_questionId := questionId;
                      sub_answer := answer;
                      sub_reason := reason;
                      sub_userId := uid user;
                      sub_displayName := user_displayName user;
                      sub_timestamp := Some now |}) ;;
              ret (fulfilled true)
            else ret (fulfilled false)
        | offline => ret (fulfilled true)
        end ;;
      match outcome with
      | fulfilled saved =>
          mode' <- gets connectionMode ;;
          emit (dispatchEvent (responseSaved questionId saved mode')) ;;
          ret (fulfilled saved)
      | rejected why => ret (rejected why)
      end
  end.

(** The entries of [localCache.responses] filed under the current user's
    id, in iteration order. *)
Definition own_entries (s : State) : list Response :=
  flat_map
    (fun q =>
       map snd
         (filter (fun u =>
                    match currentUser s with
                    | Some user => String.eqb (fst u) (uid user)
                    | None => false
                    end)
                 (snd q)))
    (cache_responses s).

(** [syncLocalToCloud].  The calls of [saveQuizResponse] are not awaited one
    by one: inside the [forEach] loops each call runs up to its first
    [await], so the write of the user's document of every entry is started
    there, in cache order; the calls go on only under
    [await Promise.allSettled(operations)], each when its first write has
    settled.  The remote store is taken to settle the writes in the order
    in which they were started, so the calls resume in cache order. *)
Definition syncLocalToCloud : M unit :=
  mode <- gets connectionMode ;;
  signedIn <- isSignedIn ;;
  if negb (Mode_eqb mode cloud) || negb signedIn then ret tt
  else
    own <- gets own_entries ;;
    operations <- mapM (fun response =>
                          saveQuizResponse_start (resp_questionId response)
                                                 (resp_answer response)
                                                 (resp_reason response))
                       own ;;
    results <- mapM saveQuizResponse_resume operations ;;
    let successful := length (filter is_fulfilled results) in
    let failed := length (filter is_rejected results) in
    emit (console_log_sync_complete successful failed) ;;
    if (0 <? successful)%nat then showSyncSuccessNotification successful
    else ret tt.

(** The listeners of the [online] and [offline] events. *)
Definition on_online : M unit :=
  signedIn <- isSignedIn ;;
  if signedIn then setConnectionMode cloud ;; syncLocalToCloud
  else ret tt.

Definition on_offline : M unit :=
  setConnectionMode offline ;;
  showOfflineNotification.

(** The auth listener of [FirebaseConfig] stores the user, then the
    service's [handleAuthStateChange] runs; [onLine] is [navigator.onLine]. *)
Definition handleAuthStateChange (user : option User) (onLine : bool) : M unit :=
  set_currentUser user ;;
  match user with
  | Some _ =>
      if onLine then setConnectionMode cloud ;; syncLocalToCloud
      else ret tt
  | None => setConnectionMode offline
  end.

(** *** Inbound messages of the relay link *)

Definition handlePeerResponse (response : Response) : M unit :=
  let questionId := resp_questionId response in
  set_cache_peerData (fun pd =>
    if JsMap.has questionId pd then pd
    else JsMap.set questionId JsMap.empty pd) ;;
  set_cache_peerData (fun pd =>
    match JsMap.get questionId pd with
    | Some m =>
        JsMap.set questionId
          (JsMap.set (resp_userId response)
             {| peer_answer := resp_answer response;
                peer_reason := resp_reason response;
                peer_displayName := resp_displayName response;
                peer_timestamp := resp_timestamp response |} m) pd
    | None => pd
    end) ;;
  emit (dispatchEvent (peerDataUpdated questionId response)).

Definition handleBulkUpdate (responses : list Response) : M unit :=
  forEach responses handlePeerResponse.

Definition handleWebSocketMessage (message : ServerMsg) : M unit :=
  match message with
  | peer_response r => handlePeerResponse r
  | bulk_update rs => handleBulkUpdate rs
  | sync_response rs _ _ => handleBulkUpdate rs
  | user_joined _ _ _ | user_disconnected _ _ _ =>
      emit (dispatchEvent (activeUsersUpdated message))
  | _ => ret tt
  end.

(** What the environment can make the client do. *)
Inductive Event :=
| UserConnects (serverIP : string) (fate : Fate)
| SocketCloses
| ReconnectTimerFires (fate : Fate)
| Saves (questionId answer reason : string) (now : Z)
| Receives (message : ServerMsg)
| NetworkOnline
| NetworkOffline
| AuthChanges (user : option User) (onLine : bool).

Definition step (e : Event) : M unit :=
  match e with
  | UserConnects serverIP fate => connectToLocalHub serverIP fate ;; ret tt
  | SocketCloses => handleWebSocketDisconnect
  | ReconnectTimerFires fate => reconnect_callback fate
  | Saves questionId answer reason now =>
      saveResponse questionId answer reason now ;; ret tt
  | Receives message => handleWebSocketMessage message
  | NetworkOnline => on_online
  | NetworkOffline => on_offline
  | AuthChanges user onLine => handleAuthStateChange user onLine
  end.

Definition run (events : list Event) (s : State) : State :=
  fold_left (fun s e => exec (step e) s) events s.

(** The effects added to the trace by a computation started in [s]. *)
Definition effects_of {A} (c : M A) (s : State) : list Effect :=
  skipn (length (trace s)) (trace (exec c s)).

(** [localCache.responses.get(questionId).get(userId)] *)
Definition cached (s : State) (questionId userId : string) : option Response :=
  match JsMap.get questionId (cache_responses s) with
  | Some m => JsMap.get userId m
  | None => None
  end.

(** The attempt numbers after [from] up to [to]. *)
Definition attempt_numbers (from to : Z) : list Z :=
  map (fun k => from + Z.of_nat k) (seq 1 (Z.to_nat (to - from))).

(** The Response [saveResponse] builds for the signed-in [user]. *)
Definition responseData_of (user : User) (questionId answer reason : string)
    (now : Z) : Response :=
  {| resp_questionId := questionId;
     resp_answer := answer;
     resp_reason := reason;
     resp_userId := uid user;
     resp_displayName := user_displayName user;
     resp_timestamp := now |}.

(** The delays of the reconnect timers set, oldest first. *)
Definition reconnect_delays (l : list Effect) : list Z :=
  flat_map (fun e => match e with setTimeout_reconnect d => [d] | _ => [] end) l.

(** A computation that neither touches the reconnect counter nor sets a
    reconnect timer. *)
Definition quiet {A} (c : M A) : Prop :=
  forall s,
    wsReconnectAttempts (exec c s) = wsReconnectAttempts s
    /\ exists l, trace (exec c s) = trace s ++ l /\ reconnect_delays l = [].

(** Whether an effect is an action on a transport: a write to the remote
    store or a frame sent over the relay link. *)
Definition is_transport (e : Effect) : bool :=
  match e with
  | firestore_set _ _ | socket_send _ => true
  | _ => false
  end.

(** Whether an event is an attempt to connect that succeeds. *)
Definition succeeds (e : Event) : bool :=
  match e with
  | UserConnects _ opens | ReconnectTimerFires opens => true
  | _ => false
  end.

End Client.

(* ------------------------------------------------------------------ *)
(** ** Sample data                                                      *)
(* ------------------------------------------------------------------ *)

Module Samples.

Definition submit_B_100 : SubmitFields :=
  {| sub_questionId := "Q1"; sub_answer := "B"; sub_reason := "";
     sub_userId := "u1"; sub_displayName := Some "Ann";
     sub_timestamp := Some 100 |}.

Definition submit_C_50 : SubmitFields :=
  {| sub_questionId := "Q1"; sub_answer := "C"; sub_reason := "";
     sub_userId := "u1"; sub_displayName := Some "Ann";
     sub_timestamp := Some 50 |}.

Definition submit_other : SubmitFields :=
  {| sub_questionId := "Q1"; sub_answer := "A"; sub_reason := "because";
     sub_userId := "u2"; sub_displayName := Some "Bob";
     sub_timestamp := None |}.

(** A host clock that advances by one millisecond per reading. *)
Definition clk (k : nat) : Z := 1000 + Z.of_nat k.

(** A Hub with two open connections, neither identified yet. *)
Definition hub_fresh : Hub.State :=
  Hub.run [Hub.Accept 1%nat "10.0.0.1" "a"; Hub.Accept 2%nat "10.0.0.2" "b"]
          (Hub.initial clk).

(** The same Hub after the first connection has identified itself. *)
Definition hub_two : Hub.State :=
  Hub.run [Hub.Message 1%nat (Some (identify "u1" "Ann"))] hub_fresh.

(** The Hub of [hub_fresh] after the first connection has identified
    itself with an empty userId. *)
Definition hub_empty_id : Hub.State :=
  Hub.run [Hub.Message 1%nat (Some (identify "" "Ann"))] hub_fresh.

(** What the Hub has recorded about the first connection by then. *)
Definition client_1 : Hub.ClientInfo :=
  {| Hub.ci_id := {| cid_time := 1001; cid_rand := "a" |};
     Hub.ci_connectedAt := 1002;
     Hub.ci_ip := "10.0.0.1";
     Hub.ci_userId := Some "u1";
     Hub.ci_displayName := Some "Ann";
     Hub.ci_isAlive := true |}.

(** Three identified connections; the second one stops answering pings and
    is closed after the sweep that terminates it. *)
Definition silent_second : list Hub.Event :=
  [Hub.Accept 1%nat "10.0.0.1" "a"; Hub.Accept 2%nat "10.0.0.2" "b";
   Hub.Accept 3%nat "10.0.0.3" "c";
   Hub.Message 1%nat (Some (identify "u1" "Ann"));
   Hub.Message 2%nat (Some (identify "u2" "Bob"));
   Hub.Message 3%nat (Some (identify "u3" "Cy"));
   Hub.HeartbeatTick; Hub.Pong 1%nat; Hub.Pong 3%nat;
   Hub.HeartbeatTick; Hub.Close 2%nat].

(** The same Hub after the first connection has submitted an answer. *)
Definition hub_with_data : Hub.State :=
  Hub.run [Hub.Message 1%nat (Some (submit_response submit_B_100))] hub_two.

Definition ann : Client.User :=
  {| Client.uid := "u1"; Client.user_displayName := Some "Ann";
     Client.user_email := Some "ann@example.org" |}.

Definition entry (questionId answer : string) (t : Z) : Response :=
  {| resp_questionId := questionId; resp_answer := answer;
     resp_reason := ""; resp_userId := "u1";
     resp_displayName := Some "Ann"; resp_timestamp := t |}.

(** A remote store that rejects the write of one document. *)
Definition store_rejecting_Q3 (doc : Client.DocRef) : bool :=
  match doc with
  | Client.userResponseRef _ questionId => negb (String.eqb questionId "Q3")
  | Client.classResponseRef _ _ => true
  end.

(** A signed-in client, offline, with four answers queued. *)
Definition client_queued : Client.State :=
  {| Client.connectionMode := Client.offline;
     Client.wsConnection := None;
     Client.wsReconnectAttempts := 0;
     Client.cache_responses :=
       [("Q1", [("u1", entry "Q1" "A" 10)]);
        ("Q2", [("u1", entry "Q2" "B" 20)]);
        ("Q3", [("u1", entry "Q3" "C" 30)]);
        ("Q4", [("u1", entry "Q4" "D" 40)])];
     Client.cache_peerData := [];
     Client.currentUser := Some ann;
     Client.lastLocalHubIP := Some "192.168.1.100:8080";
     Client.store_accepts := store_rejecting_Q3;
     Client.trace := [] |}.

(** A client nobody has signed in to. *)
Definition client_signed_out : Client.State :=
  {| Client.connectionMode := Client.offline;
     Client.wsConnection := None;
     Client.wsReconnectAttempts := 0;
     Client.cache_responses := [];
     Client.cache_peerData := [];
     Client.currentUser := None;
     Client.lastLocalHubIP := None;
     Client.store_accepts := fun _ => true;
     Client.trace := [] |}.

(** A client in local mode whose link is open. *)
Definition client_linked : Client.State :=
  {| Client.connectionMode := Client.local;
     Client.wsConnection :=
       Some {| Client.ws_url := "ws://192.168.1.100:8080";
               Client.ws_readyState := OPEN |};
     Client.wsReconnectAttempts := 0;
     Client.cache_responses := [];
     Client.cache_peerData := [];
     Client.currentUser := Some ann;
     Client.lastLocalHubIP := Some "192.168.1.100:8080";
     Client.store_accepts := fun _ => true;
     Client.trace := [] |}.

(** A client in local mode that has lost its link and retried three
    times. *)
Definition client_retrying : Client.State :=
  {| Client.connectionMode := Client.local;
     Client.wsConnection := None;
     Client.wsReconnectAttempts := 3;
     Client.cache_responses := [];
     Client.cache_peerData := [];
     Client.currentUser := Some ann;
     Client.lastLocalHubIP := Some "192.168.1.100:8080";
     Client.store_accepts := fun _ => true;
     Client.trace := [] |}.

(** The link is lost and every retry fails: six close events, with the
    reconnect timer firing after each of the first five. *)
Definition retries_all_fail : list Client.Event :=
  [Client.SocketCloses; Client.ReconnectTimerFires Client.errors;
   Client.SocketCloses; Client.ReconnectTimerFires Client.errors;
   Client.SocketCloses; Client.ReconnectTimerFires Client.times_out;
   Client.SocketCloses; Client.ReconnectTimerFires Client.errors;
   Client.SocketCloses; Client.ReconnectTimerFires Client.errors;
   Client.SocketCloses].

End Samples.

(* ------------------------------------------------------------------ *)
(** ** Further parts of the Hub script                                  *)
(* ------------------------------------------------------------------ *)

Module Network.

(** One address entry of [os.networkInterfaces()]. *)
Record Iface := {
  iface_internal : bool;
  iface_family : string;
  iface_address : string
}.

(** The inner loop of [getLocalIP] over the entries of one interface:
    [Some a] when it returns [a], [None] when it runs to its end. *)
Fixpoint scan_interface (entries : list Iface) : option string :=
  match entries with
  | [] => None
  | iface :: rest =>
      if negb (iface_internal iface) && String.eqb (iface_family iface) "IPv4"
      then Some (iface_address iface)
      else scan_interface rest
  end.

(** [getLocalIP], given the object returned by [os.networkInterfaces()] as
    its entries in key order. *)
Fixpoint getLocalIP (interfaces : list (string * list Iface)) : string :=
  match interfaces with
  | [] => "localhost"
  | (name, entries) :: rest =>
      match scan_interface entries with
      | Some address => address
      | None => getLocalIP rest
      end
  end.

(** The test of the loop body. *)
Definition external_IPv4 (iface : Iface) : bool :=
  negb (iface_internal iface) && String.eqb (iface_family iface) "IPv4".

End Network.

Module HubSpec.
Import Hub.

(** Messages that only ask for something: everything except [identify] and
    [submit_response], data that cannot be parsed included. *)
Definition asks_only (data : option ClientMsg) : bool :=
  match data with
  | Some (identify _ _) | Some (submit_response _) => false
  | _ => true
  end.

(** The one frame with which the Hub answers such a message handled in
    [s]. *)
Definition answer_to (data : option ClientMsg) (s : State) : ServerMsg :=
  match data with
  | Some request_sync =>
      sync_response (all_responses (stored_map s))
                    (JsSet.to_array (activeUsers (sessionData s)))
                    (clock s (ticks s))
  | Some ping => pong (clock s (ticks s))
  | Some get_stats =>
      stats (JsMap.size (connectedClients s))
            (JsSet.size (activeUsers (sessionData s)))
            (length (all_responses (stored_map s)))
            (clock s (ticks s) - startTime (sessionData s))
  | Some (unknown_type type) => error ("Unknown message type: " ++ type)
  | _ => error "Invalid message format"
  end.

Definition is_cleanup (e : Event) : bool :=
  match e with CleanupTick => true | _ => false end.

(** Whether an event is a submission filed under the given key. *)
Definition submits (questionId userId : string) (e : Event) : bool :=
  match e with
  | Message _ (Some (submit_response m)) => has_key questionId userId m
  | _ => false
  end.

(** [ws.readyState], as a value. *)
Definition state_of (ws : Ws) (s : State) : ReadyState :=
  result (readyState ws) s.

(** [connectedClients.get(ws).isAlive] *)
Definition alive (ws : Ws) (s : State) : option bool :=
  match JsMap.get ws (connectedClients s) with
  | Some clientInfo => Some (ci_isAlive clientInfo)
  | None => None
  end.

(** The body of the liveness sweep's loop, for one member of the socket
    set. *)
Definition sweep_one (client : Ws * ReadyState) : M unit :=
  let ws := fst client in
  info <- gets (fun s => JsMap.get ws (connectedClients s)) ;;
  match info with
  | Some clientInfo =>
      if negb (ci_isAlive clientInfo)
      then set_wss_clients (JsMap.set ws CLOSING)
      else
        set_connectedClients
          (JsMap.set ws {| ci_id := ci_id clientInfo;
                           ci_connectedAt := ci_connectedAt clientInfo;
                           ci_ip := ci_ip clientInfo;
                           ci_userId := ci_userId clientInfo;
                           ci_displayName := ci_displayName clientInfo;
                           ci_isAlive := false |}) ;;
        ws_send ws protocol_ping
  | None => ws_send ws protocol_ping
  end.

(** No question twice, no user twice within a question, and every Response
    filed under its own questionId and userId. *)
Definition stored_well_formed (rs : JsMap.t string (JsMap.t string Response)) : Prop :=
  NoDup (map fst rs)
  /\ Forall (fun q =>
               NoDup (map fst (snd q))
               /\ Forall (fun e => resp_questionId (snd e) = fst q
                                   /\ resp_userId (snd e) = fst e)
                         (snd q))
            rs.

(** The maps are as a JavaScript Map keeps them: no key twice, in the
    socket set, in [responses] and in each question's map; and every
    Response is filed under its own questionId and userId. *)
Definition well_formed (s : State) : Prop :=
  NoDup (map fst (wss_clients s))
  /\ NoDup (map fst (stored_map s))
  /\ Forall (fun q =>
               NoDup (map fst (snd q))
               /\ Forall (fun e => resp_questionId (snd e) = fst q
                                   /\ resp_userId (snd e) = fst e)
                         (snd q))
            (stored_map s).

End HubSpec.

(* ------------------------------------------------------------------ *)
(** ** Further parts of the client                                      *)
(* ------------------------------------------------------------------ *)

Module ClientMore.
Import Client.

(** A document of the class-wide collection, as [doc.data()] returns it. *)
Record CloudDoc := {
  doc_userId : string;
  doc_questionId : string;
  doc_answer : string;
  doc_reason : string;
  doc_timestamp : Z;
  doc_displayName : option string;
  doc_email : option string
}.

(** [FirebaseConfig.getClassResponses]; [remote] is the query of the remote
    store, which yields the matching documents or throws. *)
Definition getClassResponses (remote : string -> Settled (list CloudDoc))
    (questionId : string) : M (list CloudDoc) :=
  match remote questionId with
  | fulfilled docs => ret docs
  | rejected _ => ret []
  end.

(** An element of the array [getPeerResponses] returns: a document of the
    remote store, or [{userId, ...data}] built from the cache. *)
Inductive PeerView :=
| from_store (doc : CloudDoc)
| from_cache (userId : string) (data : PeerEntry).

Definition getPeerResponses (remote : string -> Settled (list CloudDoc))
    (questionId : string) : M (list PeerView) :=
  mode <- gets connectionMode ;;
  match mode with
  | cloud =>
      docs <- getClassResponses remote questionId ;;
      ret (map from_store docs)
  | local | offline =>
      questionData <- gets (fun s => JsMap.get questionId (cache_peerData s)) ;;
      match questionData with
      | Some m => ret (map (fun e => from_cache (fst e) (snd e)) m)
      | None => ret []
      end
  end.

(** [localStorage.setItem('lastLocalHubIP', serverIP)] *)
Definition set_lastLocalHubIP (ip : option string) : M unit :=
  fun s => (tt, {| connectionMode := connectionMode s;
                   wsConnection := wsConnection s;
                   wsReconnectAttempts := wsReconnectAttempts s;
                   cache_responses := cache_responses s;
                   cache_peerData := cache_peerData s;
                   currentUser := currentUser s;
                   lastLocalHubIP := ip;
                   store_accepts := store_accepts s; trace := trace s |}).

(** What the dialog shows its user: an [alert] with its text, the dialog
    closed, the notice that the Hub is connected. *)
Inductive DialogAction :=
| alert (text : string)
| closeDialog
| notify_connected.

(** [error.message]: [undefined] for a value that has no such property. *)
Definition message_of (thrown : Reason) : option string :=
  match thrown with
  | Error message => Some message
  | socket_Event => None
  end.

(** A value written into a template literal; [undefined] is written out. *)
Definition interpolated (value : option string) : string :=
  match value with
  | Some text => text
  | None => "undefined"
  end.

(** [connectToLocalHubFromDialog]; [serverIP] is the trimmed text of the
    input field and [fate] what becomes of the connection attempt. *)
Definition connectToLocalHubFromDialog (serverIP : string) (fate : Fate)
  : M (list DialogAction) :=
  if String.eqb serverIP "" then ret [alert "Please enter a server IP address"]
  else
    set_lastLocalHubIP (Some serverIP) ;;
    connected <- connectToLocalHub serverIP fate ;;
    match connected with
    | fulfilled true => ret [closeDialog; notify_connected]
    | fulfilled false =>
        ret [alert "Failed to connect. Please check the IP address and try again."]
    | rejected thrown =>
        ret [alert ("Connection failed: " ++ interpolated (message_of thrown))]
    end.

(** What the cache keeps of a Response received from the Hub. *)
Definition entry_of (response : Response) : PeerEntry :=
  {| peer_answer := resp_answer response;
     peer_reason := resp_reason response;
     peer_displayName := resp_displayName response;
     peer_timestamp := resp_timestamp response |}.

(** [localCache.peerData.get(questionId).get(userId)] *)
Definition peer (s : State) (questionId userId : string) : option PeerEntry :=
  match JsMap.get questionId (cache_peerData s) with
  | Some m => JsMap.get userId m
  | None => None
  end.

(** Whether a Response carries the given key. *)
Definition keyed (questionId userId : string) (r : Response) : bool :=
  String.eqb (resp_questionId r) questionId && String.eqb (resp_userId r) userId.

(** Whether an event is a call of [saveResponse] for the given question. *)
Definition saves (questionId : string) (e : Event) : bool :=
  match e with
  | Saves q _ _ _ => String.eqb q questionId
  | _ => false
  end.

(** A computation that leaves a part of the client's state as it was. *)
Definition keeps {A X} (f : State -> X) (c : M A) : Prop :=
  forall s, f (exec c s) = f s.

(** The state with further effects on its trace and nothing else
    changed. *)
Definition add_effects (l : list Effect) (s : State) : State :=
  {| connectionMode := connectionMode s;
     wsConnection := wsConnection s;
     wsReconnectAttempts := wsReconnectAttempts s;
     cache_responses := cache_responses s;
     cache_peerData := cache_peerData s;
     currentUser := currentUser s;
     lastLocalHubIP := lastLocalHubIP s;
     store_accepts := store_accepts s;
     trace := trace s ++ l |}.

(** The write of the user's document that a call of [saveQuizResponse] for
    [user] starts, the write of the class document that it starts if the
    first one succeeded, and what the call returns. *)
Definition first_write (accepts : DocRef -> bool) (user : User)
    (questionId : string) : Effect :=
  firestore_set (userResponseRef (uid user) questionId)
                (accepts (userResponseRef (uid user) questionId)).

Definition second_write (accepts : DocRef -> bool) (user : User)
    (questionId : string) : list Effect :=
  if accepts (userResponseRef (uid user) questionId)
  then [firestore_set (classResponseRef questionId (uid user))
                      (accepts (classResponseRef questionId (uid user)))]
  else [].

(** The call as [syncLocalToCloud] holds it between its two parts. *)
Definition suspended_for (accepts : DocRef -> bool) (user : User)
    (questionId : string) : Suspended :=
  awaits_user_write questionId (uid user)
    (if accepts (userResponseRef (uid user) questionId)
     then fulfilled tt else rejected (Error "write failed")).

Definition written_for (accepts : DocRef -> bool) (user : User)
    (questionId : string) : bool :=
  accepts (userResponseRef (uid user) questionId)
  && accepts (classResponseRef questionId (uid user)).

(** The user id a write of the remote store is filed under. *)
Definition doc_owner (doc : DocRef) : string :=
  match doc with
  | userResponseRef userId _ => userId
  | classResponseRef _ userId => userId
  end.

(** The message [saveResponse] sends over the link. *)
Definition submission_of (user : User) (questionId answer reason : string)
    (now : Z) : SubmitFields :=
  {| sub_questionId := questionId;
     sub_answer := answer;
     sub_reason := reason;
     sub_userId := uid user;
     sub_displayName := user_displayName user;
     sub_timestamp := Some now |}.

(** The key a Response carries in its own fields. *)
Definition key_of (r : Response) : string * string :=
  (resp_questionId r, resp_userId r).

End ClientMore.

(* ------------------------------------------------------------------ *)
(** ** The curriculum data file                                         *)
(* ------------------------------------------------------------------ *)

Module Curriculum.

(** A topic: [videos] and [quizzes] are [None] when the field is missing or
    is not an array; the items themselves are not looked at. *)
Record Topic (Item : Type) := {
  topic_videos : option (list Item);
  topic_quizzes : option (list Item)
}.

Record Unit_ (Item : Type) := {
  unit_topics : option (list (Topic Item))
}.

Record Counts := { totalVideos : nat; totalQuizzes : nat }.

Definition count_of {A} (field : option (list A)) : nat :=
  match field with
  | Some items => length items
  | None => 0%nat
  end.

(** The two nested [forEach] loops, with the running totals. *)
Definition count_topic {Item} (totals : Counts) (topic : Topic Item) : Counts :=
  {| totalVideos := (totalVideos totals + count_of (topic_videos topic))%nat;
     totalQuizzes := (totalQuizzes totals + count_of (topic_quizzes topic))%nat |}.

Definition count_unit {Item} (totals : Counts) (unit : Unit_ Item) : Counts :=
  match unit_topics unit with
  | Some topics => fold_left count_topic topics totals
  | None => totals
  end.

(** What [getTotalItemCounts] can be called with: nothing (or [undefined]),
    an array of units, or any other value ([null], a number, an object
    that is not an array). *)
Inductive Argument (Item : Type) :=
| undefined
| array (units : list (Unit_ Item))
| not_an_array.
Arguments undefined {Item}.
Arguments array {Item} units.
Arguments not_an_array {Item}.

(** [getTotalItemCounts(allUnitsDataArray = ALL_UNITS_DATA)]: the default
    takes the place of an argument that is left out or [undefined], and of
    no other.  The array the data file declares is the first parameter
    here, so that the function is stated for units of any content. *)
Definition getTotalItemCounts {Item} (ALL_UNITS_DATA : list (Unit_ Item))
    (argument : Argument Item) : Counts :=
  let allUnitsDataArray :=
    match argument with
    | undefined => array ALL_UNITS_DATA
    | given => given
    end in
  match allUnitsDataArray with
  | array units =>
      fold_left count_unit units {| totalVideos := 0; totalQuizzes := 0 |}
  | _ => {| totalVideos := 0; totalQuizzes := 0 |}
  end.

(** A topic and a unit of the data file, as far as [getTotalItemCounts]
    looks at them: every topic of the file has a [videos] and a [quizzes]
    array and every unit a [topics] array; the video and quiz objects,
    which the function does not look into, are written [tt]. *)
Definition topic (videos quizzes : nat) : Topic unit :=
  {| topic_videos := Some (repeat tt videos);
     topic_quizzes := Some (repeat tt quizzes) |}.

Definition unit_of (topics : list (Topic unit)) : Unit_ unit :=
  {| unit_topics := Some topics |}.

(** [ALL_UNITS_DATA]: the nine units of the data file, each topic with the
    numbers of its video and quiz objects. *)
Definition ALL_UNITS_DATA : list (Unit_ unit) :=
  [
   (* unit1 *)
   unit_of
     [topic 1 0; topic 1 1; topic 1 1; topic 2 1; topic 1 1; topic 1 1;
       topic 2 1; topic 1 1; topic 1 1; topic 3 1; topic 0 3];
   (* unit2 *)
   unit_of
     [topic 1 0; topic 1 1; topic 1 1; topic 2 1; topic 2 1; topic 2 1;
       topic 2 1; topic 3 1; topic 2 1; topic 0 3];
   (* unit3 *)
   unit_of
     [topic 1 0; topic 1 1; topic 2 1; topic 1 1; topic 3 1; topic 2 1;
       topic 1 1; topic 0 3];
   (* unit4 *)
   unit_of
     [topic 1 0; topic 2 1; topic 1 1; topic 1 1; topic 1 1; topic 3 1;
       topic 2 1; topic 1 1; topic 2 1; topic 1 1; topic 1 1; topic 2 1;
       topic 0 4];
   (* unit5 *)
   unit_of
     [topic 1 0; topic 3 1; topic 2 1; topic 1 1; topic 2 1; topic 2 1;
       topic 2 1; topic 2 1; topic 0 4];
   (* unit6 *)
   unit_of
     [topic 1 0; topic 3 1; topic 3 1; topic 2 1; topic 2 1; topic 2 1;
       topic 2 1; topic 2 1; topic 2 1; topic 2 1; topic 3 1; topic 0 5];
   (* unit7 *)
   unit_of
     [topic 1 0; topic 3 1; topic 3 1; topic 2 1; topic 3 1; topic 2 1;
       topic 2 1; topic 2 1; topic 3 1; topic 2 0; topic 0 4];
   (* unit8 *)
   unit_of
     [topic 1 0; topic 3 1; topic 3 1; topic 1 1; topic 2 1; topic 3 1;
       topic 1 0; topic 0 3];
   (* unit9 *)
   unit_of
     [topic 1 0; topic 3 1; topic 2 1; topic 2 1; topic 3 1; topic 1 0;
       topic 0 3]
  ].

(** The video objects and the quiz objects of one unit. *)
Definition videos_of_unit {Item} (unit : Unit_ Item) : nat :=
  match unit_topics unit with
  | Some topics => list_sum (map (fun t => count_of (topic_videos t)) topics)
  | None => 0%nat
  end.

Definition quizzes_of_unit {Item} (unit : Unit_ Item) : nat :=
  match unit_topics unit with
  | Some topics => list_sum (map (fun t => count_of (topic_quizzes t)) topics)
  | None => 0%nat
  end.

End Curriculum.

(* ------------------------------------------------------------------ *)
(** ** Further sample data                                              *)
(* ------------------------------------------------------------------ *)

Module Scenarios.

(** A machine with a loopback interface and one wired interface that has
    an IPv6 and an IPv4 address. *)
Definition interfaces : list (string * list Network.Iface) :=
  [("lo", [{| Network.iface_internal := true;
              Network.iface_family := "IPv4";
              Network.iface_address := "127.0.0.1" |}]);
   ("eth0", [{| Network.iface_internal := false;
                Network.iface_family := "IPv6";
                Network.iface_address := "fe80::1" |};
             {| Network.iface_internal := false;
                Network.iface_family := "IPv4";
                Network.iface_address := "192.168.1.100" |}])].

(** Three connections, the first and the third identified as the same
    user. *)
Definition hub_shared_user : Hub.State :=
  Hub.run [Hub.Accept 1%nat "10.0.0.1" "a"; Hub.Accept 2%nat "10.0.0.2" "b";
           Hub.Accept 3%nat "10.0.0.3" "c";
           Hub.Message 1%nat (Some (identify "u1" "Ann"));
           Hub.Message 3%nat (Some (identify "u1" "Ann"))]
          (Hub.initial Samples.clk).

(** A second signed-in user, on another device. *)
Definition bob : Client.User :=
  {| Client.uid := "u2"; Client.user_displayName := Some "Bob";
     Client.user_email := None |}.

(** Bob's client, linked to the Hub, with nothing cached. *)
Definition client_bob : Client.State :=
  {| Client.connectionMode := Client.local;
     Client.wsConnection :=
       Some {| Client.ws_url := "ws://192.168.1.100:8080";
               Client.ws_readyState := OPEN |};
     Client.wsReconnectAttempts := 0;
     Client.cache_responses := [];
     Client.cache_peerData := [];
     Client.currentUser := Some bob;
     Client.lastLocalHubIP := Some "192.168.1.100:8080";
     Client.store_accepts := fun _ => true;
     Client.trace := [] |}.

End Scenarios.

(* ================================================================== *)
(** * Properties                                                        *)
(* ================================================================== *)

Unset Implicit Arguments.

Lemma key_eqb_refl {K} `{JsKey K} (k : K) : key_eqb k k = true.
Proof. now apply key_eqb_eq. Qed.

Lemma key_eqb_neq {K} `{JsKey K} (a b : K) : a <> b -> key_eqb a b = false.
Proof.
  intros Hne. destruct (key_eqb a b) eqn:E; [|reflexivity].
  apply key_eqb_eq in E. contradiction.
Qed.

Lemma skipn_length_app {A} (l r : list A) : skipn (length l) (l ++ r) = r.
Proof. induction l; simpl; auto. Qed.

Lemma bind_run {S A B} (c : StateM S A) (k : A -> StateM S B) (s : S) :
  bind c k s = k (result c s) (exec c s).
Proof. unfold bind, result, exec. now destruct (c s). Qed.

Lemma exec_bind {S A B} (c : StateM S A) (k : A -> StateM S B) (s : S) :
  exec (bind c k) s = exec (k (result c s)) (exec c s).
Proof. unfold exec at 1. now rewrite bind_run. Qed.

Module JsMapFacts.
Section Facts.
Context {K V : Type} `{JsKey K}.
Implicit Types (k : K) (v : V) (m : JsMap.t K V).

Lemma get_set_same k v m : JsMap.get k (JsMap.set k v m) = Some v.
Proof.
  induction m as [|[k' v'] rest IH]; simpl.
  - now rewrite key_eqb_refl.
  - destruct (key_eqb k k') eqn:E; simpl; rewrite E; auto.
Qed.

Lemma get_set_other k k' v m :
  k <> k' -> JsMap.get k' (JsMap.set k v m) = JsMap.get k' m.
Proof.
  intros Hne. induction m as [|[k0 v0] rest IH]; simpl.
  - rewrite (key_eqb_neq k' k); congruence.
  - destruct (key_eqb k k0) eqn:E; simpl.
    + apply key_eqb_eq in E; subst k0.
      rewrite (key_eqb_neq k' k); congruence.
    + destruct (key_eqb k' k0); auto.
Qed.

Lemma get_In k v m : JsMap.get k m = Some v -> In (k, v) m.
Proof.
  induction m as [|[k' v'] rest IH]; simpl; [discriminate|].
  destruct (key_eqb k k') eqn:E.
  - apply key_eqb_eq in E. intros [= ->]. subst. now left.
  - intros Hg. right. auto.
Qed.

Lemma In_set_inv kv k v m :
  In kv (JsMap.set k v m) -> kv = (k, v) \/ In kv m.
Proof.
  induction m as [|[k' v'] rest IH]; simpl.
  - intros [<-|[]]. now left.
  - destruct (key_eqb k k') eqn:E; simpl.
    + apply key_eqb_eq in E; subst k'. intros [<-|Hin]; auto.
    + intros [<-|Hin]; auto. destruct (IH Hin); auto.
Qed.

Lemma set_not_empty k v m : JsMap.set k v m <> [].
Proof.
  destruct m as [|[k' v'] rest]; simpl; [|destruct (key_eqb k k')]; discriminate.
Qed.

Lemma set_set k v v' m :
  JsMap.set k v (JsMap.set k v' m) = JsMap.set k v m.
Proof.
  induction m as [|[k0 v0] rest IH]; simpl.
  - now rewrite key_eqb_refl.
  - destruct (key_eqb k k0) eqn:E; simpl; rewrite E; [reflexivity|].
    now rewrite IH.
Qed.

Lemma has_set_same k v m : JsMap.has k (JsMap.set k v m) = true.
Proof. unfold JsMap.has. now rewrite get_set_same. Qed.

Lemma get_delete_same k m : JsMap.get k (JsMap.delete k m) = None.
Proof.
  unfold JsMap.delete. induction m as [|[k' v'] rest IH]; simpl; auto.
  destruct (key_eqb k k') eqn:E; simpl; auto. now rewrite E.
Qed.

End Facts.
End JsMapFacts.

Module JsSetFacts.
Section Facts.
Context {K : Type} `{JsKey K}.
Implicit Types (k : K) (s : JsSet.t K).

Lemma has_app k s1 s2 : JsSet.has k (s1 ++ s2) = JsSet.has k s1 || JsSet.has k s2.
Proof.
  induction s1 as [|k' rest IH]; simpl; auto.
  destruct (key_eqb k k'); auto.
Qed.

Lemma has_add k s : JsSet.has k (JsSet.add k s) = true.
Proof.
  unfold JsSet.add. destruct (JsSet.has k s) eqn:E; auto.
  rewrite has_app, E. simpl. now rewrite key_eqb_refl.
Qed.

Lemma has_delete k s : JsSet.has k (JsSet.delete k s) = false.
Proof.
  unfold JsSet.delete. induction s as [|k' rest IH]; simpl; auto.
  destruct (key_eqb k k') eqn:E; simpl; auto. now rewrite E.
Qed.

End Facts.
End JsSetFacts.

(* ------------------------------------------------------------------ *)
(** ** The Hub's primitives                                             *)
(* ------------------------------------------------------------------ *)

Module HubFacts.
Import Hub.

Lemma forEach_send (f : Ws * ReadyState -> bool) (message : ServerMsg)
    (l : list (Ws * ReadyState)) (s : State) :
  forEach l (fun client => if f client then ws_send (fst client) message
                           else ret tt) s
  = (tt, deliver (map (fun c => (fst c, message)) (filter f l)) s).
Proof.
  revert s. induction l as [|c rest IH]; intros s.
  - destruct s. unfold deliver. simpl. unfold ret. now rewrite app_nil_r.
  - simpl. rewrite bind_run. destruct (f c) eqn:E.
    + rewrite IH. unfold exec, ws_send, deliver. simpl.
      now rewrite <- app_assoc.
    + rewrite IH. reflexivity.
Qed.

Lemma broadcast_run (message : ServerMsg) (senderWs : option Ws) (s : State) :
  broadcast message senderWs s
  = (tt, deliver (map (fun w => (w, message)) (recipients senderWs s)) s).
Proof.
  unfold broadcast. rewrite bind_run. unfold gets, result, exec. simpl.
  rewrite (forEach_send (fun c => differs (fst c) senderWs && is_OPEN (snd c))).
  unfold recipients. now rewrite map_map.
Qed.

Lemma sendToClient_run (ws : Ws) (message : ServerMsg) (s : State) :
  sendToClient ws message s
  = (tt, deliver (if is_open ws s then [(ws, message)] else []) s).
Proof.
  unfold sendToClient, is_open. rewrite bind_run.
  unfold readyState, gets, result, exec. simpl.
  destruct (is_OPEN _); [reflexivity|].
  destruct s. unfold ret, deliver. simpl. now rewrite app_nil_r.
Qed.

Lemma timestamp_or_now_run (t : option Z) (s : State) :
  sessionData (exec (timestamp_or_now t) s) = sessionData s
  /\ wss_clients (exec (timestamp_or_now t) s) = wss_clients s
  /\ connectedClients (exec (timestamp_or_now t) s) = connectedClients s
  /\ wire (exec (timestamp_or_now t) s) = wire s
  /\ result (timestamp_or_now t) s
     = match t with
       | Some t => if t =? 0 then clock s (ticks s) else t
       | None => clock s (ticks s)
       end.
Proof.
  unfold timestamp_or_now. destruct t as [t|]; [destruct (t =? 0)|]; repeat split.
Qed.

Lemma is_open_eq (ws : Ws) (s : State) :
  is_open ws s
  = is_OPEN (match JsMap.get ws (wss_clients s) with
             | Some st => st
             | None => CLOSED
             end).
Proof. reflexivity. Qed.

(** Runs the primitive operations of a handler; [sendToClient] and
    [broadcast] are replaced by their effect on the wire. *)
Ltac hub_simpl :=
  cbn [bind ret gets exec result fst snd Date_now set_connectedClients
       set_sessionData set_wss_clients ws_send deliver
       connectedClients sessionData wss_clients clock ticks wire
       startTime totalConnections activeUsers responses
       with_totalConnections with_activeUsers with_responses].

Ltac hub_run :=
  repeat first [ rewrite sendToClient_run | rewrite broadcast_run
               | progress hub_simpl | rewrite bind_run
               | progress unfold exec, result ].

End HubFacts.

(* ------------------------------------------------------------------ *)
(** ** Submissions at the Hub                                           *)
(* ------------------------------------------------------------------ *)

Module HubSubmit.
Import Hub HubFacts.

Lemma submit_responses (ws : Ws) (m : SubmitFields) (s : State) :
  responses (sessionData (exec (handleClientMessage ws (submit_response m)) s))
  = JsMap.set (sub_questionId m)
      (JsMap.set (sub_userId m) (response_of m (stamp (sub_timestamp m) s))
         (match JsMap.get (sub_questionId m) (responses (sessionData s)) with
          | Some userResponses => userResponses
          | None => JsMap.empty
          end))
      (responses (sessionData s)).
Proof.
  unfold handleClientMessage.
  rewrite exec_bind. set (s1 := exec (set_sessionData _) s).
  rewrite exec_bind.
  set (ts := result (timestamp_or_now _) s1).
  set (s2 := exec (timestamp_or_now _) s1).
  rewrite exec_bind. set (s3 := exec (set_sessionData _) s2).
  rewrite exec_bind.
  set (ts' := result (timestamp_or_now _) s3).
  set (s4 := exec (timestamp_or_now _) s3).
  rewrite exec_bind. unfold exec at 1 2.
  rewrite sendToClient_run, broadcast_run. cbn [snd deliver sessionData].
  assert (H4 : sessionData s4 = sessionData s3)
    by apply (timestamp_or_now_run (sub_timestamp m) s3).
  assert (H2 : sessionData s2 = sessionData s1)
    by apply (timestamp_or_now_run (sub_timestamp m) s1).
  assert (Hts : ts = stamp (sub_timestamp m) s)
    by (subst ts; destruct (timestamp_or_now_run (sub_timestamp m) s1)
          as (_ & _ & _ & _ & ->); reflexivity).
  rewrite H4. subst s3. unfold exec at 1, set_sessionData at 1.
  cbn [snd sessionData]. rewrite H2, Hts.
  fold (response_of m (stamp (sub_timestamp m) s)).
  subst s1. unfold exec, set_sessionData. cbn [snd sessionData].
  unfold JsMap.has.
  destruct (JsMap.get (sub_questionId m) (responses (sessionData s))) as [ur|] eqn:E.
  - rewrite E. reflexivity.
  - cbn [responses with_responses]. rewrite JsMapFacts.get_set_same.
    cbn [responses with_responses]. now rewrite JsMapFacts.set_set.
Qed.

Lemma stored_submit_same (ws : Ws) (m : SubmitFields) (s : State) :
  stored (exec (handleClientMessage ws (submit_response m)) s)
         (sub_questionId m) (sub_userId m)
  = Some (response_of m (stamp (sub_timestamp m) s)).
Proof.
  unfold stored. rewrite submit_responses.
  rewrite JsMapFacts.get_set_same. apply JsMapFacts.get_set_same.
Qed.

Lemma stored_submit_other (ws : Ws) (m : SubmitFields) (s : State)
    (questionId userId : string) :
  has_key questionId userId m = false ->
  stored (exec (handleClientMessage ws (submit_response m)) s) questionId userId
  = stored s questionId userId.
Proof.
  unfold has_key, stored. intros Hk. rewrite submit_responses.
  destruct (String.eqb (sub_questionId m) questionId) eqn:Eq.
  - apply String.eqb_eq in Eq. subst questionId. simpl in Hk.
    apply String.eqb_neq in Hk.
    rewrite JsMapFacts.get_set_same.
    rewrite JsMapFacts.get_set_other by assumption.
    now destruct (JsMap.get (sub_questionId m) (responses (sessionData s))).
  - apply String.eqb_neq in Eq.
    now rewrite JsMapFacts.get_set_other by assumption.
Qed.

Lemma run_app (l1 l2 : list Event) (s : State) :
  run (l1 ++ l2) s = run l2 (run l1 s).
Proof. unfold run. apply fold_left_app. Qed.

Lemma stored_run_others (q u : string) (l : list (Ws * SubmitFields)) :
  Forall (fun p => has_key q u (snd p) = false) l ->
  forall s, stored (run (submissions l) s) q u = stored s q u.
Proof.
  induction 1 as [|[ws m] rest Hk _ IH]; intros s; [reflexivity|].
  simpl. rewrite IH. unfold step, on_message. now apply stored_submit_other.
Qed.

(** C1. Whatever submissions were handled before, and whatever submissions
    under other keys are handled after, the value the Hub holds under
    (questionId, userId) is the Response built from the last submission
    under that key: its fields as sent, with the timestamp it carries (the
    server's clock reading when it carries none).  No timestamp is compared:
    nothing is assumed about the timestamps of the earlier submissions. *)
Theorem hub_last_submission_wins :
  forall (s : State) (before after : list (Ws * SubmitFields))
         (ws : Ws) (m : SubmitFields),
    Forall (fun p => has_key (sub_questionId m) (sub_userId m) (snd p) = false)
           after ->
    let s0 := run (submissions before) s in
    stored (run (submissions (before ++ (ws, m) :: after)) s)
           (sub_questionId m) (sub_userId m)
    = Some (response_of m (stamp (sub_timestamp m) s0))
    /\ (forall t, sub_timestamp m = Some t -> t <> 0 ->
        stamp (sub_timestamp m) s0 = t).
Proof.
  intros s before after ws m Hafter s0. split.
  - unfold submissions. rewrite map_app, run_app. simpl.
    fold (submissions before). fold s0. fold (submissions after).
    rewrite stored_run_others by assumption.
    unfold step, on_message. apply stored_submit_same.
  - intros t -> Hne. simpl. apply Z.eqb_neq in Hne. now rewrite Hne.
Qed.

(** C1, on the specification's scenario: answer B stamped 100, then answer C
    stamped 50 from the same user, then another user's answer. *)
Lemma hub_last_submission_wins_witness :
  Hub.stored
    (Hub.run (Hub.submissions [(1%nat, Samples.submit_B_100);
                               (1%nat, Samples.submit_C_50);
                               (2%nat, Samples.submit_other)])
             Samples.hub_two)
    "Q1" "u1"
  = Some (Hub.response_of Samples.submit_C_50 50).
Proof.
  apply (hub_last_submission_wins Samples.hub_two
           [(1%nat, Samples.submit_B_100)]
           [(2%nat, Samples.submit_other)]
           1%nat Samples.submit_C_50).
  constructor; [reflexivity | constructor].
Defined.

End HubSubmit.

(* ------------------------------------------------------------------ *)
(** ** What the Hub's handlers leave unchanged                          *)
(* ------------------------------------------------------------------ *)

Module HubFrame.
Import Hub HubFacts.

Section Preserves.
Context {X : Type} (f : State -> X).

Lemma preserves_ret {A} (a : A) : preserves f (ret a : M A).
Proof. intros s. reflexivity. Qed.

Lemma preserves_gets {A} (g : State -> A) : preserves f (gets g : M A).
Proof. intros s. reflexivity. Qed.

Lemma preserves_bind {A B} (c : M A) (k : A -> M B) :
  preserves f c -> (forall a, preserves f (k a)) -> preserves f (bind c k).
Proof. intros Hc Hk s. rewrite exec_bind, Hk. apply Hc. Qed.

Lemma preserves_forEach {A} (l : list A) (g : A -> M unit) :
  (forall x, preserves f (g x)) -> preserves f (forEach l g).
Proof.
  intros Hg. induction l as [|x rest IH]; simpl.
  - apply preserves_ret.
  - apply preserves_bind; auto.
Qed.

Lemma preserves_deliver :
  (forall frames s, f (deliver frames s) = f s) ->
  (forall ws message, preserves f (sendToClient ws message))
  /\ (forall message senderWs, preserves f (broadcast message senderWs)).
Proof.
  intros Hd. split; intros; intros s; unfold exec.
  - rewrite sendToClient_run. apply Hd.
  - rewrite broadcast_run. apply Hd.
Qed.

End Preserves.

Create HintDb hubframe.

#[export] Hint Resolve preserves_ret preserves_gets preserves_forEach : hubframe.

(** Splits a handler into its primitive operations. *)
Ltac frame_steps :=
  repeat first
    [ apply preserves_bind; [|intro]
    | apply preserves_forEach; intro
    | apply preserves_ret
    | apply preserves_gets
    | match goal with
      | |- preserves _ (if ?b then _ else _) => destruct b
      | |- preserves _ (match ?x with _ => _ end) => destruct x
      end ].

Lemma stored_map_sendToClient ws message : preserves stored_map (sendToClient ws message).
Proof. apply (preserves_deliver stored_map). reflexivity. Qed.

Lemma stored_map_broadcast message senderWs :
  preserves stored_map (broadcast message senderWs).
Proof. apply (preserves_deliver stored_map). reflexivity. Qed.

Lemma stored_map_Date_now : preserves stored_map Date_now.
Proof. intros s. reflexivity. Qed.

Lemma stored_map_ws_send ws message : preserves stored_map (ws_send ws message).
Proof. intros s. reflexivity. Qed.

Lemma stored_map_set_connectedClients g : preserves stored_map (set_connectedClients g).
Proof. intros s. reflexivity. Qed.

Lemma stored_map_set_wss_clients g : preserves stored_map (set_wss_clients g).
Proof. intros s. reflexivity. Qed.

Lemma stored_map_set_activeUsers (g : SessionData -> JsSet.t string) :
  preserves stored_map (set_sessionData (fun d => with_activeUsers (g d) d)).
Proof. intros s. reflexivity. Qed.

Lemma stored_map_set_totalConnections (g : SessionData -> nat) :
  preserves stored_map (set_sessionData (fun d => with_totalConnections (g d) d)).
Proof. intros s. reflexivity. Qed.

#[export] Hint Resolve stored_map_sendToClient stored_map_broadcast
  stored_map_Date_now stored_map_ws_send stored_map_set_connectedClients
  stored_map_set_wss_clients stored_map_set_activeUsers
  stored_map_set_totalConnections : hubframe.

Lemma stored_map_on_connection ws ip rnd : preserves stored_map (on_connection ws ip rnd).
Proof. unfold on_connection. frame_steps; auto with hubframe. Qed.

Lemma stored_map_on_close ws : preserves stored_map (on_close ws).
Proof. unfold on_close. frame_steps; auto with hubframe. Qed.

Lemma stored_map_on_pong ws : preserves stored_map (on_pong ws).
Proof. unfold on_pong. auto with hubframe. Qed.

Lemma stored_map_heartbeat : preserves stored_map heartbeat.
Proof. unfold heartbeat. frame_steps; auto with hubframe. Qed.

Lemma stored_map_other_messages ws data :
  (forall m, data <> Some (submit_response m)) ->
  preserves stored_map (on_message ws data).
Proof.
  intros Hns. unfold on_message. destruct data as [message|]; auto with hubframe.
  destruct message; try (exfalso; eapply Hns; reflexivity);
    unfold handleClientMessage; frame_steps; auto with hubframe.
Qed.

End HubFrame.

(* ------------------------------------------------------------------ *)
(** ** Invariant of the stored map, and the welcome of a new connection *)
(* ------------------------------------------------------------------ *)

Module HubConnect.
Import Hub HubFacts HubFrame.

Lemma Forall_set {V} (P : string * V -> Prop) (k : string) (v : V)
    (m : JsMap.t string V) :
  (forall k', P (k', v)) -> Forall P m -> Forall P (JsMap.set k v m).
Proof.
  intros Hv Hm. induction Hm as [|[k0 v0] rest H0 Hrest IH]; simpl.
  - constructor; auto.
  - destruct (k =? k0)%string; constructor; auto.
Qed.

Lemma nonempty_same (s s' : State) :
  stored_map s' = stored_map s -> questions_nonempty s -> questions_nonempty s'.
Proof. unfold questions_nonempty. now intros ->. Qed.

Lemma nonempty_cleanup (s : State) : questions_nonempty (exec cleanup s).
Proof.
  unfold questions_nonempty, stored_map, cleanup.
  rewrite exec_bind. unfold exec, set_sessionData. cbn [snd sessionData].
  cbn [responses with_responses].
  apply Forall_forall. intros q Hq. apply filter_In in Hq as [_ Hq].
  destruct q as [k [|e m]]; simpl in *; [discriminate Hq | discriminate].
Qed.

Lemma nonempty_step (e : Event) (s : State) :
  questions_nonempty s -> questions_nonempty (exec (step e) s).
Proof.
  intros Hs. destruct e as [ws ip rnd|ws data|ws|ws| |]; simpl.
  - apply nonempty_same with (s := s); [|assumption]. rewrite exec_bind.
    now rewrite stored_map_on_connection.
  - destruct data as [[uid dn|m| | | |ty]|];
      try (apply nonempty_same with (s := s); [|assumption];
           apply stored_map_other_messages; discriminate).
    unfold questions_nonempty, stored_map, on_message.
    rewrite HubSubmit.submit_responses. apply Forall_set; auto.
    intros k'. simpl. apply JsMapFacts.set_not_empty.
  - apply nonempty_same with (s := s); [|assumption]. rewrite exec_bind.
    now rewrite stored_map_on_close.
  - apply nonempty_same with (s := s); [|assumption]. apply stored_map_on_pong.
  - apply nonempty_same with (s := s); [|assumption]. apply stored_map_heartbeat.
  - apply nonempty_cleanup.
Qed.

Lemma nonempty_run (events : list Event) (s : State) :
  questions_nonempty s -> questions_nonempty (run events s).
Proof.
  revert s. induction events as [|e rest IH]; intros s Hs; simpl; auto.
  apply IH. now apply nonempty_step.
Qed.

Lemma reachable_nonempty (s : State) : reachable s -> questions_nonempty s.
Proof.
  intros (clk & events & ->). apply nonempty_run. constructor.
Qed.

Lemma stored_in_all (s : State) (q u : string) (r : Response) :
  stored s q u = Some r -> In r (all_responses (stored_map s)).
Proof.
  unfold stored, all_responses, stored_map.
  destruct (JsMap.get q (responses (sessionData s))) as [m|] eqn:E; [|discriminate].
  intros Hu. apply in_flat_map. exists (q, m). split.
  - now apply JsMapFacts.get_In.
  - simpl. apply in_map_iff. exists (u, r). split; auto.
    now apply JsMapFacts.get_In.
Qed.

Lemma on_connection_wire (ws : Ws) (ip rnd : string) (s : State) :
  is_open ws s = true ->
  wire (exec (on_connection ws ip rnd) s)
  = wire s
    ++ (ws, welcome {| cid_time := clock s (ticks s); cid_rand := rnd |}
                    (clock s (S (S (ticks s))))
                    (JsSet.size (activeUsers (sessionData s))))
    :: (if (0 <? JsMap.size (stored_map s))%nat
        then if (0 <? length (all_responses (stored_map s)))%nat
             then [(ws, bulk_update (all_responses (stored_map s)))]
             else []
        else []).
Proof.
  intros Hopen. unfold on_connection, exec. hub_run.
  rewrite is_open_eq in *. hub_run. rewrite Hopen.
  unfold stored_map.
  destruct (0 <? JsMap.size (responses (sessionData s)))%nat;
    [destruct (0 <? length (all_responses (responses (sessionData s))))%nat|];
    hub_run; try rewrite is_open_eq; hub_run; try rewrite Hopen;
    hub_run; try rewrite <- app_assoc; try rewrite app_nil_r; reflexivity.
Qed.

(** C7. In every state the Hub can reach, if the map of stored Responses is
    not empty, accepting a connection sends to the new socket, as part of
    the connection handler itself and before any message of that client is
    handled, first the welcome and then one [bulk_update] that lists every
    stored Response; so each stored Response reaches a client that never
    sends [request_sync]. *)
Theorem bulk_update_on_connect :
  forall (s : State) (ws : Ws) (ip rnd : string),
    reachable s ->
    stored_map s <> [] ->
    exists id serverTime n,
      sent_by (step (Accept ws ip rnd)) s
      = [(ws, welcome id serverTime n);
         (ws, bulk_update (all_responses (stored_map s)))]
      /\ (forall q u r, stored s q u = Some r ->
                        In r (all_responses (stored_map s))).
Proof.
  intros s ws ip rnd Hreach Hne.
  exists {| cid_time := clock s (ticks s); cid_rand := rnd |},
         (clock s (S (S (ticks s)))),
         (JsSet.size (activeUsers (sessionData s))).
  split; [|intros q u r; apply stored_in_all].
  apply reachable_nonempty in Hreach.
  unfold sent_by, step. rewrite exec_bind.
  rewrite on_connection_wire.
  - unfold exec, set_wss_clients. cbn [snd wire stored_map sessionData clock ticks].
    rewrite skipn_length_app.
    unfold questions_nonempty, stored_map in *. cbn [sessionData].
    destruct (responses (sessionData s)) as [|[q [|e m]] rest];
      [contradiction| |reflexivity].
    inversion Hreach; subst. simpl in *. contradiction.
  - rewrite is_open_eq. unfold exec, set_wss_clients.
    cbn [snd wss_clients]. now rewrite JsMapFacts.get_set_same.
Qed.

(** C7 on a Hub holding one Response when a third client connects. *)
Lemma bulk_update_on_connect_witness :
  exists id serverTime n,
    Hub.sent_by (Hub.step (Hub.Accept 3%nat "10.0.0.3" "c")) Samples.hub_with_data
    = [(3%nat, welcome id serverTime n);
       (3%nat, bulk_update [Hub.response_of Samples.submit_B_100 100])]
    /\ (forall q u r, Hub.stored Samples.hub_with_data q u = Some r ->
                      In r [Hub.response_of Samples.submit_B_100 100]).
Proof.
  apply (bulk_update_on_connect Samples.hub_with_data 3%nat "10.0.0.3" "c").
  - exists Samples.clk.
    exists [Hub.Accept 1%nat "10.0.0.1" "a"; Hub.Accept 2%nat "10.0.0.2" "b";
            Hub.Message 1%nat (Some (identify "u1" "Ann"));
            Hub.Message 1%nat (Some (submit_response Samples.submit_B_100))].
    vm_compute. reflexivity.
  - vm_compute. discriminate.
Defined.

End HubConnect.

(* ------------------------------------------------------------------ *)
(** ** request_sync, identify and close                                 *)
(* ------------------------------------------------------------------ *)

Module HubSession.
Import Hub HubFacts HubFrame.

(** C9. Handling [request_sync] changes none of [responses], [activeUsers]
    and [connections]; the only frame it sends is the [sync_response] to
    the requesting socket (none if that socket is not open); and a second
    [request_sync] handled right after the first yields a reply with the
    same [responses] and the same [activeUsers], only the reply's own
    timestamp being read from the clock again. *)
Theorem request_sync_idempotent :
  forall (s : State) (ws : Ws),
    let c := on_message ws (Some request_sync) in
    let s1 := exec c s in
    let reply now :=
      if is_open ws s
      then [(ws, sync_response (all_responses (stored_map s))
                               (JsSet.to_array (activeUsers (sessionData s)))
                               now)]
      else [] in
    (sessionData s1 = sessionData s
     /\ connectedClients s1 = connectedClients s
     /\ wss_clients s1 = wss_clients s)
    /\ sent_by c s = reply (clock s (ticks s))
    /\ sent_by c s1 = reply (clock s (S (ticks s))).
Proof.
  intros s ws c s1 reply. subst c s1 reply.
  unfold sent_by, on_message, handleClientMessage, exec. hub_run.
  repeat rewrite is_open_eq. hub_simpl. repeat rewrite skipn_length_app.
  repeat split.
Qed.

Lemma open_is_recipient (ws : Ws) (s : State) :
  is_open ws s = true -> In ws (recipients None s).
Proof.
  rewrite is_open_eq. unfold recipients. intros Hopen.
  destruct (JsMap.get ws (wss_clients s)) as [st|] eqn:E; [|discriminate].
  apply JsMapFacts.get_In in E. apply in_map_iff. exists (ws, st).
  split; [reflexivity|]. apply filter_In. split; [assumption|]. exact Hopen.
Qed.

(** C4, as the code has it. Handling [identify] on a registered connection
    records userId and displayName on that connection and adds userId to
    [activeUsers]; [user_joined] is then sent to every open connection,
    the identifying one included; the [identified] reply goes to the sender
    alone. *)
Theorem identify_notifies_every_connection :
  forall (s : State) (ws : Ws) (clientInfo : ClientInfo)
         (userId displayName : string),
    JsMap.get ws (connectedClients s) = Some clientInfo ->
    let c := on_message ws (Some (identify userId displayName)) in
    let s' := exec c s in
    let users := JsSet.add userId (activeUsers (sessionData s)) in
    (exists info, JsMap.get ws (connectedClients s') = Some info
                  /\ ci_userId info = Some userId
                  /\ ci_displayName info = Some displayName)
    /\ activeUsers (sessionData s') = users
    /\ JsSet.has userId users = true
    /\ sent_by c s
       = map (fun w => (w, user_joined userId displayName (JsSet.size users)))
             (recipients None s)
         ++ (if is_open ws s
             then [(ws, identified true (JsSet.to_array users))]
             else [])
    /\ (is_open ws s = true -> In ws (recipients None s)).
Proof.
  intros s ws clientInfo userId displayName Hreg c s' users. subst c s' users.
  unfold sent_by, on_message, handleClientMessage, exec. hub_run.
  rewrite Hreg. repeat split.
  - eexists. split; [apply JsMapFacts.get_set_same|]. split; reflexivity.
  - apply JsSetFacts.has_add.
  - rewrite <- app_assoc, skipn_length_app. reflexivity.
  - apply open_is_recipient.
Qed.

(** C4, on the first of two open connections: the sender is among those
    that [user_joined] is sent to. *)
Lemma identify_notifies_every_connection_witness :
  In 1%nat (Hub.recipients None Samples.hub_fresh).
Proof.
  refine (proj2 (proj2 (proj2 (proj2
            (identify_notifies_every_connection
               Samples.hub_fresh 1%nat _ "u1" "Ann" _)))) _).
  - vm_compute. reflexivity.
  - vm_compute. reflexivity.
Defined.

(** C4 with the sender excluded does not hold: with two open connections,
    the one that identifies itself receives the [user_joined] frame too. *)
Lemma identify_sender_not_excluded :
  ~ Hub.sender_excluded 1%nat
      (Hub.sent_by (Hub.on_message 1%nat (Some (identify "u1" "Ann")))
                   Samples.hub_fresh).
Proof.
  intros Hex. apply (Hex 1%nat "u1" "Ann" 1%nat); [|reflexivity].
  vm_compute. left. reflexivity.
Qed.

Lemma remaining_recipients (ws w : Ws) (clients : JsMap.t Ws ReadyState) :
  In w (map fst (filter (fun c => differs (fst c) (Some ws) && is_OPEN (snd c))
                        (JsMap.delete ws clients)))
  <-> w <> ws /\ In (w, OPEN) clients.
Proof.
  unfold JsMap.delete. rewrite in_map_iff. split.
  - intros ([w' st] & Hw & Hin). simpl in Hw. subst w'.
    apply filter_In in Hin as [Hin Hc]. apply filter_In in Hin as [Hin _].
    simpl in Hc. apply andb_prop in Hc as [Hd Ho].
    destruct st; try discriminate. split; [|assumption].
    intros ->. now rewrite Nat.eqb_refl in Hd.
  - intros [Hne Hin]. exists (w, OPEN). split; [reflexivity|].
    apply filter_In. split.
    + apply filter_In. split; [assumption|]. simpl.
      apply negb_true_iff, Nat.eqb_neq. congruence.
    + simpl. rewrite andb_true_r. now apply negb_true_iff, Nat.eqb_neq.
Qed.

Lemma close_wss_clients (ws : Ws) (s : State) :
  recipients (Some ws) (exec (step (Close ws)) s)
  = map fst (filter (fun c => differs (fst c) (Some ws) && is_OPEN (snd c))
                    (JsMap.delete ws (wss_clients s))).
Proof.
  unfold step, on_close, exec, recipients. hub_run.
  destruct (JsMap.get ws (connectedClients s)) as [ci|];
    [destruct (truthy_string (ci_userId ci)); [destruct (ci_userId ci)|]|];
    hub_run; reflexivity.
Qed.

(** C8, as the code has it. When a connection closes, the stored Responses
    are exactly what they were and the connection's entry is gone from
    [connections].  If the connection carried a non-empty userId, that
    userId is no longer in [activeUsers] and one [user_disconnected] frame
    goes to each remaining open connection, never to the closed one;
    otherwise (no userId, or an empty one) [activeUsers] is untouched and
    nothing is sent. *)
Theorem close_keeps_responses :
  forall (s : State) (ws : Ws),
    let c := step (Close ws) in
    let s' := exec c s in
    stored_map s' = stored_map s
    /\ JsMap.get ws (connectedClients s') = None
    /\ (forall w, In w (recipients (Some ws) s')
                  <-> w <> ws /\ In (w, OPEN) (wss_clients s))
    /\ (forall clientInfo userId,
          JsMap.get ws (connectedClients s) = Some clientInfo ->
          ci_userId clientInfo = Some userId ->
          userId <> "" ->
          JsSet.has userId (activeUsers (sessionData s')) = false
          /\ sent_by c s
             = map (fun w => (w, user_disconnected userId
                                   (ci_displayName clientInfo)
                                   (JsSet.size (activeUsers (sessionData s')))))
                   (recipients (Some ws) s'))
    /\ (forall clientInfo,
          JsMap.get ws (connectedClients s) = Some clientInfo ->
          truthy_string (ci_userId clientInfo) = false ->
          activeUsers (sessionData s') = activeUsers (sessionData s)
          /\ sent_by c s = []).
Proof.
  intros s ws c s'. subst c s'.
  split; [|split; [|split; [|split]]].
  - simpl. rewrite exec_bind. now rewrite stored_map_on_close.
  - unfold step, on_close, exec. hub_run.
    destruct (JsMap.get ws (connectedClients s)) as [ci|];
      [destruct (truthy_string (ci_userId ci)); [destruct (ci_userId ci)|]|];
      hub_run; apply JsMapFacts.get_delete_same.
  - intros w. rewrite close_wss_clients. apply remaining_recipients.
  - intros clientInfo userId Hreg Hid Hne.
    assert (Ht : truthy_string (Some userId) = true).
    { simpl. apply negb_true_iff, String.eqb_neq. assumption. }
    rewrite close_wss_clients.
    unfold sent_by, step, on_close, exec. hub_run. rewrite Hreg, Hid, Ht.
    hub_run. unfold recipients. hub_simpl. rewrite skipn_length_app.
    split; [apply JsSetFacts.has_delete | reflexivity].
  - intros clientInfo Hreg Hfalsy.
    unfold sent_by, step, on_close, exec. hub_run. rewrite Hreg, Hfalsy.
    hub_run. split; [reflexivity | apply skipn_all].
Qed.

(** C8 on a Hub with two connections: the identified one closes; its
    userId leaves [activeUsers] and the other connection is told. *)
Lemma close_keeps_responses_witness :
  let s' := exec (Hub.step (Hub.Close 1%nat)) Samples.hub_with_data in
  JsSet.has "u1" (activeUsers (sessionData s')) = false
  /\ Hub.sent_by (Hub.step (Hub.Close 1%nat)) Samples.hub_with_data
     = map (fun w => (w, user_disconnected "u1"
                           (ci_displayName Samples.client_1)
                           (JsSet.size (activeUsers (sessionData s')))))
           (recipients (Some 1%nat) s').
Proof.
  refine (proj1 (proj2 (proj2 (proj2
            (close_keeps_responses Samples.hub_with_data 1%nat))))
            Samples.client_1 "u1" _ _ _).
  - vm_compute. reflexivity.
  - reflexivity.
  - discriminate.
Defined.

(** C8 for every identified userId does not hold: a connection that has
    identified itself with the empty string as userId (the Hub records it,
    adds it to [activeUsers] and answers [identified]) closes while another
    connection is open; the userId is still in [activeUsers] afterwards
    and the remaining connection is sent nothing. *)
Lemma close_keeps_empty_userId :
  (exists clientInfo,
      JsMap.get 1%nat (connectedClients Samples.hub_empty_id) = Some clientInfo
      /\ ci_userId clientInfo = Some "")
  /\ Hub.sent_by (Hub.on_message 1%nat (Some (identify "" "Ann")))
                 Samples.hub_fresh
     = [(1%nat, user_joined "" "Ann" 1); (2%nat, user_joined "" "Ann" 1);
        (1%nat, identified true [""])]
  /\ JsSet.has "" (activeUsers
                     (sessionData
                        (exec (Hub.step (Hub.Close 1%nat)) Samples.hub_empty_id)))
     = true
  /\ recipients (Some 1%nat)
                (exec (Hub.step (Hub.Close 1%nat)) Samples.hub_empty_id)
     = [2%nat]
  /\ Hub.sent_by (Hub.step (Hub.Close 1%nat)) Samples.hub_empty_id = [].
Proof.
  split; [|split; [|split; [|split]]].
  - eexists. split; vm_compute; reflexivity.
  - vm_compute. reflexivity.
  - vm_compute. reflexivity.
  - vm_compute. reflexivity.
  - vm_compute. reflexivity.
Qed.

(** The liveness scenario of the specification: the silent connection is
    terminated by the second sweep, and the [user_disconnected] that its
    close produces reaches the two other connections only. *)
Example silent_connection_dropped :
  let s := Hub.run Samples.silent_second (Hub.initial Samples.clk) in
  filter (fun f => match snd f with user_disconnected _ _ _ => true | _ => false end)
         (wire s)
  = [(1%nat, user_disconnected "u2" (Some "Bob") 2);
     (3%nat, user_disconnected "u2" (Some "Bob") 2)]
  /\ activeUsers (sessionData s) = ["u1"; "u3"]
  /\ map fst (connectedClients s) = [1%nat; 3%nat].
Proof. vm_compute. repeat split. Qed.

End HubSession.

(* ------------------------------------------------------------------ *)
(** ** The client: saving a response                                    *)
(* ------------------------------------------------------------------ *)

Module ClientSave.
Import Client.

(** Runs the primitive operations of the client. *)
Ltac client_simpl :=
  cbn [bind ret gets exec result fst snd
       set_connectionMode set_wsConnection set_wsReconnectAttempts
       set_cache_responses set_cache_peerData set_currentUser emit
       getCurrentUser isSignedIn doc_set setConnectionMode
       showOfflineNotification showSyncSuccessNotification
       showReconnectFailedNotification wsConnection_send
       connectionMode wsConnection wsReconnectAttempts cache_responses
       cache_peerData currentUser lastLocalHubIP store_accepts trace].

Ltac client_run :=
  repeat first [ progress client_simpl | rewrite bind_run
               | progress unfold exec, result ].

(** C10. With nobody signed in, [saveResponse] returns [false] and leaves
    the whole client state as it was: neither map of the cache changes and
    no effect, transport or other, is added to the trace. *)
Theorem saveResponse_signed_out :
  forall (s : State) (questionId answer reason : string) (now : Z),
    currentUser s = None ->
    saveResponse questionId answer reason now s = (fulfilled false, s).
Proof.
  intros s questionId answer reason now Hnone.
  unfold saveResponse. rewrite bind_run. unfold getCurrentUser, gets, result, exec.
  cbn [fst snd]. rewrite Hnone. reflexivity.
Qed.

(** C10 on a client nobody has signed in to. *)
Lemma saveResponse_signed_out_witness :
  saveResponse "Q1" "B" "" 100 Samples.client_signed_out
  = (fulfilled false, Samples.client_signed_out).
Proof.
  apply (saveResponse_signed_out Samples.client_signed_out "Q1" "B" "" 100).
  reflexivity.
Defined.

Lemma cache_write_read {V} (rs : JsMap.t string (JsMap.t string V))
    (q u : string) (v : V) :
  let rs1 := if JsMap.has q rs then rs else JsMap.set q JsMap.empty rs in
  let rs2 := match JsMap.get q rs1 with
             | Some m => JsMap.set q (JsMap.set u v m) rs1
             | None => rs1
             end in
  match JsMap.get q rs2 with
  | Some m => JsMap.get u m
  | None => None
  end = Some v.
Proof.
  unfold JsMap.has. cbv zeta.
  destruct (JsMap.get q rs) as [m|] eqn:E.
  - rewrite E. rewrite JsMapFacts.get_set_same. apply JsMapFacts.get_set_same.
  - rewrite JsMapFacts.get_set_same. rewrite JsMapFacts.get_set_same.
    apply JsMapFacts.get_set_same.
Qed.

(** C5. With a user signed in, in each of the three modes, [saveResponse]
    first writes the Response it builds into [localCache.responses] and
    only then acts on a transport: in cloud mode the writes of the remote
    store, in local mode one [submit_response] frame if the link is open,
    in offline mode nothing.  The cache holds the Response afterwards
    whatever the transport did.  The value returned is fixed by the
    transport alone: whether the remote store took both writes, whether
    the frame was handed to an open link, and [true] offline. *)
Theorem saveResponse_cache_first :
  forall (s : State) (user : User) (questionId answer reason : string) (now : Z),
    currentUser s = Some user ->
    let responseData := responseData_of user questionId answer reason now in
    let c := saveResponse questionId answer reason now in
    let userDoc := userResponseRef (uid user) questionId in
    let classDoc := classResponseRef questionId (uid user) in
    let transport :=
      match connectionMode s with
      | cloud =>
          if store_accepts s userDoc
          then [firestore_set userDoc true;
                firestore_set classDoc (store_accepts s classDoc)]
          else [firestore_set userDoc false]
      | local =>
          if link_open s
          then [socket_send
                  (submit_response
                     {| sub_questionId := questionId; sub_answer := answer;
                        sub_reason := reason; sub_userId := uid user;
                        sub_displayName := user_displayName user;
                        sub_timestamp := Some now |})]
          else []
      | offline => []
      end in
    let saved :=
      match connectionMode s with
      | cloud => store_accepts s userDoc && store_accepts s classDoc
      | local => link_open s
      | offline => true
      end in
    cached (exec c s) questionId (uid user) = Some responseData
    /\ effects_of c s
       = cache_set questionId (uid user) responseData
         :: transport
         ++ [dispatchEvent (responseSaved questionId saved (connectionMode s))]
    /\ result c s = fulfilled saved
    /\ (connectionMode s = offline ->
        filter is_transport (effects_of c s) = []).
Proof.
  intros s user questionId answer reason now Huser.
  cbv zeta. unfold effects_of, cached, saveResponse, saveQuizResponse.
  client_run. rewrite Huser. client_run.
  pose proof (cache_write_read (cache_responses s) questionId (uid user)
                (responseData_of user questionId answer reason now)) as Hcache.
  cbv zeta in Hcache. unfold responseData_of in *.
  destruct (connectionMode s) eqn:Hmode.
  - client_run. rewrite Huser. client_run.
    destruct (store_accepts s (userResponseRef (uid user) questionId));
      client_run;
      [destruct (store_accepts s (classResponseRef questionId (uid user)));
       client_run|];
      repeat rewrite <- app_assoc; rewrite skipn_length_app;
      (split; [exact Hcache|]); repeat split; discriminate.
  - unfold link_open. client_run.
    destruct (wsConnection s) as [w|]; [destruct (is_OPEN (ws_readyState w))|];
      client_run; repeat rewrite <- app_assoc; rewrite skipn_length_app;
      (split; [exact Hcache|]); repeat split; discriminate.
  - client_run. repeat rewrite <- app_assoc. rewrite skipn_length_app.
    split; [exact Hcache|]. repeat split.
Qed.

(** C5 on a client whose link to the Hub is open. *)
Lemma saveResponse_cache_first_witness :
  cached (exec (saveResponse "Q1" "B" "" 100) Samples.client_linked) "Q1" "u1"
  = Some (responseData_of Samples.ann "Q1" "B" "" 100).
Proof.
  apply (saveResponse_cache_first Samples.client_linked Samples.ann
           "Q1" "B" "" 100).
  reflexivity.
Defined.

End ClientSave.

(* ------------------------------------------------------------------ *)
(** ** The client: connecting, and replaying the cache to the cloud     *)
(* ------------------------------------------------------------------ *)

Module ClientSync.
Import Client ClientSave.

(** C3, as the code has it. A call of [connectToLocalHub] sets the reconnect
    counter to 0 exactly when it creates a socket and that socket opens,
    whatever the counter was; a call that returns at once because a link
    is already open, and a call whose attempt ends with the constructor
    throwing, an error or the timeout, leave the counter as it was. *)
Theorem connect_resets_on_open :
  forall (s : State) (serverIP : string) (fate : Fate),
    wsReconnectAttempts (exec (connectToLocalHub serverIP fate) s)
    = if link_open s then wsReconnectAttempts s
      else match fate with
           | opens => 0
           | _ => wsReconnectAttempts s
           end.
Proof.
  intros s serverIP fate. unfold connectToLocalHub, onopen.
  client_run. destruct (link_open s); [reflexivity|].
  destruct fate; client_run; try reflexivity.
  destruct (currentUser s); client_run; reflexivity.
Qed.

(** C3 for every call does not hold: after three reconnect attempts, a call
    whose connection attempt ends in an error leaves the counter at 3. *)
Lemma connect_error_keeps_counter :
  wsReconnectAttempts
    (exec (connectToLocalHub "192.168.1.100:8080" errors) Samples.client_retrying)
  <> 0.
Proof. vm_compute. discriminate. Qed.

Lemma saveQuizResponse_fulfils (questionId answer reason : string) (s : State) :
  is_fulfilled (result (saveQuizResponse questionId answer reason) s) = true.
Proof.
  unfold saveQuizResponse. client_run.
  destruct (currentUser s) as [u|]; [|reflexivity]. client_run.
  destruct (store_accepts s (userResponseRef (uid u) questionId));
    client_run; [|reflexivity].
  destruct (store_accepts s (classResponseRef questionId (uid u)));
    reflexivity.
Qed.

Lemma mapM_length {A B} (f : A -> M B) (l : list A) (s : State) :
  length (result (mapM f l) s) = length l.
Proof.
  revert s. induction l as [|x rest IH]; intros s; [reflexivity|].
  simpl. unfold result in *. repeat rewrite bind_run. simpl.
  unfold result. now rewrite IH.
Qed.

Lemma mapM_Forall {A B} (P : B -> Prop) (f : A -> M B) (l : list A) :
  (forall x s, P (result (f x) s)) ->
  forall s, Forall P (result (mapM f l) s).
Proof.
  intros Hf. induction l as [|x rest IH]; intros s; [constructor|].
  simpl. unfold result in *. repeat rewrite bind_run. simpl.
  constructor; [apply Hf | apply IH].
Qed.

Lemma all_fulfilled_counts {A} (results : list (Settled A)) :
  Forall (fun r => is_fulfilled r = true) results ->
  length (filter is_fulfilled results) = length results
  /\ length (filter is_rejected results) = 0%nat.
Proof.
  induction 1 as [|r rest Hr _ [IH1 IH2]]; [split; reflexivity|].
  destruct r; [|discriminate]. simpl. split; congruence.
Qed.

(** The two parts in which [syncLocalToCloud] runs a call of
    [saveQuizResponse] make up the call. *)
Lemma saveQuizResponse_in_two_parts (questionId answer reason : string) (s : State) :
  saveQuizResponse questionId answer reason s
  = bind (saveQuizResponse_start questionId answer reason)
         saveQuizResponse_resume s.
Proof.
  unfold saveQuizResponse, saveQuizResponse_start, saveQuizResponse_resume.
  client_run. destruct (currentUser s) as [u|]; [|reflexivity]. client_run.
  destruct (store_accepts s (userResponseRef (uid u) questionId));
    client_run; reflexivity.
Qed.

Lemma saveQuizResponse_resume_fulfils (call : Suspended) (s : State) :
  is_fulfilled (result (saveQuizResponse_resume call) s) = true.
Proof.
  unfold saveQuizResponse_resume.
  destruct call as [value|questionId userId [[]|why]]; try reflexivity.
  client_run.
  destruct (store_accepts s (classResponseRef questionId userId)); reflexivity.
Qed.

(** Whatever the remote store does, no result of a replay is rejected. *)
Lemma sync_counts (s : State) :
  let start :=
    mapM (fun response =>
            saveQuizResponse_start (resp_questionId response)
                                   (resp_answer response)
                                   (resp_reason response))
         (own_entries s) in
  let results :=
    result (mapM saveQuizResponse_resume (result start s)) (exec start s) in
  length (filter is_fulfilled results) = length (own_entries s)
  /\ length (filter is_rejected results) = 0%nat.
Proof.
  intros start results.
  destruct (all_fulfilled_counts results) as [H1 H2].
  - apply mapM_Forall. intros x s0. apply saveQuizResponse_resume_fulfils.
  - split; [|assumption]. rewrite H1. unfold results.
    rewrite mapM_length. apply mapM_length.
Qed.

(** In cloud mode with a user signed in, the pass logs as successful the
    number of the user's cached entries and as failed 0, whatever the
    remote store did with the writes. *)
Lemma sync_logs_no_failure (s : State) (user : User) :
  connectionMode s = cloud ->
  currentUser s = Some user ->
  In (console_log_sync_complete (length (own_entries s)) 0)
     (trace (exec syncLocalToCloud s)).
Proof.
  intros Hmode Huser. destruct (sync_counts s) as [Hok Hfailed].
  unfold syncLocalToCloud, isSignedIn. client_run.
  rewrite Hmode, Huser. cbn [Mode_eqb negb orb]. client_run.
  unfold result, exec in Hok, Hfailed. rewrite Hok, Hfailed.
  destruct (0 <? length (own_entries s))%nat; client_run;
    repeat rewrite in_app_iff; simpl; tauto.
Qed.

(** C2, on the specification's scenario: four answers are queued and the
    remote store rejects the write for Q3.  Every queued answer is written
    (the rejected write is attempted and the ones after it still are; the
    writes of the users' documents are all started in the loop, those of
    the class documents follow), but the pass logs 4 successful and 0
    failed, and announces 4 synced responses, where the specification
    expects 3 and 1: the failed write is swallowed by [saveQuizResponse],
    whose promise is fulfilled with [false].  The cache still holds all
    four answers. *)
Theorem sync_reports_failed_write_as_success :
  effects_of on_online Samples.client_queued
  = [dispatchEvent (connectionModeChanged cloud);
     firestore_set (userResponseRef "u1" "Q1") true;
     firestore_set (userResponseRef "u1" "Q2") true;
     firestore_set (userResponseRef "u1" "Q3") false;
     firestore_set (userResponseRef "u1" "Q4") true;
     firestore_set (classResponseRef "Q1" "u1") true;
     firestore_set (classResponseRef "Q2" "u1") true;
     firestore_set (classResponseRef "Q4" "u1") true;
     console_log_sync_complete 4 0;
     showNotification (sync_success_notice 4) 3000]
  /\ cache_responses (exec on_online Samples.client_queued)
     = cache_responses Samples.client_queued.
Proof. vm_compute. split; reflexivity. Qed.

End ClientSync.

(* ------------------------------------------------------------------ *)
(** ** The client: reconnecting after the link is lost                  *)
(* ------------------------------------------------------------------ *)

Module ClientReconnect.
Import Client ClientSave.

Lemma delays_app (l1 l2 : list Effect) :
  reconnect_delays (l1 ++ l2) = reconnect_delays l1 ++ reconnect_delays l2.
Proof. unfold reconnect_delays. apply flat_map_app. Qed.

Lemma quiet_ret {A} (a : A) : quiet (ret a : M A).
Proof. intros s. split; [reflexivity|]. exists []. now rewrite app_nil_r. Qed.

Lemma quiet_gets {A} (g : State -> A) : quiet (gets g : M A).
Proof. intros s. split; [reflexivity|]. exists []. now rewrite app_nil_r. Qed.

Lemma quiet_bind {A B} (c : M A) (k : A -> M B) :
  quiet c -> (forall a, quiet (k a)) -> quiet (bind c k).
Proof.
  intros Hc Hk s. rewrite exec_bind.
  destruct (Hc s) as (Ha & l1 & Ht1 & Hd1).
  destruct (Hk (result c s) (exec c s)) as (Ha' & l2 & Ht2 & Hd2).
  split; [congruence|]. exists (l1 ++ l2). split.
  - rewrite Ht2, Ht1. now rewrite app_assoc.
  - now rewrite delays_app, Hd1, Hd2.
Qed.

Lemma quiet_forEach {A} (l : list A) (g : A -> M unit) :
  (forall x, quiet (g x)) -> quiet (forEach l g).
Proof.
  intros Hg. induction l as [|x rest IH]; simpl.
  - apply quiet_ret.
  - apply quiet_bind; auto.
Qed.

Lemma quiet_mapM {A B} (l : list A) (g : A -> M B) :
  (forall x, quiet (g x)) -> quiet (mapM g l).
Proof.
  intros Hg. induction l as [|x rest IH]; simpl.
  - apply quiet_ret.
  - apply quiet_bind; auto. intros y. apply quiet_bind; auto.
    intros ys. apply quiet_ret.
Qed.

Lemma quiet_emit (e : Effect) : reconnect_delays [e] = [] -> quiet (emit e).
Proof. intros He s. split; [reflexivity|]. exists [e]. split; auto. Qed.

Lemma quiet_set_connectionMode m : quiet (set_connectionMode m).
Proof. intros s. split; [reflexivity|]. exists []. simpl. now rewrite app_nil_r. Qed.

Lemma quiet_set_wsConnection w : quiet (set_wsConnection w).
Proof. intros s. split; [reflexivity|]. exists []. simpl. now rewrite app_nil_r. Qed.

Lemma quiet_set_cache_responses g : quiet (set_cache_responses g).
Proof. intros s. split; [reflexivity|]. exists []. simpl. now rewrite app_nil_r. Qed.

Lemma quiet_set_cache_peerData g : quiet (set_cache_peerData g).
Proof. intros s. split; [reflexivity|]. exists []. simpl. now rewrite app_nil_r. Qed.

Lemma quiet_set_currentUser u : quiet (set_currentUser u).
Proof. intros s. split; [reflexivity|]. exists []. simpl. now rewrite app_nil_r. Qed.

Create HintDb quiet.

#[export] Hint Resolve quiet_ret quiet_gets quiet_set_connectionMode
  quiet_set_wsConnection quiet_set_cache_responses quiet_set_cache_peerData
  quiet_set_currentUser : quiet.

#[export] Hint Extern 1 (quiet (emit _)) =>
  apply quiet_emit; reflexivity : quiet.

(** Splits a client routine into its primitive operations. *)
Ltac quiet_steps :=
  repeat first
    [ solve [auto with quiet]
    | apply quiet_bind; [|intro]
    | apply quiet_forEach; intro
    | apply quiet_mapM; intro
    | match goal with
      | |- quiet (if ?b then _ else _) => destruct b
      | |- quiet (match ?x with _ => _ end) => destruct x
      end ].

Lemma quiet_saveQuizResponse q a r : quiet (saveQuizResponse q a r).
Proof. unfold saveQuizResponse, doc_set. quiet_steps. Qed.

#[export] Hint Resolve quiet_saveQuizResponse : quiet.

Lemma quiet_saveQuizResponse_start q a r : quiet (saveQuizResponse_start q a r).
Proof. unfold saveQuizResponse_start, doc_set. quiet_steps. Qed.

Lemma quiet_saveQuizResponse_resume call : quiet (saveQuizResponse_resume call).
Proof. unfold saveQuizResponse_resume, doc_set. quiet_steps. Qed.

#[export] Hint Resolve quiet_saveQuizResponse_start
  quiet_saveQuizResponse_resume : quiet.

Lemma quiet_syncLocalToCloud : quiet syncLocalToCloud.
Proof.
  unfold syncLocalToCloud, isSignedIn, showSyncSuccessNotification.
  quiet_steps.
Qed.

#[export] Hint Resolve quiet_syncLocalToCloud : quiet.

Lemma quiet_saveResponse q a r now : quiet (saveResponse q a r now).
Proof.
  unfold saveResponse, getCurrentUser, wsConnection_send.
  quiet_steps.
Qed.

Lemma quiet_handleWebSocketMessage message : quiet (handleWebSocketMessage message).
Proof.
  unfold handleWebSocketMessage, handleBulkUpdate.
  assert (Hpeer : forall r, quiet (handlePeerResponse r))
    by (intro r; unfold handlePeerResponse; quiet_steps).
  destruct message; auto with quiet; apply quiet_forEach; exact Hpeer.
Qed.

Lemma quiet_connect_failing serverIP fate :
  fate <> opens -> quiet (connectToLocalHub serverIP fate).
Proof.
  intros Hf. unfold connectToLocalHub.
  destruct fate; [| contradiction | |]; quiet_steps.
Qed.

Lemma quiet_step (e : Event) :
  succeeds e = false -> e <> SocketCloses -> quiet (step e).
Proof.
  intros Hs Hc. destruct e as [ip fate| |fate|q a r now|message| | |user onLine];
    simpl in *.
  - apply quiet_bind; [|intro; apply quiet_ret].
    apply quiet_connect_failing. intros ->. discriminate.
  - contradiction.
  - unfold reconnect_callback.
    apply quiet_bind; [auto with quiet|intros lastServerIP].
    destruct (truthy_string lastServerIP); [|auto with quiet].
    destruct lastServerIP; [|auto with quiet].
    apply quiet_bind; [|intro; apply quiet_ret].
    apply quiet_connect_failing. intros ->. discriminate.
  - apply quiet_bind; [|intro; apply quiet_ret]. apply quiet_saveResponse.
  - apply quiet_handleWebSocketMessage.
  - unfold on_online, isSignedIn, setConnectionMode.
    quiet_steps.
  - unfold on_offline, setConnectionMode, showOfflineNotification. quiet_steps.
  - unfold handleAuthStateChange, setConnectionMode.
    quiet_steps.
Qed.

Lemma disconnect_retry (s : State) :
  connectionMode s = local ->
  wsReconnectAttempts s < maxReconnectAttempts ->
  handleWebSocketDisconnect s
  = (tt, {| connectionMode := local; wsConnection := None;
            wsReconnectAttempts := wsReconnectAttempts s + 1;
            cache_responses := cache_responses s;
            cache_peerData := cache_peerData s;
            currentUser := currentUser s;
            lastLocalHubIP := lastLocalHubIP s;
            store_accepts := store_accepts s;
            trace := trace s
                     ++ [setTimeout_reconnect
                           (reconnectDelay * (wsReconnectAttempts s + 1))] |}).
Proof.
  intros Hmode Hlt. unfold handleWebSocketDisconnect. client_run.
  rewrite Hmode. change (Mode_eqb local local) with true. cbn iota. client_run.
  apply Z.ltb_lt in Hlt. rewrite Hlt. client_run. reflexivity.
Qed.

Lemma disconnect_give_up (s : State) :
  connectionMode s = local ->
  maxReconnectAttempts <= wsReconnectAttempts s ->
  handleWebSocketDisconnect s
  = (tt, {| connectionMode := offline; wsConnection := None;
            wsReconnectAttempts := wsReconnectAttempts s;
            cache_responses := cache_responses s;
            cache_peerData := cache_peerData s;
            currentUser := currentUser s;
            lastLocalHubIP := lastLocalHubIP s;
            store_accepts := store_accepts s;
            trace := (trace s ++ [dispatchEvent (connectionModeChanged offline)])
                     ++ [showNotification reconnect_failed_notice 5000] |}).
Proof.
  intros Hmode Hge. unfold handleWebSocketDisconnect. client_run.
  rewrite Hmode. change (Mode_eqb local local) with true. cbn iota. client_run.
  apply Z.ltb_ge in Hge. rewrite Hge. client_run. reflexivity.
Qed.

Lemma disconnect_elsewhere (s : State) :
  connectionMode s <> local ->
  handleWebSocketDisconnect s
  = (tt, {| connectionMode := connectionMode s; wsConnection := None;
            wsReconnectAttempts := wsReconnectAttempts s;
            cache_responses := cache_responses s;
            cache_peerData := cache_peerData s;
            currentUser := currentUser s;
            lastLocalHubIP := lastLocalHubIP s;
            store_accepts := store_accepts s;
            trace := trace s |}).
Proof.
  intros Hmode. unfold handleWebSocketDisconnect. client_run.
  destruct (connectionMode s); try contradiction; reflexivity.
Qed.

Lemma attempt_numbers_none (a : Z) : attempt_numbers a a = [].
Proof. unfold attempt_numbers. now rewrite Z.sub_diag. Qed.

Lemma attempt_numbers_next (a b : Z) :
  a < b -> attempt_numbers a b = (a + 1) :: attempt_numbers (a + 1) b.
Proof.
  intros Hlt. unfold attempt_numbers.
  replace (Z.to_nat (b - a)) with (S (Z.to_nat (b - (a + 1)))) by lia.
  cbn [seq map]. f_equal. rewrite <- seq_shift, map_map.
  apply map_ext. intros k. lia.
Qed.

(** One event that is not a successful connection either leaves the
    counter alone and sets no timer, or raises the counter by one, below
    the cap, and sets the timer of that attempt. *)
Lemma step_bound (e : Event) (s : State) :
  succeeds e = false ->
  exists l,
    trace (exec (step e) s) = trace s ++ l
    /\ ((wsReconnectAttempts (exec (step e) s) = wsReconnectAttempts s
         /\ reconnect_delays l = [])
        \/ (wsReconnectAttempts s < maxReconnectAttempts
            /\ wsReconnectAttempts (exec (step e) s) = wsReconnectAttempts s + 1
            /\ reconnect_delays l
               = [reconnectDelay * (wsReconnectAttempts s + 1)])).
Proof.
  intros Hs. destruct e as [ip fate| |fate|q a r now|message| | |user onLine];
    try (destruct (quiet_step _ Hs ltac:(discriminate) s) as (Ha & l & Ht & Hd);
         exists l; split; [assumption|left; split; assumption]).
  simpl. destruct (Mode_eqb (connectionMode s) local) eqn:Hm.
  - assert (Hmode : connectionMode s = local)
      by (destruct (connectionMode s); try discriminate; reflexivity).
    destruct (Z.lt_ge_cases (wsReconnectAttempts s) maxReconnectAttempts) as [Hlt|Hge].
    + unfold exec. rewrite (disconnect_retry s Hmode Hlt). cbn [snd trace wsReconnectAttempts].
      eexists. split; [reflexivity|]. right. repeat split. assumption.
    + unfold exec. rewrite (disconnect_give_up s Hmode Hge). cbn [snd trace wsReconnectAttempts].
      rewrite <- app_assoc. eexists. split; [reflexivity|]. left. split; reflexivity.
  - unfold exec. rewrite disconnect_elsewhere
      by (intros Heq; rewrite Heq in Hm; discriminate).
    cbn [snd trace wsReconnectAttempts]. exists []. rewrite app_nil_r.
    split; [reflexivity|]. left. split; reflexivity.
Qed.

Lemma run_bound (events : list Event) :
  forallb (fun e => negb (succeeds e)) events = true ->
  forall s,
    0 <= wsReconnectAttempts s <= maxReconnectAttempts ->
    exists l,
      trace (run events s) = trace s ++ l
      /\ wsReconnectAttempts s <= wsReconnectAttempts (run events s)
         <= maxReconnectAttempts
      /\ reconnect_delays l
         = map (fun n => reconnectDelay * n)
               (attempt_numbers (wsReconnectAttempts s)
                                (wsReconnectAttempts (run events s))).
Proof.
  induction events as [|e rest IH]; intros Hall s Hrange.
  - exists []. simpl. rewrite app_nil_r, attempt_numbers_none.
    repeat split; try reflexivity; lia.
  - simpl in Hall. apply andb_prop in Hall as [He Hrest].
    apply negb_true_iff in He.
    destruct (step_bound e s He) as (l1 & Ht1 & Hcase).
    simpl. set (s1 := exec (step e) s) in *.
    assert (Hrange1 : 0 <= wsReconnectAttempts s1 <= maxReconnectAttempts).
    { destruct Hcase as [[Ha _]|(Hlt & Ha & _)]; rewrite Ha; lia. }
    destruct (IH Hrest s1 Hrange1) as (l2 & Ht2 & Hb2 & Hd2).
    exists (l1 ++ l2). split; [rewrite Ht2, Ht1; now rewrite app_assoc|].
    rewrite delays_app, Hd2.
    destruct Hcase as [[Ha Hd1]|(Hlt & Ha & Hd1)]; rewrite Hd1, Ha in *.
    + split; [lia|reflexivity].
    + split; [lia|].
      rewrite (attempt_numbers_next (wsReconnectAttempts s)) by lia.
      reflexivity.
Qed.

(** C6. In local mode, a close of the link with fewer than 5 attempts made
    raises the attempt counter to n and sets a timer of 2000 ms x n, and the
    retry happens only in that timer's callback, which connects to the
    persisted [lastLocalHubIP]; a close with the 5 attempts used up moves
    the client to offline and shows the reconnect-failed notice.  Over any
    sequence of events without a successful connection the counter never
    passes 5, and the timers set are exactly those of the attempts made,
    2000 ms x n for each attempt number n in turn. *)
Theorem reconnect_bounded_linear_backoff :
  (forall s : State,
      connectionMode s = local ->
      let n := wsReconnectAttempts s in
      let s' := exec handleWebSocketDisconnect s in
      (n < maxReconnectAttempts ->
       wsReconnectAttempts s' = n + 1
       /\ connectionMode s' = local
       /\ effects_of handleWebSocketDisconnect s
          = [setTimeout_reconnect (reconnectDelay * (n + 1))])
      /\ (maxReconnectAttempts <= n ->
          connectionMode s' = offline
          /\ effects_of handleWebSocketDisconnect s
             = [dispatchEvent (connectionModeChanged offline);
                showNotification reconnect_failed_notice 5000]))
  /\ (forall (s : State) (ip : string) (fate : Fate),
         lastLocalHubIP s = Some ip ->
         ip <> "" ->
         wsConnection s = None ->
         fate <> constructor_throws ->
         exists st,
           wsConnection (exec (reconnect_callback fate) s)
           = Some {| ws_url := "ws://" ++ ip; ws_readyState := st |})
  /\ (forall (events : list Event) (s : State),
         forallb (fun e => negb (succeeds e)) events = true ->
         0 <= wsReconnectAttempts s <= maxReconnectAttempts ->
         let s' := run events s in
         wsReconnectAttempts s <= wsReconnectAttempts s' <= maxReconnectAttempts
         /\ reconnect_delays (skipn (length (trace s)) (trace s'))
            = map (fun n => reconnectDelay * n)
                  (attempt_numbers (wsReconnectAttempts s)
                                   (wsReconnectAttempts s')))
  /\ maxReconnectAttempts = 5
  /\ reconnectDelay = 2000.
Proof.
  split; [|split; [|split; [|split; reflexivity]]].
  - intros s Hmode n s'. subst n s'. unfold effects_of, exec. split.
    + intros Hlt. rewrite (disconnect_retry s Hmode Hlt).
      cbn [snd trace wsReconnectAttempts connectionMode].
      rewrite skipn_length_app. repeat split.
    + intros Hge. rewrite (disconnect_give_up s Hmode Hge).
      cbn [snd trace wsReconnectAttempts connectionMode].
      rewrite <- app_assoc, skipn_length_app. repeat split.
  - intros s ip fate Hip Hne Hnone Hfate.
    unfold reconnect_callback, connectToLocalHub, onopen, link_open.
    client_run. rewrite Hip.
    assert (Ht : truthy_string (Some ip) = true)
      by (simpl; now apply negb_true_iff, String.eqb_neq).
    rewrite Ht. client_run. rewrite Hnone.
    destruct fate; [contradiction| | |]; client_run;
      try (eexists; reflexivity).
    destruct (currentUser s); client_run; eexists; reflexivity.
  - intros events s Hall Hrange s'. subst s'.
    destruct (run_bound events Hall s Hrange) as (l & Ht & Hb & Hd).
    split; [assumption|]. rewrite Ht, skipn_length_app. exact Hd.
Qed.

(** C6 on a client whose link is lost and whose five retries all fail. *)
Lemma reconnect_bounded_linear_backoff_witness :
  let s := Samples.client_linked in
  let s' := run Samples.retries_all_fail s in
  wsReconnectAttempts s <= wsReconnectAttempts s' <= maxReconnectAttempts
  /\ reconnect_delays (skipn (length (trace s)) (trace s'))
     = map (fun n => reconnectDelay * n)
           (attempt_numbers (wsReconnectAttempts s) (wsReconnectAttempts s')).
Proof.
  refine (proj1 (proj2 (proj2 reconnect_bounded_linear_backoff))
            Samples.retries_all_fail Samples.client_linked _ _).
  - reflexivity.
  - vm_compute. split; discriminate.
Defined.

(** The same run, evaluated: five timers of 2, 4, 6, 8 and 10 seconds, then
    offline with the failure notice as the last effect. *)
Example retries_all_fail_trace :
  let s' := run Samples.retries_all_fail Samples.client_linked in
  reconnect_delays (trace s') = [2000; 4000; 6000; 8000; 10000]
  /\ wsReconnectAttempts s' = 5
  /\ connectionMode s' = offline
  /\ last (trace s') (dispatchEvent (connectionModeChanged local))
     = showNotification reconnect_failed_notice 5000.
Proof. vm_compute. repeat split. Qed.

End ClientReconnect.

(* ================================================================== *)
(** * Further properties of the Hub                                     *)
(* ================================================================== *)

Module NetworkFacts.
Import Network.

Lemma scan_interface_find (entries : list Iface) :
  scan_interface entries = option_map iface_address (find external_IPv4 entries).
Proof.
  induction entries as [|iface rest IH]; simpl; [reflexivity|].
  unfold external_IPv4 at 1.
  destruct (negb (iface_internal iface) && (iface_family iface =? "IPv4")%string);
    [reflexivity | exact IH].
Qed.

(** X1. [getLocalIP] returns the address of the first entry, in the order of the
    interfaces and of the entries of each, that is not internal and whose
    family is IPv4; it returns "localhost" exactly when there is none. *)
Theorem getLocalIP_first_external :
  forall interfaces : list (string * list Iface),
    getLocalIP interfaces
    = match find external_IPv4 (concat (map snd interfaces)) with
      | Some iface => iface_address iface
      | None => "localhost"
      end.
Proof.
  induction interfaces as [|[name entries] rest IH]; simpl; [reflexivity|].
  rewrite scan_interface_find, IH. clear IH.
  induction entries as [|iface more IHe]; simpl; [reflexivity|].
  destruct (external_IPv4 iface); [reflexivity | exact IHe].
Qed.

(** On a machine with a loopback and a wired interface, the loopback and
    the IPv6 entry are passed over. *)
Example getLocalIP_sample :
  getLocalIP Scenarios.interfaces = "192.168.1.100".
Proof. reflexivity. Qed.

End NetworkFacts.

Module HubRetention.
Import Hub HubFacts HubSpec.

Lemma cleanup_run (s : State) :
  cleanup s
  = (tt,
     {| connectedClients := connectedClients s;
        sessionData :=
          with_responses
            (filter (fun q => negb (Nat.eqb (JsMap.size (snd q)) 0))
               (map (fun q =>
                       (fst q,
                        filter (fun u => negb (resp_timestamp (snd u)
                                               <? clock s (ticks s) - SESSION_TIMEOUT))
                               (snd q)))
                    (responses (sessionData s))))
            (sessionData s);
        wss_clients := wss_clients s;
        clock := clock s; ticks := S (ticks s); wire := wire s |}).
Proof. unfold cleanup. hub_run. reflexivity. Qed.

(** X2. The retention sweep, run when the clock reads [now]: a Response is
    stored afterwards exactly when it was stored before and its timestamp
    is not below [now - 3600000] (one stamped exactly at the cutoff
    stays); no question is left with an empty map; connections and active
    users are untouched and nothing is sent. *)
Theorem cleanup_drops_old_responses :
  forall (s : State) (r : Response),
    let s' := exec cleanup s in
    let cutoffTime := clock s (ticks s) - 3600000 in
    (In r (all_responses (stored_map s'))
     <-> In r (all_responses (stored_map s)) /\ cutoffTime <= resp_timestamp r)
    /\ questions_nonempty s'
    /\ connectedClients s' = connectedClients s
    /\ activeUsers (sessionData s') = activeUsers (sessionData s)
    /\ wire s' = wire s.
Proof.
  intros s r s' cutoffTime. subst s' cutoffTime.
  unfold exec. rewrite cleanup_run. cbn [snd].
  split; [|split; [|repeat split]].
  - unfold stored_map, all_responses, SESSION_TIMEOUT.
    cbn [sessionData responses with_responses].
    rewrite !in_flat_map. split.
    + intros ([q m] & Hq & Hr). apply filter_In in Hq as [Hq _].
      apply in_map_iff in Hq as ([q0 m0] & Heq & Hq0).
      simpl in Heq. injection Heq as <- <-. simpl in Hr.
      apply in_map_iff in Hr as ([u r0] & Hr0 & Hu). simpl in Hr0. subst r0.
      apply filter_In in Hu as [Hu Hkeep]. simpl in Hkeep.
      apply negb_true_iff, Z.ltb_ge in Hkeep. split; [|exact Hkeep].
      exists (q0, m0). split; [assumption|]. simpl.
      apply in_map_iff. exists (u, r). split; [reflexivity | assumption].
    + intros (([q m] & Hq & Hr) & Hkeep). simpl in Hr.
      apply in_map_iff in Hr as ([u r0] & Hr0 & Hu). simpl in Hr0. subst r0.
      assert (Hin : In (u, r)
                       (filter (fun e => negb (resp_timestamp (snd e)
                                               <? clock s (ticks s) - 3600000)) m)).
      { apply filter_In. split; [assumption|]. simpl.
        now apply negb_true_iff, Z.ltb_ge. }
      eexists (q, _). split.
      * apply filter_In. split.
        -- apply in_map_iff. exists (q, m). split; [reflexivity | assumption].
        -- simpl. destruct (filter _ m); [contradiction | reflexivity].
      * simpl. apply in_map_iff. exists (u, r). split; [reflexivity | exact Hin].
  - unfold questions_nonempty, stored_map. cbn [sessionData responses with_responses].
    apply Forall_forall. intros [q m] Hq. apply filter_In in Hq as [_ Hq].
    destruct m; [discriminate Hq | discriminate].
Qed.

End HubRetention.

(* ------------------------------------------------------------------ *)
(** ** Well-formed maps in every reachable state of the Hub             *)
(* ------------------------------------------------------------------ *)

Module MapKeys.
Section Keys.
Context {K V : Type} `{JsKey K}.
Implicit Types (k : K) (v : V) (m : JsMap.t K V).

Lemma key_eq_dec (a b : K) : {a = b} + {a <> b}.
Proof.
  destruct (key_eqb a b) eqn:E.
  - left. now apply key_eqb_eq.
  - right. intros Heq. subst b. rewrite key_eqb_refl in E. discriminate.
Qed.

Lemma get_None_keys k m : JsMap.get k m = None -> ~ In k (map fst m).
Proof.
  induction m as [|[k' v'] rest IH]; simpl; [tauto|].
  destruct (key_eqb k k') eqn:E; [discriminate|].
  intros Hg [Heq|Hin]; [|now apply IH].
  subst k'. rewrite key_eqb_refl in E. discriminate.
Qed.

Lemma keys_get k m : In k (map fst m) -> exists v, JsMap.get k m = Some v.
Proof.
  intros Hin. destruct (JsMap.get k m) as [v|] eqn:E; [now exists v|].
  apply get_None_keys in E. contradiction.
Qed.

Lemma keys_set_present k v m :
  In k (map fst m) -> map fst (JsMap.set k v m) = map fst m.
Proof.
  induction m as [|[k' v'] rest IH]; simpl; [tauto|].
  destruct (key_eqb k k') eqn:E; simpl; [reflexivity|].
  intros [Heq|Hin]; [|now rewrite IH].
  subst k'. rewrite key_eqb_refl in E. discriminate.
Qed.

Lemma keys_set_absent k v m :
  ~ In k (map fst m) -> map fst (JsMap.set k v m) = map fst m ++ [k].
Proof.
  induction m as [|[k' v'] rest IH]; simpl; [reflexivity|].
  intros Hnin. destruct (key_eqb k k') eqn:E; simpl.
  - apply key_eqb_eq in E. subst k'. tauto.
  - rewrite IH; [reflexivity | tauto].
Qed.

Lemma NoDup_keys_set k v m :
  NoDup (map fst m) -> NoDup (map fst (JsMap.set k v m)).
Proof.
  intros Hnd. destruct (in_dec key_eq_dec k (map fst m)) as [Hin|Hnin].
  - now rewrite keys_set_present.
  - rewrite keys_set_absent by assumption.
    apply NoDup_app; [assumption | repeat constructor; tauto|].
    intros a Ha [Heq|[]]. subst a. contradiction.
Qed.

Lemma NoDup_keys_filter (P : K * V -> bool) m :
  NoDup (map fst m) -> NoDup (map fst (filter P m)).
Proof.
  induction m as [|e rest IH]; simpl; [auto|].
  intros Hnd. inversion Hnd as [|? ? Hnin Hrest]; subst.
  destruct (P e); simpl; [|auto]. constructor; [|auto].
  intros Hin. apply Hnin. apply in_map_iff in Hin as (e' & He' & Hin).
  apply filter_In in Hin as [Hin _]. apply in_map_iff. now exists e'.
Qed.

Lemma Forall_set_entry (P : K * V -> Prop) k v m :
  P (k, v) -> Forall P m -> Forall P (JsMap.set k v m).
Proof.
  intros Hv Hm. induction Hm as [|[k0 v0] rest H0 Hrest IH]; simpl.
  - constructor; auto.
  - destruct (key_eqb k k0) eqn:E; constructor; auto.
    apply key_eqb_eq in E. now subst k0.
Qed.

Lemma get_delete_other k k' m :
  k <> k' -> JsMap.get k' (JsMap.delete k m) = JsMap.get k' m.
Proof.
  intros Hne. unfold JsMap.delete.
  induction m as [|[k0 v0] rest IH]; simpl; [reflexivity|].
  destruct (key_eqb k k0) eqn:E; simpl.
  - apply key_eqb_eq in E. subst k0.
    rewrite (key_eqb_neq k' k) by congruence. exact IH.
  - destruct (key_eqb k' k0); [reflexivity | exact IH].
Qed.

Lemma get_In_unique k v m :
  NoDup (map fst m) -> In (k, v) m -> JsMap.get k m = Some v.
Proof.
  induction m as [|[k0 v0] rest IH]; simpl; [tauto|].
  intros Hnd Hin. inversion Hnd as [|? ? Hnin Hrest]; subst.
  destruct Hin as [Heq|Hin].
  - injection Heq as -> ->. now rewrite key_eqb_refl.
  - destruct (key_eqb k k0) eqn:E; [|auto].
    apply key_eqb_eq in E. subst k0. exfalso. apply Hnin.
    apply in_map_iff. now exists (k, v).
Qed.

End Keys.
End MapKeys.

Module HubInvariant.
Import Hub HubFacts HubFrame HubSpec.

Lemma preserves_sendToClient {X} (f : State -> X) ws message :
  (forall frames s, f (deliver frames s) = f s) ->
  preserves f (sendToClient ws message).
Proof. intros Hd. now apply (preserves_deliver f). Qed.

Lemma preserves_broadcast {X} (f : State -> X) message senderWs :
  (forall frames s, f (deliver frames s) = f s) ->
  preserves f (broadcast message senderWs).
Proof. intros Hd. now apply (preserves_deliver f). Qed.

(** Splits a handler into primitive operations and closes those that do
    not write the projected part of the state. *)
Ltac frame_all :=
  repeat first
    [ apply preserves_bind; [|intro]
    | apply preserves_forEach; intro
    | apply preserves_ret
    | apply preserves_gets
    | apply preserves_sendToClient; intros; reflexivity
    | apply preserves_broadcast; intros; reflexivity
    | match goal with
      | |- preserves _ (if ?b then _ else _) => destruct b
      | |- preserves _ (match ?x with _ => _ end) => destruct x
      end
    | solve [intros ?; reflexivity] ].

Lemma wss_on_message ws data : preserves wss_clients (on_message ws data).
Proof.
  unfold on_message, handleClientMessage, timestamp_or_now.
  destruct data as [[uid dn|m| | | |ty]|]; frame_all.
Qed.

Lemma wss_on_connection ws ip rnd : preserves wss_clients (on_connection ws ip rnd).
Proof. unfold on_connection. frame_all. Qed.

Lemma wss_on_close ws : preserves wss_clients (on_close ws).
Proof. unfold on_close. frame_all. Qed.

Lemma wss_on_pong ws : preserves wss_clients (on_pong ws).
Proof. unfold on_pong. frame_all. Qed.

Lemma wss_cleanup : preserves wss_clients cleanup.
Proof. unfold cleanup. frame_all. Qed.

Lemma forEach_invariant {A} (P : State -> Prop) (l : list A) (g : A -> M unit) :
  (forall x s, P s -> P (exec (g x) s)) ->
  forall s, P s -> P (exec (forEach l g) s).
Proof.
  intros Hg. induction l as [|x rest IH]; intros s Hs; simpl; [exact Hs|].
  rewrite exec_bind. apply IH. now apply Hg.
Qed.

Lemma wss_keys_heartbeat (s : State) :
  NoDup (map fst (wss_clients s)) ->
  NoDup (map fst (wss_clients (exec heartbeat s))).
Proof.
  intros Hnd. unfold heartbeat. rewrite exec_bind.
  apply forEach_invariant; [|exact Hnd].
  intros client s0 H0. rewrite exec_bind.
  unfold gets, result, exec at 2. cbn [fst snd].
  destruct (JsMap.get (fst client) (connectedClients s0)) as [ci|].
  - destruct (negb (ci_isAlive ci)).
    + unfold exec, set_wss_clients. cbn [snd wss_clients].
      now apply MapKeys.NoDup_keys_set.
    + exact H0.
  - exact H0.
Qed.

Lemma stored_wf_submit (rs : JsMap.t string (JsMap.t string Response))
    (m : SubmitFields) (ts : Z) :
  stored_well_formed rs ->
  stored_well_formed
    (JsMap.set (sub_questionId m)
       (JsMap.set (sub_userId m) (response_of m ts)
          (match JsMap.get (sub_questionId m) rs with
           | Some userResponses => userResponses
           | None => JsMap.empty
           end))
       rs).
Proof.
  intros [Hk Hq]. split; [now apply MapKeys.NoDup_keys_set|].
  apply MapKeys.Forall_set_entry; [|exact Hq]. cbn [fst snd].
  assert (Hold : NoDup (map fst
                   (match JsMap.get (sub_questionId m) rs with
                    | Some ur => ur | None => JsMap.empty end))
                 /\ Forall (fun e => resp_questionId (snd e) = sub_questionId m
                                     /\ resp_userId (snd e) = fst e)
                     (match JsMap.get (sub_questionId m) rs with
                      | Some ur => ur | None => JsMap.empty end)).
  { destruct (JsMap.get (sub_questionId m) rs) as [ur|] eqn:E.
    - apply JsMapFacts.get_In in E.
      rewrite Forall_forall in Hq. exact (Hq _ E).
    - split; constructor. }
  destruct Hold as [Hnd Hf]. split.
  - now apply MapKeys.NoDup_keys_set.
  - apply MapKeys.Forall_set_entry; [split; reflexivity | exact Hf].
Qed.

Lemma keys_map_filter {V} (P : string * V -> bool) (g : V -> V)
    (rs : JsMap.t string V) :
  NoDup (map fst rs) ->
  NoDup (map fst (filter P (map (fun q => (fst q, g (snd q))) rs))).
Proof.
  intros Hnd. apply MapKeys.NoDup_keys_filter.
  rewrite map_map. cbn [fst]. exact Hnd.
Qed.

Lemma stored_wf_cleanup (rs : JsMap.t string (JsMap.t string Response))
    (P : string * JsMap.t string Response -> bool)
    (keep : string * Response -> bool) :
  stored_well_formed rs ->
  stored_well_formed
    (filter P (map (fun q => (fst q, filter keep (snd q))) rs)).
Proof.
  intros [Hk Hq]. split.
  - now apply (keys_map_filter P (filter keep)).
  - apply Forall_forall. intros [q m] Hin.
    apply filter_In in Hin as [Hin _].
    apply in_map_iff in Hin as ([q0 m0] & Heq & Hin0).
    simpl in Heq. injection Heq as <- <-.
    rewrite Forall_forall in Hq. destruct (Hq _ Hin0) as [Hnd Hf].
    cbn [fst snd] in *. split.
    + now apply MapKeys.NoDup_keys_filter.
    + apply Forall_forall. intros e He. apply filter_In in He as [He _].
      rewrite Forall_forall in Hf. now apply Hf.
Qed.

Lemma well_formed_split (s : State) :
  well_formed s
  <-> NoDup (map fst (wss_clients s)) /\ stored_well_formed (stored_map s).
Proof. unfold well_formed, stored_well_formed. tauto. Qed.

Lemma well_formed_step (e : Event) (s : State) :
  well_formed s -> well_formed (exec (step e) s).
Proof.
  rewrite !well_formed_split. intros [Hw Hs].
  destruct e as [ws ip rnd|ws data|ws|ws| |]; unfold step.
  - rewrite exec_bind. rewrite stored_map_on_connection, wss_on_connection.
    split; [|exact Hs]. unfold exec, set_wss_clients. cbn [snd wss_clients].
    now apply MapKeys.NoDup_keys_set.
  - rewrite wss_on_message. split; [exact Hw|].
    destruct data as [[uid dn|m| | | |ty]|];
      try (rewrite stored_map_other_messages by discriminate; exact Hs).
    unfold stored_map, on_message. rewrite HubSubmit.submit_responses.
    now apply stored_wf_submit.
  - rewrite exec_bind. rewrite stored_map_on_close, wss_on_close.
    split; [|exact Hs]. unfold exec, set_wss_clients. cbn [snd wss_clients].
    now apply MapKeys.NoDup_keys_filter.
  - rewrite wss_on_pong, stored_map_on_pong. now split.
  - rewrite stored_map_heartbeat. split; [|exact Hs].
    now apply wss_keys_heartbeat.
  - rewrite wss_cleanup. split; [exact Hw|].
    unfold exec. rewrite HubRetention.cleanup_run.
    unfold stored_map. cbn [snd sessionData responses with_responses].
    now apply stored_wf_cleanup.
Qed.

Lemma reachable_step (e : Event) (s : State) :
  reachable s -> reachable (exec (step e) s).
Proof.
  intros (clk & events & ->). exists clk, (events ++ [e]).
  now rewrite HubSubmit.run_app.
Qed.

Lemma reachable_well_formed (s : State) : reachable s -> well_formed s.
Proof.
  intros (clk & events & ->).
  assert (Hgen : forall l s0, well_formed s0 -> well_formed (run l s0)).
  { induction l as [|e rest IH]; intros s0 H0; simpl; [exact H0|].
    apply IH. now apply well_formed_step. }
  apply Hgen. repeat split; constructor.
Qed.

End HubInvariant.

(* ------------------------------------------------------------------ *)
(** ** The liveness sweep                                               *)
(* ------------------------------------------------------------------ *)

Module HubLiveness.
Import Hub HubFacts HubFrame HubSpec HubInvariant.

Lemma heartbeat_loop (s : State) :
  heartbeat s = forEach (wss_clients s) sweep_one s.
Proof. reflexivity. Qed.

(** What one round of the loop does to a socket other than the one it
    visits. *)
Lemma sweep_one_other (ws : Ws) (client : Ws * ReadyState) (s : State) :
  fst client <> ws ->
  let s1 := exec (sweep_one client) s in
  JsMap.get ws (connectedClients s1) = JsMap.get ws (connectedClients s)
  /\ JsMap.get ws (wss_clients s1) = JsMap.get ws (wss_clients s)
  /\ exists l, wire s1 = wire s ++ l /\ forall m, ~ In (ws, m) l.
Proof.
  intros Hne s1. subst s1. unfold sweep_one, exec. hub_run.
  destruct (JsMap.get (fst client) (connectedClients s)) as [ci|];
    [destruct (ci_isAlive ci); cbn [negb]|]; hub_run.
  - rewrite JsMapFacts.get_set_other by assumption.
    split; [reflexivity|]. split; [reflexivity|].
    eexists. split; [reflexivity|]. intros m [Heq|[]]. congruence.
  - rewrite JsMapFacts.get_set_other by assumption.
    split; [reflexivity|]. split; [reflexivity|].
    exists []. rewrite app_nil_r. split; [reflexivity | tauto].
  - split; [reflexivity|]. split; [reflexivity|].
    eexists. split; [reflexivity|]. intros m [Heq|[]]. congruence.
Qed.

Lemma sweep_others (ws : Ws) (l : list (Ws * ReadyState)) :
  ~ In ws (map fst l) ->
  forall s,
    let s' := exec (forEach l sweep_one) s in
    JsMap.get ws (connectedClients s') = JsMap.get ws (connectedClients s)
    /\ JsMap.get ws (wss_clients s') = JsMap.get ws (wss_clients s)
    /\ exists frames, wire s' = wire s ++ frames /\ forall m, ~ In (ws, m) frames.
Proof.
  induction l as [|client rest IH]; intros Hnin s; simpl.
  - split; [reflexivity|]. split; [reflexivity|].
    exists []. rewrite app_nil_r. split; [reflexivity | tauto].
  - simpl in Hnin. rewrite exec_bind.
    destruct (sweep_one_other ws client s) as (Hc & Hw & l1 & Ht1 & Hn1); [tauto|].
    destruct (IH ltac:(tauto) (exec (sweep_one client) s))
      as (Hc' & Hw' & l2 & Ht2 & Hn2).
    split; [congruence|]. split; [congruence|].
    exists (l1 ++ l2). split.
    + rewrite Ht2, Ht1. now rewrite app_assoc.
    + intros m Hin. apply in_app_or in Hin as [Hin|Hin];
        [now apply (Hn1 m) | now apply (Hn2 m)].
Qed.

(** What the whole loop does to one member of the socket set that has a
    registered connection. *)
Lemma sweep_target (ws : Ws) (ci : ClientInfo) (l : list (Ws * ReadyState)) :
  NoDup (map fst l) ->
  In ws (map fst l) ->
  forall s,
    JsMap.get ws (connectedClients s) = Some ci ->
    let s' := exec (forEach l sweep_one) s in
    exists frames,
      wire s' = wire s ++ frames
      /\ if ci_isAlive ci
         then alive ws s' = Some false
              /\ JsMap.get ws (wss_clients s') = JsMap.get ws (wss_clients s)
              /\ In (ws, protocol_ping) frames
         else alive ws s' = Some false
              /\ JsMap.get ws (wss_clients s') = Some CLOSING
              /\ forall m, ~ In (ws, m) frames.
Proof.
  induction l as [|client rest IH]; intros Hnd Hin s Hci; simpl in *; [tauto|].
  inversion Hnd as [|? ? Hnin Hrest]; subst.
  rewrite exec_bind.
  destruct (MapKeys.key_eq_dec (fst client) ws) as [Heq|Hne].
  - (* the socket is visited now; the rest of the loop leaves it alone *)
    rewrite Heq in Hnin.
    destruct (sweep_others ws rest Hnin (exec (sweep_one client) s))
      as (Hc & Hw & l2 & Ht2 & Hn2).
    unfold alive. rewrite Hc, Hw, Ht2. clear Hc Hw Ht2.
    unfold sweep_one, exec. hub_run. rewrite Heq, Hci.
    destruct (ci_isAlive ci) eqn:Ha; cbn [negb]; hub_run.
    + rewrite JsMapFacts.get_set_same. cbn [ci_isAlive].
      eexists. split; [now rewrite <- app_assoc|].
      split; [reflexivity|]. split; [reflexivity|]. now left.
    + rewrite Hci, Ha, JsMapFacts.get_set_same.
      exists l2. split; [reflexivity|]. now repeat split.
  - destruct Hin as [Hin|Hin]; [contradiction|].
    destruct (sweep_one_other ws client s Hne) as (Hc & Hw & l1 & Ht1 & Hn1).
    rewrite <- Hc in Hci.
    destruct (IH Hrest Hin (exec (sweep_one client) s) Hci)
      as (l2 & Ht2 & Hcase).
    exists (l1 ++ l2). split; [rewrite Ht2, Ht1; now rewrite app_assoc|].
    destruct (ci_isAlive ci).
    + destruct Hcase as (Ha & Hs & Hp). rewrite Hs, Hw.
      split; [exact Ha|]. split; [reflexivity|]. apply in_or_app. now right.
    + destruct Hcase as (Ha & Hs & Hp).
      split; [exact Ha|]. split; [exact Hs|].
      intros m Hm. apply in_app_or in Hm as [Hm|Hm];
        [now apply (Hn1 m) | now apply (Hp m)].
Qed.

Lemma heartbeat_target (ws : Ws) (st : ReadyState) (ci : ClientInfo) (s : State) :
  NoDup (map fst (wss_clients s)) ->
  JsMap.get ws (wss_clients s) = Some st ->
  JsMap.get ws (connectedClients s) = Some ci ->
  let s' := exec heartbeat s in
  alive ws s' = Some false
  /\ JsMap.get ws (wss_clients s')
     = Some (if ci_isAlive ci then st else CLOSING)
  /\ (if ci_isAlive ci
      then In (ws, protocol_ping) (sent_by heartbeat s)
      else forall m, ~ In (ws, m) (sent_by heartbeat s)).
Proof.
  intros Hnd Hst Hci s'. subst s'. unfold sent_by, exec.
  rewrite heartbeat_loop.
  assert (Hin : In ws (map fst (wss_clients s))).
  { apply JsMapFacts.get_In in Hst. apply in_map_iff. now exists (ws, st). }
  destruct (sweep_target ws ci (wss_clients s) Hnd Hin s Hci) as (l & Ht & Hcase).
  unfold exec in *. rewrite Ht, skipn_length_app.
  destruct (ci_isAlive ci); destruct Hcase as (Ha & Hs & Hp); rewrite Hs.
  - now repeat split.
  - now repeat split.
Qed.

Lemma state_of_get (ws : Ws) (st : ReadyState) (s : State) :
  JsMap.get ws (wss_clients s) = Some st -> state_of ws s = st.
Proof.
  intros Hg. unfold state_of, readyState, gets, result. cbn [fst]. now rewrite Hg.
Qed.

(** X3. The liveness sweep, seen from one connection of a reachable Hub. One
    sweep marks the connection as not alive; if it was alive, the sweep
    pings it and leaves its socket as it was; if it was not, the sweep
    terminates its socket and does not ping it.  So two sweeps with no pong
    in between always terminate the socket, and a pong between two sweeps
    keeps a live connection's socket as it was. *)
Theorem heartbeat_terminates_silent_connection :
  forall (s : State) (ws : Ws) (st : ReadyState) (ci : ClientInfo),
    reachable s ->
    JsMap.get ws (wss_clients s) = Some st ->
    JsMap.get ws (connectedClients s) = Some ci ->
    let s1 := exec heartbeat s in
    alive ws s1 = Some false
    /\ (ci_isAlive ci = true ->
        state_of ws s1 = st /\ In (ws, protocol_ping) (sent_by heartbeat s))
    /\ (ci_isAlive ci = false ->
        state_of ws s1 = CLOSING /\ forall m, ~ In (ws, m) (sent_by heartbeat s))
    /\ state_of ws (exec heartbeat s1) = CLOSING
    /\ (ci_isAlive ci = true ->
        state_of ws (exec heartbeat (exec (on_pong ws) s1)) = st).
Proof.
  intros s ws st ci Hreach Hst Hci s1.
  assert (Hwf : NoDup (map fst (wss_clients s)))
    by (apply reachable_well_formed in Hreach; apply Hreach).
  assert (Hwf1 : NoDup (map fst (wss_clients s1)))
    by (apply (reachable_step HeartbeatTick) in Hreach;
        apply reachable_well_formed in Hreach; apply Hreach).
  pose proof (heartbeat_target ws st ci s Hwf Hst Hci) as (Ha & Hst1 & Hcase).
  fold s1 in Ha, Hst1.
  unfold alive in Ha.
  destruct (JsMap.get ws (connectedClients s1)) as [ci1|] eqn:Hci1; [|discriminate].
  injection Ha as Ha1.
  split; [unfold alive; now rewrite Hci1, Ha1|].
  split; [intros Ht; rewrite Ht in *; split;
          [now apply state_of_get | exact Hcase]|].
  split; [intros Hf; rewrite Hf in *; split;
          [now apply state_of_get | exact Hcase]|].
  split.
  - pose proof (heartbeat_target ws _ ci1 s1 Hwf1 Hst1 Hci1) as (_ & Hs2 & _).
    rewrite Ha1 in Hs2. now apply state_of_get.
  - intros Ht. rewrite Ht in Hst1.
    set (s2 := exec (on_pong ws) s1).
    assert (Hw2 : wss_clients s2 = wss_clients s1) by apply wss_on_pong.
    assert (Hci2 : JsMap.get ws (connectedClients s2)
                   = Some {| ci_id := ci_id ci1;
                             ci_connectedAt := ci_connectedAt ci1;
                             ci_ip := ci_ip ci1;
                             ci_userId := ci_userId ci1;
                             ci_displayName := ci_displayName ci1;
                             ci_isAlive := true |}).
    { unfold s2, on_pong, exec, set_connectedClients. cbn [snd connectedClients].
      rewrite Hci1. apply JsMapFacts.get_set_same. }
    pose proof (heartbeat_target ws st _ s2
                  ltac:(rewrite Hw2; exact Hwf1)
                  ltac:(rewrite Hw2; exact Hst1) Hci2) as (_ & Hs2 & _).
    cbn [ci_isAlive] in Hs2. now apply state_of_get.
Qed.

End HubLiveness.

(* ------------------------------------------------------------------ *)
(** ** Messages, fan-out and the life of stored data                    *)
(* ------------------------------------------------------------------ *)

Module HubMessages.
Import Hub HubFacts HubFrame HubSpec HubInvariant.

Lemma total_responses (rs : JsMap.t string (JsMap.t string Response)) (n : nat) :
  fold_left (fun sum map => (sum + JsMap.size map)%nat) (JsMap.values rs) n
  = (n + length (all_responses rs))%nat.
Proof.
  revert n. induction rs as [|[q m] rest IH]; intros n; simpl.
  - now rewrite Nat.add_0_r.
  - unfold JsMap.values in IH. rewrite IH.
    unfold all_responses at 2. simpl. fold (all_responses rest).
    rewrite length_app, length_map. unfold JsMap.size. lia.
Qed.

(** X4. Every message other than [identify] and [submit_response], and data that
    does not parse, changes nothing in the session, the connections or the
    socket set, and is answered with a single frame, sent to the sender if
    its socket is open and to nobody otherwise; for [get_stats] the total
    in the answer is the number of Responses a sync would list. *)
Theorem queries_are_read_only :
  forall (s : State) (ws : Ws) (data : option ClientMsg),
    asks_only data = true ->
    let c := on_message ws data in
    sessionData (exec c s) = sessionData s
    /\ connectedClients (exec c s) = connectedClients s
    /\ wss_clients (exec c s) = wss_clients s
    /\ sent_by c s = if is_open ws s then [(ws, answer_to data s)] else [].
Proof.
  intros s ws data Hask c. subst c.
  unfold sent_by, on_message, handleClientMessage, answer_to, stored_map, exec.
  destruct data as [[uid dn|m| | | |ty]|]; try discriminate Hask;
    hub_run; rewrite ?total_responses; rewrite skipn_length_app;
    rewrite ?is_open_eq; hub_simpl; repeat split.
Qed.

(** A malformed frame on an open connection is answered with an error and
    nothing else happens. *)
Lemma queries_are_read_only_witness :
  Hub.sent_by (Hub.on_message 2%nat None) Samples.hub_two
  = if Hub.is_open 2%nat Samples.hub_two
    then [(2%nat, answer_to None Samples.hub_two)]
    else [].
Proof.
  apply (queries_are_read_only Samples.hub_two 2%nat None). reflexivity.
Defined.

Lemma recipients_others (ws w : Ws) (s : State) :
  In w (recipients (Some ws) s) <-> w <> ws /\ In (w, OPEN) (wss_clients s).
Proof.
  unfold recipients. rewrite in_map_iff. split.
  - intros ([w' st] & Hw & Hin). simpl in Hw. subst w'.
    apply filter_In in Hin as [Hin Hc]. simpl in Hc.
    apply andb_prop in Hc as [Hd Ho]. destruct st; try discriminate.
    split; [|assumption]. intros ->. now rewrite Nat.eqb_refl in Hd.
  - intros [Hne Hin]. exists (w, OPEN). split; [reflexivity|].
    apply filter_In. split; [assumption|]. simpl.
    rewrite andb_true_r. now apply negb_true_iff, Nat.eqb_neq.
Qed.

Lemma submit_sent (s : State) (ws : Ws) (m : SubmitFields) :
  sent_by (on_message ws (Some (submit_response m))) s
  = map (fun w => (w, peer_response
                        (response_of m
                           (match sub_timestamp m with
                            | Some t => if t =? 0 then clock s (S (ticks s)) else t
                            | None => clock s (S (ticks s))
                            end))))
        (recipients (Some ws) s)
    ++ (if is_open ws s
        then [(ws, response_confirmed (sub_questionId m) true)]
        else []).
Proof.
  unfold sent_by, on_message, handleClientMessage, timestamp_or_now, exec.
  unfold response_of.
  destruct (sub_timestamp m) as [t|]; [destruct (t =? 0)|];
    hub_run; unfold recipients, is_open, readyState; hub_run;
    rewrite <- app_assoc, skipn_length_app; reflexivity.
Qed.

(** X5. A submission is relayed as one [peer_response] to every open connection
    other than the sender, never to the sender, who gets the
    [response_confirmed] alone.  The relayed Response has the fields of the
    message; its timestamp is the message's when that is present and not
    zero, and otherwise a second reading of the clock, taken after the one
    that stamps the stored Response. *)
Theorem submit_fans_out_to_others :
  forall (s : State) (ws : Ws) (m : SubmitFields),
    let c := on_message ws (Some (submit_response m)) in
    let relayed_at :=
      match sub_timestamp m with
      | Some t => if t =? 0 then clock s (S (ticks s)) else t
      | None => clock s (S (ticks s))
      end in
    sent_by c s
    = map (fun w => (w, peer_response (response_of m relayed_at)))
          (recipients (Some ws) s)
      ++ (if is_open ws s
          then [(ws, response_confirmed (sub_questionId m) true)]
          else [])
    /\ (forall w, In w (recipients (Some ws) s)
                  <-> w <> ws /\ In (w, OPEN) (wss_clients s))
    /\ stored (exec c s) (sub_questionId m) (sub_userId m)
       = Some (response_of m (stamp (sub_timestamp m) s))
    /\ (truthy_number (sub_timestamp m) = true ->
        relayed_at = stamp (sub_timestamp m) s)
    /\ (truthy_number (sub_timestamp m) = false ->
        stamp (sub_timestamp m) s = clock s (ticks s)
        /\ relayed_at = clock s (S (ticks s))).
Proof.
  intros s ws m c relayed_at. subst c relayed_at.
  split; [|split; [intro w; apply recipients_others|split;
                   [apply HubSubmit.stored_submit_same|]]].
  - apply submit_sent.
  - unfold stamp, truthy_number.
    destruct (sub_timestamp m) as [t|]; [destruct (t =? 0)|]; simpl;
      split; intros; try discriminate; repeat split.
Qed.

(** A submission without a timestamp, while the clock ticks: the stored
    Response and the relayed one carry different timestamps. *)
Lemma submit_fans_out_to_others_witness :
  stamp (sub_timestamp Samples.submit_other) Samples.hub_two
  = clock Samples.hub_two (ticks Samples.hub_two)
  /\ match sub_timestamp Samples.submit_other with
     | Some t => if t =? 0
                 then clock Samples.hub_two (S (ticks Samples.hub_two)) else t
     | None => clock Samples.hub_two (S (ticks Samples.hub_two))
     end = clock Samples.hub_two (S (ticks Samples.hub_two)).
Proof.
  refine (proj2 (proj2 (proj2 (proj2
            (submit_fans_out_to_others Samples.hub_two 2%nat
                                       Samples.submit_other)))) _).
  reflexivity.
Defined.

End HubMessages.

Module HubUsers.
Import Hub HubFacts HubFrame HubSpec HubInvariant.

Lemma has_add_keeps (k k' : string) (s : JsSet.t string) :
  JsSet.has k s = true -> JsSet.has k (JsSet.add k' s) = true.
Proof.
  intros Hk. unfold JsSet.add. destruct (JsSet.has k' s); [exact Hk|].
  rewrite JsSetFacts.has_app, Hk. reflexivity.
Qed.

Lemma has_delete_other (k k' : string) (s : JsSet.t string) :
  k <> k' -> JsSet.has k (JsSet.delete k' s) = JsSet.has k s.
Proof.
  intros Hne. unfold JsSet.delete.
  induction s as [|x rest IH]; simpl; [reflexivity|].
  destruct (String.eqb k' x) eqn:E; simpl.
  - apply String.eqb_eq in E. subst x.
    rewrite (proj2 (String.eqb_neq k k')) by assumption. exact IH.
  - destruct (String.eqb k x); [reflexivity | exact IH].
Qed.

Lemma truthy_nonempty (u : string) : u <> "" -> truthy_string (Some u) = true.
Proof. intros Hne. simpl. now apply negb_true_iff, String.eqb_neq. Qed.

(** The state after [identify] on a registered connection. *)
Lemma identify_state (s : State) (ws : Ws) (ci : ClientInfo) (u d : string) :
  JsMap.get ws (connectedClients s) = Some ci ->
  let s' := exec (on_message ws (Some (identify u d))) s in
  connectedClients s'
  = JsMap.set ws {| ci_id := ci_id ci; ci_connectedAt := ci_connectedAt ci;
                    ci_ip := ci_ip ci; ci_userId := Some u;
                    ci_displayName := Some d; ci_isAlive := ci_isAlive ci |}
              (connectedClients s)
  /\ activeUsers (sessionData s') = JsSet.add u (activeUsers (sessionData s)).
Proof.
  intros Hreg s'. subst s'. unfold on_message, handleClientMessage, exec. hub_run.
  rewrite Hreg. split; reflexivity.
Qed.

(** The state after the close of a registered connection. *)
Lemma close_state (s : State) (ws : Ws) (ci : ClientInfo) :
  JsMap.get ws (connectedClients s) = Some ci ->
  let s' := exec (step (Close ws)) s in
  connectedClients s' = JsMap.delete ws (connectedClients s)
  /\ activeUsers (sessionData s')
     = if truthy_string (ci_userId ci)
       then match ci_userId ci with
            | Some u => JsSet.delete u (activeUsers (sessionData s))
            | None => activeUsers (sessionData s)
            end
       else activeUsers (sessionData s).
Proof.
  intros Hreg s'. subst s'. unfold step, on_close, exec. hub_run. rewrite Hreg.
  destruct (truthy_string (ci_userId ci)); [destruct (ci_userId ci)|];
    hub_run; split; reflexivity.
Qed.

(** X6. Two connections identified under one userId: when one of them closes,
    a userId that is not the empty string leaves [activeUsers] although
    the other connection is still registered under it; the empty string
    as userId is skipped by the close handler and stays in [activeUsers]
    if it was there. *)
Theorem close_drops_user_still_connected :
  forall (s : State) (ws1 ws2 : Ws) (ci1 ci2 : ClientInfo) (u : string),
    ws1 <> ws2 ->
    JsMap.get ws1 (connectedClients s) = Some ci1 ->
    JsMap.get ws2 (connectedClients s) = Some ci2 ->
    ci_userId ci1 = Some u ->
    ci_userId ci2 = Some u ->
    let s' := exec (step (Close ws1)) s in
    JsSet.has u (activeUsers (sessionData s'))
    = (if String.eqb u ""
       then JsSet.has u (activeUsers (sessionData s))
       else false)
    /\ JsMap.get ws2 (connectedClients s') = Some ci2.
Proof.
  intros s ws1 ws2 ci1 ci2 u Hne H1 H2 Hu1 Hu2 s'. subst s'.
  destruct (close_state s ws1 ci1 H1) as [Hc Ha].
  rewrite Hc, Ha, Hu1. split.
  - destruct (String.eqb u "") eqn:E.
    + apply String.eqb_eq in E. subst u. reflexivity.
    + apply String.eqb_neq in E. rewrite (truthy_nonempty u E).
      apply JsSetFacts.has_delete.
  - rewrite MapKeys.get_delete_other by assumption. exact H2.
Qed.

(** X7. A connection that identifies itself a second time under another userId
    and then closes leaves its first userId in [activeUsers]: only the
    userId it carries at the close is removed. *)
Theorem reidentify_leaves_first_user_active :
  forall (s : State) (ws : Ws) (ci : ClientInfo) (u1 d1 u2 d2 : string),
    JsMap.get ws (connectedClients s) = Some ci ->
    u1 <> u2 ->
    let s' := run [Message ws (Some (identify u1 d1));
                   Message ws (Some (identify u2 d2));
                   Close ws] s in
    JsSet.has u1 (activeUsers (sessionData s')) = true
    /\ JsMap.get ws (connectedClients s') = None.
Proof.
  intros s ws ci u1 d1 u2 d2 Hreg Hne s'. subst s'.
  change (run [Message ws (Some (identify u1 d1));
               Message ws (Some (identify u2 d2)); Close ws] s)
    with (exec (step (Close ws))
            (exec (on_message ws (Some (identify u2 d2)))
               (exec (on_message ws (Some (identify u1 d1))) s))).
  destruct (identify_state s ws ci u1 d1 Hreg) as [Hc1 Ha1].
  set (s1 := exec (on_message ws (Some (identify u1 d1))) s) in *.
  assert (Hreg1 : JsMap.get ws (connectedClients s1) = Some
            {| ci_id := ci_id ci; ci_connectedAt := ci_connectedAt ci;
               ci_ip := ci_ip ci; ci_userId := Some u1;
               ci_displayName := Some d1; ci_isAlive := ci_isAlive ci |})
    by (rewrite Hc1; apply JsMapFacts.get_set_same).
  destruct (identify_state s1 ws _ u2 d2 Hreg1) as [Hc2 Ha2].
  set (s2 := exec (on_message ws (Some (identify u2 d2))) s1) in *.
  cbn [ci_id ci_connectedAt ci_ip ci_isAlive] in Hc2.
  assert (Hreg2 : JsMap.get ws (connectedClients s2) = Some
            {| ci_id := ci_id ci; ci_connectedAt := ci_connectedAt ci;
               ci_ip := ci_ip ci; ci_userId := Some u2;
               ci_displayName := Some d2; ci_isAlive := ci_isAlive ci |})
    by (rewrite Hc2; apply JsMapFacts.get_set_same).
  destruct (close_state s2 ws _ Hreg2) as [Hc3 Ha3].
  rewrite Hc3, Ha3. split; [|apply JsMapFacts.get_delete_same].
  assert (Hin : JsSet.has u1 (activeUsers (sessionData s2)) = true).
  { rewrite Ha2, Ha1. apply has_add_keeps, JsSetFacts.has_add. }
  cbn [ci_userId].
  destruct (truthy_string (Some u2)); [|exact Hin].
  now rewrite has_delete_other.
Qed.

(** Of two tabs of the same user, the first one closes. *)
Lemma close_drops_user_still_connected_witness :
  let s' := exec (Hub.step (Hub.Close 1%nat)) Scenarios.hub_shared_user in
  JsSet.has "u1" (activeUsers (sessionData s')) = false
  /\ JsMap.get 3%nat (connectedClients s')
     = Some {| ci_id := {| cid_time := 1007; cid_rand := "c" |};
               ci_connectedAt := 1008; ci_ip := "10.0.0.3";
               ci_userId := Some "u1"; ci_displayName := Some "Ann";
               ci_isAlive := true |}.
Proof.
  refine (close_drops_user_still_connected Scenarios.hub_shared_user
            1%nat 3%nat
            {| ci_id := {| cid_time := 1001; cid_rand := "a" |};
               ci_connectedAt := 1002; ci_ip := "10.0.0.1";
               ci_userId := Some "u1"; ci_displayName := Some "Ann";
               ci_isAlive := true |}
            _ "u1" _ _ _ _ _).
  - discriminate.
  - vm_compute. reflexivity.
  - vm_compute. reflexivity.
  - reflexivity.
  - reflexivity.
Defined.

(** A connection identifies as u1, then as u9, then closes. *)
Lemma reidentify_leaves_first_user_active_witness :
  let s' := Hub.run [Hub.Message 2%nat (Some (identify "u1" "Ann"));
                     Hub.Message 2%nat (Some (identify "u9" "Zed"));
                     Hub.Close 2%nat] Samples.hub_fresh in
  JsSet.has "u1" (activeUsers (sessionData s')) = true
  /\ JsMap.get 2%nat (connectedClients s') = None.
Proof.
  refine (reidentify_leaves_first_user_active Samples.hub_fresh 2%nat
            {| ci_id := {| cid_time := 1004; cid_rand := "b" |};
               ci_connectedAt := 1005; ci_ip := "10.0.0.2";
               ci_userId := None; ci_displayName := None;
               ci_isAlive := true |}
            "u1" "Ann" "u9" "Zed" _ _).
  - vm_compute. reflexivity.
  - discriminate.
Defined.

End HubUsers.

Module HubLifetime.
Import Hub HubFacts HubFrame HubSpec HubInvariant.

Lemma stored_same_map (s s' : State) (q u : string) :
  stored_map s' = stored_map s -> stored s' q u = stored s q u.
Proof. unfold stored, stored_map. now intros ->. Qed.

Lemma has_key_true (q u : string) (m : SubmitFields) :
  has_key q u m = true -> sub_questionId m = q /\ sub_userId m = u.
Proof.
  unfold has_key. intros Hk. apply andb_prop in Hk as [Hq Hu].
  split; now apply String.eqb_eq.
Qed.

(** One event other than the retention sweep: the value under a key is
    replaced by a submission under that key and is otherwise kept. *)
Lemma stored_step (e : Event) (s : State) (q u : string) :
  is_cleanup e = false ->
  (submits q u e = false -> stored (exec (step e) s) q u = stored s q u)
  /\ (submits q u e = true -> exists r, stored (exec (step e) s) q u = Some r).
Proof.
  intros Hc. destruct e as [ws ip rnd|ws data|ws|ws| |]; try discriminate;
    unfold step, submits.
  - split; [|discriminate]. intros _. apply stored_same_map.
    rewrite exec_bind. now rewrite stored_map_on_connection.
  - destruct data as [[uid dn|m| | | |ty]|];
      try (split; [|discriminate]; intros _; apply stored_same_map;
           apply stored_map_other_messages; discriminate).
    split.
    + intros Hk. unfold on_message. now apply HubSubmit.stored_submit_other.
    + intros Hk. apply has_key_true in Hk as [<- <-]. eexists.
      unfold on_message. apply HubSubmit.stored_submit_same.
  - split; [|discriminate]. intros _. apply stored_same_map.
    rewrite exec_bind. now rewrite stored_map_on_close.
  - split; [|discriminate]. intros _. apply stored_same_map.
    apply stored_map_on_pong.
  - split; [|discriminate]. intros _. apply stored_same_map.
    apply stored_map_heartbeat.
Qed.

(** X8. Between two retention sweeps nothing stored is lost: over any events
    other than the sweep (connects, closes, liveness sweeps, messages of
    any kind), a key that holds a Response keeps holding one, and it holds
    the very same Response if no submission under that key is among the
    events. *)
Theorem stored_data_outlives_connections :
  forall (events : list Event) (s : State) (q u : string) (r : Response),
    forallb (fun e => negb (is_cleanup e)) events = true ->
    stored s q u = Some r ->
    (exists r', stored (run events s) q u = Some r')
    /\ (forallb (fun e => negb (submits q u e)) events = true ->
        stored (run events s) q u = Some r).
Proof.
  induction events as [|e rest IH]; intros s q u r Hall Hst; simpl.
  - split; [now exists r | intros _; exact Hst].
  - simpl in Hall. apply andb_prop in Hall as [He Hrest].
    apply negb_true_iff in He.
    destruct (stored_step e s q u He) as [Hkeep Hput].
    destruct (submits q u e) eqn:Hsub.
    + destruct (Hput eq_refl) as [r1 Hr1].
      destruct (IH (exec (step e) s) q u r1 Hrest Hr1) as [Hex _].
      split; [exact Hex | discriminate].
    + rewrite <- (Hkeep eq_refl) in Hst.
      destruct (IH (exec (step e) s) q u r Hrest Hst) as [Hex Hsame].
      split; [exact Hex | exact Hsame].
Qed.

(** The user of the stored answer disconnects, another user submits, a
    third client connects: the answer is still there. *)
Lemma stored_data_outlives_connections_witness :
  Hub.stored
    (Hub.run [Hub.Close 1%nat;
              Hub.Message 2%nat (Some (submit_response Samples.submit_other));
              Hub.HeartbeatTick;
              Hub.Accept 3%nat "10.0.0.3" "c"]
             Samples.hub_with_data)
    "Q1" "u1"
  = Some (Hub.response_of Samples.submit_B_100 100).
Proof.
  refine (proj2 (stored_data_outlives_connections
                   [Hub.Close 1%nat;
                    Hub.Message 2%nat (Some (submit_response Samples.submit_other));
                    Hub.HeartbeatTick;
                    Hub.Accept 3%nat "10.0.0.3" "c"]
                   Samples.hub_with_data "Q1" "u1"
                   (Hub.response_of Samples.submit_B_100 100) _ _) _).
  - reflexivity.
  - vm_compute. reflexivity.
  - reflexivity.
Defined.

Lemma closing_loop (l : list (Ws * ReadyState)) :
  forall s,
    let s' := exec (forEach l (fun client =>
                       set_wss_clients (JsMap.set (fst client) CLOSING))) s in
    sessionData s' = sessionData s
    /\ connectedClients s' = connectedClients s
    /\ wire s' = wire s
    /\ (forall w, In w (map fst l) -> JsMap.get w (wss_clients s') = Some CLOSING)
    /\ (forall w, JsMap.get w (wss_clients s) = Some CLOSING ->
                  JsMap.get w (wss_clients s') = Some CLOSING)
    /\ (forall w, ~ In w (map fst l) ->
                  JsMap.get w (wss_clients s') = JsMap.get w (wss_clients s)).
Proof.
  induction l as [|client rest IH]; intros s; simpl.
  - repeat split; auto; tauto.
  - rewrite exec_bind.
    set (s1 := exec (set_wss_clients (JsMap.set (fst client) CLOSING)) s).
    destruct (IH s1) as (Hsd & Hcc & Hw & Hin & Hkeep & Hout).
    assert (Hs1 : forall w, JsMap.get w (wss_clients s1)
                            = if Nat.eqb (fst client) w then Some CLOSING
                              else JsMap.get w (wss_clients s)).
    { intros w. unfold s1, exec, set_wss_clients. cbn [snd wss_clients].
      destruct (Nat.eqb (fst client) w) eqn:E.
      - apply Nat.eqb_eq in E. subst w. apply JsMapFacts.get_set_same.
      - apply Nat.eqb_neq in E. now apply JsMapFacts.get_set_other. }
    split; [exact Hsd|]. split; [exact Hcc|]. split; [exact Hw|].
    split; [|split].
    + intros w [Heq|Hr]; [|now apply Hin].
      apply Hkeep. rewrite Hs1, Heq, Nat.eqb_refl. reflexivity.
    + intros w Hc. apply Hkeep. rewrite Hs1.
      destruct (Nat.eqb (fst client) w); [reflexivity | exact Hc].
    + intros w Hnin. rewrite Hout by tauto. rewrite Hs1.
      destruct (Nat.eqb (fst client) w) eqn:E; [|reflexivity].
      apply Nat.eqb_eq in E. tauto.
Qed.

(** X9. Shutdown: [server_shutdown] is sent to every open connection, one frame
    each and nothing else; afterwards every socket of the server's set is
    closing; the session data are as they were. *)
Theorem shutdown_notifies_and_closes :
  forall s : State,
    let s' := exec on_SIGINT s in
    sent_by on_SIGINT s
    = map (fun w => (w, server_shutdown)) (recipients None s)
    /\ (forall w st, JsMap.get w (wss_clients s) = Some st ->
                     state_of w s' = CLOSING)
    /\ (forall w, state_of w s = OPEN -> In w (recipients None s))
    /\ sessionData s' = sessionData s.
Proof.
  intros s s'. subst s'. unfold sent_by, on_SIGINT, exec. hub_run.
  set (s0 := deliver _ s).
  destruct (closing_loop (wss_clients s) s0) as (Hsd & _ & Hw & Hin & _ & _).
  unfold exec in *. rewrite Hw, Hsd. unfold s0. hub_simpl.
  rewrite skipn_length_app.
  split; [reflexivity|]. split; [|split; [|reflexivity]].
  - intros w st Hg. apply HubLiveness.state_of_get. apply Hin.
    apply JsMapFacts.get_In in Hg. apply in_map_iff. now exists (w, st).
  - intros w Ho. apply HubSession.open_is_recipient.
    unfold state_of in Ho. unfold is_open. now rewrite Ho.
Qed.

(** Shutdown of the Hub with two open connections: the first is closing. *)
Lemma shutdown_notifies_and_closes_witness :
  state_of 1%nat (exec on_SIGINT Samples.hub_two) = CLOSING.
Proof.
  refine (proj1 (proj2 (shutdown_notifies_and_closes Samples.hub_two))
            1%nat OPEN _).
  vm_compute. reflexivity.
Defined.

(** The second connection, identified and registered, answers no ping. *)
Lemma heartbeat_terminates_silent_connection_witness :
  state_of 1%nat (exec heartbeat (exec heartbeat Samples.hub_two)) = CLOSING.
Proof.
  refine (proj1 (proj2 (proj2 (proj2
            (HubLiveness.heartbeat_terminates_silent_connection
               Samples.hub_two 1%nat OPEN Samples.client_1 _ _ _))))).
  - exists Samples.clk.
    exists [Hub.Accept 1%nat "10.0.0.1" "a"; Hub.Accept 2%nat "10.0.0.2" "b";
            Hub.Message 1%nat (Some (identify "u1" "Ann"))].
    vm_compute. reflexivity.
  - vm_compute. reflexivity.
  - vm_compute. reflexivity.
Defined.

End HubLifetime.

(* ================================================================== *)
(** * Further properties of the client                                  *)
(* ================================================================== *)

Module ClientFrame.
Import Client ClientSave ClientMore.

Section Keeps.
Context {X : Type} (f : State -> X).

Lemma keeps_ret {A} (a : A) : keeps f (ret a : M A).
Proof. intros s. reflexivity. Qed.

Lemma keeps_gets {A} (g : State -> A) : keeps f (gets g : M A).
Proof. intros s. reflexivity. Qed.

Lemma keeps_bind {A B} (c : M A) (k : A -> M B) :
  keeps f c -> (forall a, keeps f (k a)) -> keeps f (bind c k).
Proof. intros Hc Hk s. rewrite exec_bind, Hk. apply Hc. Qed.

Lemma keeps_forEach {A} (l : list A) (g : A -> M unit) :
  (forall x, keeps f (g x)) -> keeps f (forEach l g).
Proof.
  intros Hg. induction l as [|x rest IH]; simpl.
  - apply keeps_ret.
  - apply keeps_bind; auto.
Qed.

Lemma keeps_mapM {A B} (l : list A) (g : A -> M B) :
  (forall x, keeps f (g x)) -> keeps f (mapM g l).
Proof.
  intros Hg. induction l as [|x rest IH]; simpl.
  - apply keeps_ret.
  - apply keeps_bind; auto. intros y. apply keeps_bind; auto.
    intros ys. apply keeps_ret.
Qed.

End Keeps.

(** Splits a client routine into primitive operations and closes those
    that do not write the projected part of the state. *)
Ltac keep_all :=
  repeat first
    [ apply keeps_ret
    | apply keeps_gets
    | solve [intros ?; reflexivity]
    | apply keeps_bind; [|intro]
    | apply keeps_forEach; intro
    | apply keeps_mapM; intro
    | match goal with
      | |- keeps _ (if ?b then _ else _) => destruct b
      | |- keeps _ (match ?x with _ => _ end) => destruct x
      end ].

Lemma forEach_app {S A} (l1 l2 : list A) (g : A -> StateM S unit) (s : S) :
  exec (forEach (l1 ++ l2) g) s = exec (forEach l2 g) (exec (forEach l1 g) s).
Proof.
  revert s. induction l1 as [|x rest IH]; intros s; simpl; [reflexivity|].
  rewrite !exec_bind. apply IH.
Qed.

End ClientFrame.

Module ClientInbound.
Import Client ClientSave ClientMore ClientFrame.

Lemma handlePeerResponse_run (r : Response) (s : State) :
  handlePeerResponse r s
  = (tt,
     {| connectionMode := connectionMode s;
        wsConnection := wsConnection s;
        wsReconnectAttempts := wsReconnectAttempts s;
        cache_responses := cache_responses s;
        cache_peerData :=
          JsMap.set (resp_questionId r)
            (JsMap.set (resp_userId r) (entry_of r)
               (match JsMap.get (resp_questionId r) (cache_peerData s) with
                | Some m => m
                | None => JsMap.empty
                end))
            (cache_peerData s);
        currentUser := currentUser s;
        lastLocalHubIP := lastLocalHubIP s;
        store_accepts := store_accepts s;
        trace := trace s
                 ++ [dispatchEvent (peerDataUpdated (resp_questionId r) r)] |}).
Proof.
  unfold handlePeerResponse. client_run. unfold JsMap.has.
  fold (entry_of r).
  destruct (JsMap.get (resp_questionId r) (cache_peerData s)) as [m|] eqn:E.
  - rewrite E. reflexivity.
  - rewrite JsMapFacts.get_set_same, JsMapFacts.set_set. reflexivity.
Qed.

Lemma peer_after_same (r : Response) (s : State) :
  peer (exec (handlePeerResponse r) s) (resp_questionId r) (resp_userId r)
  = Some (entry_of r).
Proof.
  unfold exec, peer. rewrite handlePeerResponse_run. cbn [snd cache_peerData].
  rewrite JsMapFacts.get_set_same. apply JsMapFacts.get_set_same.
Qed.

Lemma peer_after_other (r : Response) (s : State) (q u : string) :
  keyed q u r = false ->
  peer (exec (handlePeerResponse r) s) q u = peer s q u.
Proof.
  unfold keyed, exec, peer. intros Hk. rewrite handlePeerResponse_run.
  cbn [snd cache_peerData].
  destruct (String.eqb (resp_questionId r) q) eqn:Eq.
  - apply String.eqb_eq in Eq. subst q. simpl in Hk.
    apply String.eqb_neq in Hk.
    rewrite JsMapFacts.get_set_same.
    rewrite JsMapFacts.get_set_other by assumption.
    now destruct (JsMap.get (resp_questionId r) (cache_peerData s)).
  - apply String.eqb_neq in Eq.
    now rewrite JsMapFacts.get_set_other by assumption.
Qed.

Lemma peer_bulk_others (q u : string) (l : list Response) :
  Forall (fun r => keyed q u r = false) l ->
  forall s, peer (exec (handleBulkUpdate l) s) q u = peer s q u.
Proof.
  unfold handleBulkUpdate.
  induction 1 as [|r rest Hk _ IH]; intros s; [reflexivity|].
  simpl. rewrite exec_bind, IH. now apply peer_after_other.
Qed.

Lemma bulk_last (s : State) (before after : list Response) (r : Response) :
  Forall (fun r' => keyed (resp_questionId r) (resp_userId r) r' = false) after ->
  peer (exec (handleBulkUpdate (before ++ r :: after)) s)
       (resp_questionId r) (resp_userId r)
  = Some (entry_of r).
Proof.
  intros Hafter. unfold handleBulkUpdate. rewrite forEach_app. simpl.
  rewrite exec_bind. fold (handleBulkUpdate after).
  rewrite peer_bulk_others by assumption. apply peer_after_same.
Qed.

(** X10. What a bulk of Responses received from the Hub does to one key of the
    peer cache: whatever was cached, and whatever the timestamps, the
    entry is the one of the last Response of the bulk that carries the key.
    The same holds for the Responses of a [sync_response]. *)
Theorem bulk_update_last_entry_wins :
  forall (s : State) (before after : list Response) (r : Response)
         (users : list string) (t : Z),
    Forall (fun r' => keyed (resp_questionId r) (resp_userId r) r' = false)
           after ->
    let rs := before ++ r :: after in
    peer (exec (handleWebSocketMessage (bulk_update rs)) s)
         (resp_questionId r) (resp_userId r)
    = Some (entry_of r)
    /\ peer (exec (handleWebSocketMessage (sync_response rs users t)) s)
            (resp_questionId r) (resp_userId r)
       = Some (entry_of r).
Proof.
  intros s before after r users t Hafter rs. subst rs.
  split; now apply bulk_last.
Qed.

(** An older answer arriving after a newer one replaces it. *)
Lemma bulk_update_last_entry_wins_witness :
  peer (exec (handleWebSocketMessage
                (bulk_update ([Samples.entry "Q1" "B" 100]
                              ++ Samples.entry "Q1" "C" 50
                              :: [Samples.entry "Q2" "A" 70])))
             Scenarios.client_bob)
       "Q1" "u1"
  = Some (entry_of (Samples.entry "Q1" "C" 50)).
Proof.
  refine (proj1 (bulk_update_last_entry_wins Scenarios.client_bob
                   [Samples.entry "Q1" "B" 100]
                   [Samples.entry "Q2" "A" 70]
                   (Samples.entry "Q1" "C" 50) [] 0 _)).
  constructor; [reflexivity | constructor].
Defined.

Lemma bulk_trace (l : list Response) :
  forall s,
    trace (exec (handleBulkUpdate l) s)
    = trace s
      ++ map (fun r => dispatchEvent (peerDataUpdated (resp_questionId r) r)) l.
Proof.
  unfold handleBulkUpdate.
  induction l as [|r rest IH]; intros s; simpl.
  - now rewrite app_nil_r.
  - rewrite exec_bind, IH. unfold exec at 1. rewrite handlePeerResponse_run.
    cbn [snd trace]. now rewrite <- app_assoc.
Qed.

Lemma keeps_handleWebSocketMessage {X} (f : State -> X) (message : ServerMsg) :
  (forall r, keeps f (handlePeerResponse r)) ->
  (forall e, keeps f (emit e)) ->
  keeps f (handleWebSocketMessage message).
Proof.
  intros Hp He. unfold handleWebSocketMessage, handleBulkUpdate.
  destruct message; try apply keeps_ret; try apply keeps_forEach; auto.
Qed.

(** X11. No message from the Hub touches the client's own submissions, its
    mode, its link, its reconnect counter, the signed-in user or the
    stored Hub address, and none makes the client send or write anything.
    A bulk raises one [peerDataUpdated] event per Response, in order;
    [user_joined] and [user_disconnected] raise [activeUsersUpdated] and
    leave the peer cache alone; every other message other than a peer
    response leaves the whole state as it was. *)
Theorem inbound_messages_only_fill_peer_cache :
  forall (message : ServerMsg) (s : State),
    let s' := exec (handleWebSocketMessage message) s in
    (cache_responses s' = cache_responses s
     /\ connectionMode s' = connectionMode s
     /\ wsConnection s' = wsConnection s
     /\ wsReconnectAttempts s' = wsReconnectAttempts s
     /\ currentUser s' = currentUser s
     /\ lastLocalHubIP s' = lastLocalHubIP s)
    /\ filter is_transport (effects_of (handleWebSocketMessage message) s) = []
    /\ match message with
       | peer_response r =>
           effects_of (handleWebSocketMessage message) s
           = [dispatchEvent (peerDataUpdated (resp_questionId r) r)]
       | bulk_update rs | sync_response rs _ _ =>
           effects_of (handleWebSocketMessage message) s
           = map (fun r => dispatchEvent (peerDataUpdated (resp_questionId r) r))
                 rs
       | user_joined _ _ _ | user_disconnected _ _ _ =>
           cache_peerData s' = cache_peerData s
           /\ effects_of (handleWebSocketMessage message) s
              = [dispatchEvent (activeUsersUpdated message)]
       | _ => s' = s
       end.
Proof.
  intros message s s'. subst s'.
  assert (Hp : forall {X} (f : State -> X),
             (forall l s0, f (add_effects l s0) = f s0) ->
             (forall r s0, f (exec (handlePeerResponse r) s0) = f s0) ->
             f (exec (handleWebSocketMessage message) s) = f s).
  { intros X f Hadd Hpeer. apply keeps_handleWebSocketMessage.
    - intros r s0. apply Hpeer.
    - intros e s0. apply (Hadd [e] s0). }
  assert (Hpr : forall {X} (f : State -> X),
             (forall v s0,
                 f {| connectionMode := connectionMode s0;
                      wsConnection := wsConnection s0;
                      wsReconnectAttempts := wsReconnectAttempts s0;
                      cache_responses := cache_responses s0;
                      cache_peerData := fst v;
                      currentUser := currentUser s0;
                      lastLocalHubIP := lastLocalHubIP s0;
                      store_accepts := store_accepts s0;
                      trace := snd v |} = f s0) ->
             forall r s0, f (exec (handlePeerResponse r) s0) = f s0).
  { intros X f Hf r s0. unfold exec. rewrite handlePeerResponse_run.
    cbn [snd]. apply (Hf (_, _)). }
  split.
  { split; [|split; [|split; [|split; [|split]]]].
    - apply (Hp _ cache_responses); [reflexivity | now apply Hpr].
    - apply (Hp _ connectionMode); [reflexivity | now apply Hpr].
    - apply (Hp _ wsConnection); [reflexivity | now apply Hpr].
    - apply (Hp _ wsReconnectAttempts); [reflexivity | now apply Hpr].
    - apply (Hp _ currentUser); [reflexivity | now apply Hpr].
    - apply (Hp _ lastLocalHubIP); [reflexivity | now apply Hpr]. }
  assert (Hno : forall l : list Response,
             filter is_transport
               (map (fun r => dispatchEvent (peerDataUpdated (resp_questionId r) r)) l)
             = []).
  { induction l; simpl; auto. }
  unfold effects_of.
  destruct message; simpl handleWebSocketMessage;
    try (unfold exec, ret; cbn [snd]; rewrite skipn_all;
         split; reflexivity);
    try (rewrite bulk_trace, skipn_length_app; split; [apply Hno | reflexivity]).
  - unfold exec, emit. cbn [snd trace cache_peerData].
    rewrite skipn_length_app. repeat split.
  - unfold exec. rewrite handlePeerResponse_run. cbn [snd trace].
    rewrite skipn_length_app. split; reflexivity.
  - unfold exec, emit. cbn [snd trace cache_peerData].
    rewrite skipn_length_app. repeat split.
Qed.

End ClientInbound.

Module ClientPeers.
Import Client ClientSave ClientMore ClientFrame ClientInbound.

(** X12. Outside cloud mode [getPeerResponses] reads the peer cache and nothing
    else: it changes no state, lists the cached entries of the question,
    and lists nothing for a question never heard of; a Response just
    received is listed under its sender's id.  In cloud mode it passes the
    cache by: it returns the documents of the remote store, or nothing if
    the query fails. *)
Theorem getPeerResponses_reads_cache_unless_cloud :
  forall (remote : string -> Settled (list CloudDoc)) (s : State)
         (questionId : string),
    exec (getPeerResponses remote questionId) s = s
    /\ (connectionMode s <> cloud ->
        result (getPeerResponses remote questionId) s
        = match JsMap.get questionId (cache_peerData s) with
          | Some m => map (fun e => from_cache (fst e) (snd e)) m
          | None => []
          end)
    /\ (connectionMode s <> cloud ->
        forall r,
          In (from_cache (resp_userId r) (entry_of r))
             (result (getPeerResponses remote (resp_questionId r))
                     (exec (handleWebSocketMessage (peer_response r)) s)))
    /\ (connectionMode s = cloud ->
        result (getPeerResponses remote questionId) s
        = match remote questionId with
          | fulfilled docs => map from_store docs
          | rejected _ => []
          end).
Proof.
  intros remote s questionId.
  assert (Hlocal : forall s0 q, connectionMode s0 <> cloud ->
             result (getPeerResponses remote q) s0
             = match JsMap.get q (cache_peerData s0) with
               | Some m => map (fun e => from_cache (fst e) (snd e)) m
               | None => []
               end).
  { intros s0 q Hm. unfold getPeerResponses. client_run.
    destruct (connectionMode s0); [contradiction| |]; client_run;
      destruct (JsMap.get q (cache_peerData s0)); reflexivity. }
  split; [|split; [apply Hlocal|split]].
  - unfold getPeerResponses, getClassResponses. client_run.
    destruct (connectionMode s); client_run;
      try (destruct (remote questionId); reflexivity);
      destruct (JsMap.get questionId (cache_peerData s)); reflexivity.
  - intros Hm r. simpl handleWebSocketMessage.
    rewrite Hlocal
      by (unfold exec; rewrite handlePeerResponse_run; exact Hm).
    pose proof (peer_after_same r s) as Hpeer. unfold peer in Hpeer.
    destruct (JsMap.get (resp_questionId r)
                (cache_peerData (exec (handlePeerResponse r) s))) as [m|];
      [|discriminate].
    apply JsMapFacts.get_In in Hpeer.
    apply in_map_iff. exists (resp_userId r, entry_of r). split; [reflexivity|exact Hpeer].
  - intros Hm. unfold getPeerResponses, getClassResponses. client_run.
    rewrite Hm. client_run. destruct (remote questionId); reflexivity.
Qed.

(** Bob's client, in local mode, hears of Ann's answer and lists it. *)
Lemma getPeerResponses_reads_cache_unless_cloud_witness :
  In (from_cache (resp_userId (Samples.entry "Q1" "B" 100))
                 (entry_of (Samples.entry "Q1" "B" 100)))
     (result (getPeerResponses (fun _ => rejected (Error "offline"))
                               (resp_questionId (Samples.entry "Q1" "B" 100)))
             (exec (handleWebSocketMessage
                      (peer_response (Samples.entry "Q1" "B" 100)))
                   Scenarios.client_bob)).
Proof.
  refine (proj1 (proj2 (proj2
            (getPeerResponses_reads_cache_unless_cloud
               (fun _ => rejected (Error "offline")) Scenarios.client_bob "Q1")))
            _ (Samples.entry "Q1" "B" 100)).
  discriminate.
Defined.

End ClientPeers.

Module ClientCache.
Import Client ClientSave ClientMore ClientFrame ClientInbound.

Lemma saveResponse_signed_out_aux (s : State) (q a r : string) (now : Z) :
  currentUser s = None -> saveResponse q a r now s = (fulfilled false, s).
Proof.
  intros Hnone. unfold saveResponse. rewrite bind_run.
  unfold getCurrentUser, gets, result, exec. cbn [fst snd].
  rewrite Hnone. reflexivity.
Qed.

Lemma keeps_cache_saveQuizResponse q a r :
  keeps cache_responses (saveQuizResponse q a r).
Proof. unfold saveQuizResponse, doc_set. keep_all. Qed.

Lemma keeps_user_saveQuizResponse q a r :
  keeps currentUser (saveQuizResponse q a r).
Proof. unfold saveQuizResponse, doc_set. keep_all. Qed.

Lemma keeps_cache_start q a r :
  keeps cache_responses (saveQuizResponse_start q a r).
Proof. unfold saveQuizResponse_start, doc_set. keep_all. Qed.

Lemma keeps_cache_resume call :
  keeps cache_responses (saveQuizResponse_resume call).
Proof. unfold saveQuizResponse_resume, doc_set. keep_all. Qed.

Lemma keeps_cache_sync : keeps cache_responses syncLocalToCloud.
Proof.
  unfold syncLocalToCloud, isSignedIn, showSyncSuccessNotification.
  apply keeps_bind; [keep_all|intro]. apply keeps_bind; [keep_all|intro].
  match goal with |- keeps _ (if ?b then _ else _) => destruct b end;
    [keep_all|].
  apply keeps_bind; [keep_all|intro].
  apply keeps_bind; [apply keeps_mapM; intro; apply keeps_cache_start|intro].
  apply keeps_bind; [apply keeps_mapM; intro; apply keeps_cache_resume|intro].
  keep_all.
Qed.

Lemma keeps_cache_connect ip fate : keeps cache_responses (connectToLocalHub ip fate).
Proof.
  unfold connectToLocalHub, onopen, setConnectionMode, getCurrentUser,
    wsConnection_send. keep_all.
Qed.

(** The cache of own submissions after [saveResponse]. *)
Lemma save_cache (q a r : string) (now : Z) (s : State) :
  cache_responses (exec (saveResponse q a r now) s)
  = match currentUser s with
    | None => cache_responses s
    | Some user =>
        JsMap.set q
          (JsMap.set (uid user) (responseData_of user q a r now)
             (match JsMap.get q (cache_responses s) with
              | Some m => m
              | None => JsMap.empty
              end))
          (cache_responses s)
    end.
Proof.
  destruct (currentUser s) as [user|] eqn:Huser.
  - unfold saveResponse. rewrite exec_bind.
    unfold getCurrentUser, gets, result, exec at 2. cbn [fst snd]. rewrite Huser.
    do 3 rewrite exec_bind.
    set (s3 := exec (emit _) _).
    assert (H3 : cache_responses s3
                 = JsMap.set q
                     (JsMap.set (uid user) (responseData_of user q a r now)
                        (match JsMap.get q (cache_responses s) with
                         | Some m => m | None => JsMap.empty end))
                     (cache_responses s)).
    { unfold s3, exec, emit, set_cache_responses. cbn [snd cache_responses].
      unfold JsMap.has, responseData_of.
      destruct (JsMap.get q (cache_responses s)) as [m|] eqn:E.
      - rewrite E. reflexivity.
      - rewrite JsMapFacts.get_set_same, JsMapFacts.set_set. reflexivity. }
    rewrite <- H3. clearbody s3.
    match goal with
    | |- cache_responses (exec ?c s3) = _ =>
        assert (Hk : keeps cache_responses c)
    end.
    { unfold saveQuizResponse, doc_set, wsConnection_send. keep_all. }
    apply Hk.
  - unfold exec. now rewrite (saveResponse_signed_out_aux s q a r now Huser).
Qed.

Lemma keeps_cache_inbound message :
  keeps cache_responses (handleWebSocketMessage message).
Proof.
  apply keeps_handleWebSocketMessage.
  - intros r s. unfold exec. now rewrite handlePeerResponse_run.
  - intros e s. reflexivity.
Qed.

Lemma keeps_cache_step (e : Event) :
  (forall q a r now, e <> Saves q a r now) ->
  keeps cache_responses (step e).
Proof.
  intros Hns. destruct e as [ip fate| |fate|q a r now|message| | |user onLine];
    unfold step.
  - apply keeps_bind; [apply keeps_cache_connect | intro; apply keeps_ret].
  - unfold handleWebSocketDisconnect, setConnectionMode,
      showReconnectFailedNotification. keep_all.
  - unfold reconnect_callback.
    apply keeps_bind; [keep_all | intros lastServerIP].
    destruct (truthy_string lastServerIP); [|keep_all].
    destruct lastServerIP; [|keep_all].
    apply keeps_bind; [apply keeps_cache_connect | intro; apply keeps_ret].
  - exfalso. now apply (Hns q a r now).
  - apply keeps_cache_inbound.
  - unfold on_online, isSignedIn, setConnectionMode.
    apply keeps_bind; [keep_all | intros signedIn].
    destruct signedIn; [|keep_all].
    apply keeps_bind; [keep_all | intro; apply keeps_cache_sync].
  - unfold on_offline, setConnectionMode, showOfflineNotification. keep_all.
  - unfold handleAuthStateChange, setConnectionMode.
    apply keeps_bind; [keep_all | intro].
    destruct user; [destruct onLine|]; keep_all;
      first [apply keeps_cache_resume | apply keeps_cache_start].
Qed.

Lemma cached_same_cache (s s' : State) (q u : string) :
  cache_responses s' = cache_responses s -> cached s' q u = cached s q u.
Proof. unfold cached. now intros ->. Qed.

(** One event: an entry of the cache of own submissions is replaced by a
    [saveResponse] for its question by its user, and is otherwise kept. *)
Lemma cached_step (e : Event) (s : State) (q u : string) (r : Response) :
  cached s q u = Some r ->
  (exists r', cached (exec (step e) s) q u = Some r')
  /\ (saves q e = false -> cached (exec (step e) s) q u = Some r).
Proof.
  intros Hc.
  destruct e as [ip fate| |fate|q' a' r' now|message| | |user onLine];
    try (rewrite (cached_same_cache s _ q u)
           by (apply keeps_cache_step; discriminate);
         rewrite Hc; split; [now exists r | reflexivity]).
  unfold step, saves. rewrite exec_bind.
  unfold exec at 1 3, ret. cbn [snd].
  fold (exec (saveResponse q' a' r' now) s).
  unfold cached in *. rewrite save_cache.
  destruct (currentUser s) as [user|]; [|rewrite Hc; split; [now exists r | reflexivity]].
  destruct (String.eqb q' q) eqn:Eq.
  - apply String.eqb_eq in Eq. subst q'. rewrite JsMapFacts.get_set_same.
    destruct (JsMap.get q (cache_responses s)) as [m|]; [|discriminate].
    split; [|discriminate].
    destruct (String.eqb (uid user) u) eqn:Eu.
    + apply String.eqb_eq in Eu. subst u. rewrite JsMapFacts.get_set_same.
      eexists; reflexivity.
    + apply String.eqb_neq in Eu.
      rewrite JsMapFacts.get_set_other by assumption. now exists r.
  - apply String.eqb_neq in Eq.
    rewrite JsMapFacts.get_set_other by assumption. rewrite Hc.
    split; [now exists r | reflexivity].
Qed.

(** X13. The cache of own submissions is never pruned. Over any sequence of
    events (saves, messages from the Hub, link losses and retries, network
    and sign-in changes, replays to the cloud whether they succeed or
    not), a key that holds a Response keeps holding one; and it holds the
    very same Response if [saveResponse] is not called for its question. *)
Theorem own_cache_is_never_pruned :
  forall (events : list Event) (s : State) (q u : string) (r : Response),
    cached s q u = Some r ->
    (exists r', cached (run events s) q u = Some r')
    /\ (forallb (fun e => negb (saves q e)) events = true ->
        cached (run events s) q u = Some r).
Proof.
  induction events as [|e rest IH]; intros s q u r Hc; simpl.
  - split; [now exists r | intros _; exact Hc].
  - destruct (cached_step e s q u r Hc) as [[r1 Hr1] Hsame]. split.
    + apply (IH (exec (step e) s) q u r1 Hr1).
    + intros Hall. apply andb_prop in Hall as [He Hrest].
      apply negb_true_iff in He.
      apply (IH (exec (step e) s) q u r (Hsame He)). exact Hrest.
Qed.

(** The queued answer to Q3 survives a replay in which its write is
    rejected, a sign-out and a lost network. *)
Lemma own_cache_is_never_pruned_witness :
  cached (run [NetworkOnline; AuthChanges None true; NetworkOffline;
               Saves "Q1" "Z" "" 99]
              Samples.client_queued)
         "Q3" "u1"
  = Some (Samples.entry "Q3" "C" 30).
Proof.
  refine (proj2 (own_cache_is_never_pruned
                   [NetworkOnline; AuthChanges None true; NetworkOffline;
                    Saves "Q1" "Z" "" 99]
                   Samples.client_queued "Q3" "u1"
                   (Samples.entry "Q3" "C" 30) _) _).
  - reflexivity.
  - reflexivity.
Defined.

(** X14. A call of [saveResponse] by a signed-in user touches one key only: the
    entries of other questions and of other users are as before and the
    peer cache is as before; and when the user had already answered the
    question, the new Response takes the place of the old one, no question
    and no user being added to the maps. *)
Theorem saveResponse_replaces_in_place :
  forall (s : State) (user : User) (q a r : string) (now : Z),
    currentUser s = Some user ->
    let s' := exec (saveResponse q a r now) s in
    (forall q' u', q' <> q \/ u' <> uid user ->
                   cached s' q' u' = cached s q' u')
    /\ cache_peerData s' = cache_peerData s
    /\ (forall old m,
           JsMap.get q (cache_responses s) = Some m ->
           JsMap.get (uid user) m = Some old ->
           map fst (cache_responses s') = map fst (cache_responses s)
           /\ exists m', JsMap.get q (cache_responses s') = Some m'
                         /\ map fst m' = map fst m
                         /\ JsMap.get (uid user) m'
                            = Some (responseData_of user q a r now)).
Proof.
  intros s user q a r now Huser s'. subst s'.
  pose proof (save_cache q a r now s) as Hsave. rewrite Huser in Hsave.
  split; [|split].
  - intros q' u' Hne. unfold cached. rewrite Hsave.
    destruct (String.eqb q q') eqn:Eq.
    + apply String.eqb_eq in Eq. subst q'. rewrite JsMapFacts.get_set_same.
      destruct Hne as [Hne|Hne]; [congruence|].
      rewrite JsMapFacts.get_set_other by congruence.
      now destruct (JsMap.get q (cache_responses s)).
    + apply String.eqb_neq in Eq.
      now rewrite JsMapFacts.get_set_other by assumption.
  - assert (Hk : keeps cache_peerData (saveResponse q a r now)).
    { unfold saveResponse, getCurrentUser, saveQuizResponse, doc_set,
        wsConnection_send. keep_all. }
    apply Hk.
  - intros old m Hm Hold. rewrite Hsave, Hm. split.
    + apply MapKeys.keys_set_present. apply JsMapFacts.get_In in Hm.
      apply in_map_iff. now exists (q, m).
    + eexists. split; [apply JsMapFacts.get_set_same|]. split.
      * apply MapKeys.keys_set_present. apply JsMapFacts.get_In in Hold.
        apply in_map_iff. now exists (uid user, old).
      * apply JsMapFacts.get_set_same.
Qed.

(** Ann answers Q2 again: her other queued answers are untouched. *)
Lemma saveResponse_replaces_in_place_witness :
  cached (exec (saveResponse "Q2" "D" "" 77) Samples.client_queued) "Q3" "u1"
  = cached Samples.client_queued "Q3" "u1".
Proof.
  refine (proj1 (saveResponse_replaces_in_place Samples.client_queued
                   Samples.ann "Q2" "D" "" 77 _) "Q3" "u1" _).
  - reflexivity.
  - left. discriminate.
Defined.

End ClientCache.
Module ClientReplay.
Import Client ClientSave ClientMore ClientFrame ClientCache.

Lemma add_effects_nil (s : State) : add_effects [] s = s.
Proof. destruct s. unfold add_effects. simpl. now rewrite app_nil_r. Qed.

Lemma add_effects_app (l1 l2 : list Effect) (s : State) :
  add_effects l2 (add_effects l1 s) = add_effects (l1 ++ l2) s.
Proof. unfold add_effects. simpl. now rewrite app_assoc. Qed.

Lemma saveQuizResponse_start_run (user : User) (q a r : string) (s : State) :
  currentUser s = Some user ->
  saveQuizResponse_start q a r s
  = (suspended_for (store_accepts s) user q,
     add_effects [first_write (store_accepts s) user q] s).
Proof.
  intros Huser. destruct s as [mode wsc att cr pd cu ip accepts tr].
  simpl in Huser. subst cu.
  unfold saveQuizResponse_start, suspended_for, first_write, add_effects.
  client_run.
  destruct (accepts (userResponseRef (uid user) q)); reflexivity.
Qed.

Lemma saveQuizResponse_resume_run (user : User) (q : string) (s : State) :
  saveQuizResponse_resume (suspended_for (store_accepts s) user q) s
  = (fulfilled (written_for (store_accepts s) user q),
     add_effects (second_write (store_accepts s) user q) s).
Proof.
  destruct s as [mode wsc att cr pd cu ip accepts tr].
  unfold saveQuizResponse_resume, suspended_for, second_write, written_for,
    add_effects.
  client_simpl.
  destruct (accepts (userResponseRef (uid user) q)); client_run.
  - destruct (accepts (classResponseRef q (uid user))); reflexivity.
  - now rewrite app_nil_r.
Qed.

(** The loop of [syncLocalToCloud]: every call is started. *)
Lemma starts_run (user : User) (l : list Response) :
  forall s,
    currentUser s = Some user ->
    mapM (fun response =>
            saveQuizResponse_start (resp_questionId response)
                                   (resp_answer response)
                                   (resp_reason response)) l s
    = (map (fun response =>
              suspended_for (store_accepts s) user (resp_questionId response)) l,
       add_effects
         (map (fun response =>
                 first_write (store_accepts s) user (resp_questionId response))
              l) s).
Proof.
  induction l as [|x rest IH]; intros s Huser.
  - simpl. unfold ret. now rewrite add_effects_nil.
  - simpl. rewrite bind_run. unfold result, exec.
    rewrite (saveQuizResponse_start_run user) by assumption. cbn [fst snd].
    rewrite bind_run. unfold result, exec.
    rewrite IH by exact Huser. cbn [fst snd store_accepts add_effects].
    unfold ret. fold (add_effects [first_write (store_accepts s) user
                                     (resp_questionId x)] s).
    now rewrite add_effects_app.
Qed.

(** The calls resumed one after the other. *)
Lemma resumes_run (user : User) (l : list Response) :
  forall s,
    mapM saveQuizResponse_resume
         (map (fun response =>
                 suspended_for (store_accepts s) user (resp_questionId response))
              l) s
    = (map (fun response =>
              fulfilled (written_for (store_accepts s) user
                                     (resp_questionId response))) l,
       add_effects
         (flat_map (fun response =>
                      second_write (store_accepts s) user
                                   (resp_questionId response)) l) s).
Proof.
  induction l as [|x rest IH]; intros s.
  - simpl. unfold ret. now rewrite add_effects_nil.
  - cbn [map mapM flat_map]. rewrite bind_run. unfold result, exec.
    rewrite saveQuizResponse_resume_run. cbn [fst snd].
    rewrite bind_run. unfold result, exec.
    pose proof (IH (add_effects (second_write (store_accepts s) user
                                   (resp_questionId x)) s)) as IH'.
    cbn [store_accepts add_effects] in IH'.
    fold (add_effects (second_write (store_accepts s) user
                         (resp_questionId x)) s) in IH'.
    rewrite IH'. cbn [fst snd]. unfold ret.
    now rewrite add_effects_app.
Qed.

Lemma filter_fulfilled_all {A B} (g : A -> B) (l : list A) :
  length (filter is_fulfilled (map (fun x => fulfilled (g x)) l)) = length l
  /\ length (filter is_rejected (map (fun x => fulfilled (g x)) l)) = 0%nat.
Proof. induction l as [|x rest [IH1 IH2]]; simpl; split; auto. Qed.

Lemma writes_owner (accepts : DocRef -> bool) (user : User) (l : list Response) :
  forall doc ok,
    In (firestore_set doc ok)
       (map (fun response => first_write accepts user (resp_questionId response)) l
        ++ flat_map (fun response =>
                       second_write accepts user (resp_questionId response)) l) ->
    doc_owner doc = uid user.
Proof.
  intros doc ok Hin. apply in_app_or in Hin as [Hin|Hin].
  - apply in_map_iff in Hin as (x & Hx & _). unfold first_write in Hx.
    injection Hx as <- _. reflexivity.
  - apply in_flat_map in Hin as (x & _ & Hin). unfold second_write in Hin.
    destruct (accepts (userResponseRef (uid user) (resp_questionId x)));
      simpl in Hin; [|contradiction].
    destruct Hin as [Hin|[]]. injection Hin as <- _. reflexivity.
Qed.

(** X15. A replay of the cache to the cloud, in cloud mode with a user signed
    in.  The loop starts the write of the user's document of every cached
    entry of the signed-in user, in cache order and whether or not an
    earlier one is refused; the writes of the class documents follow, in
    the same order (the store settling the writes in the order in which
    they were started), one for each entry whose first write succeeded.
    Every write is filed under the signed-in user's id, so entries cached
    under another user's id are not replayed.  The replay then logs the
    number of entries as successful and 0 as failed.  It removes nothing
    from the cache, so a second replay attempts the same writes again,
    also those that had succeeded. *)
Theorem replay_writes_own_entries_and_keeps_them :
  forall (s : State) (user : User),
    connectionMode s = cloud ->
    currentUser s = Some user ->
    let n := length (own_entries s) in
    let started :=
      map (fun response =>
             first_write (store_accepts s) user (resp_questionId response))
          (own_entries s) in
    let resumed :=
      flat_map (fun response =>
                  second_write (store_accepts s) user (resp_questionId response))
               (own_entries s) in
    let s' := exec syncLocalToCloud s in
    effects_of syncLocalToCloud s
    = started ++ resumed
      ++ console_log_sync_complete n 0
      :: (if (0 <? n)%nat then [showNotification (sync_success_notice n) 3000]
          else [])
    /\ (forall doc ok, In (firestore_set doc ok) (started ++ resumed) ->
                       doc_owner doc = uid user)
    /\ cache_responses s' = cache_responses s
    /\ effects_of syncLocalToCloud s' = effects_of syncLocalToCloud s.
Proof.
  intros s user Hmode Huser n started resumed s'.
  assert (Hrun : forall s0,
             connectionMode s0 = cloud -> currentUser s0 = Some user ->
             syncLocalToCloud s0
             = (tt, add_effects
                      (map (fun response =>
                              first_write (store_accepts s0) user
                                          (resp_questionId response))
                           (own_entries s0)
                       ++ flat_map (fun response =>
                                      second_write (store_accepts s0) user
                                                   (resp_questionId response))
                                   (own_entries s0)
                       ++ console_log_sync_complete (length (own_entries s0)) 0
                       :: (if (0 <? length (own_entries s0))%nat
                           then [showNotification
                                   (sync_success_notice (length (own_entries s0)))
                                   3000]
                           else [])) s0)).
  { intros s0 Hm Hu. unfold syncLocalToCloud, isSignedIn. client_run.
    rewrite Hm, Hu. cbn [Mode_eqb negb orb]. client_run.
    rewrite (starts_run user) by exact Hu. cbn [fst snd].
    pose proof (resumes_run user (own_entries s0)
                  (add_effects
                     (map (fun response =>
                             first_write (store_accepts s0) user
                                         (resp_questionId response))
                          (own_entries s0)) s0)) as Hres.
    cbn [store_accepts add_effects] in Hres.
    match type of Hres with
    | mapM _ _ ?st = _ =>
        fold (add_effects
                (map (fun response =>
                        first_write (store_accepts s0) user
                                    (resp_questionId response))
                     (own_entries s0)) s0) in Hres
    end.
    rewrite Hres. cbn [fst snd].
    destruct (filter_fulfilled_all
                (fun response => written_for (store_accepts s0) user
                                             (resp_questionId response))
                (own_entries s0)) as [-> ->].
    unfold add_effects. client_simpl.
    destruct (0 <? length (own_entries s0))%nat; client_run;
      unfold add_effects, showSyncSuccessNotification, emit, ret;
      client_simpl; repeat rewrite <- app_assoc; reflexivity. }
  subst s'. unfold effects_of, exec.
  rewrite (Hrun s Hmode Huser). cbn [snd add_effects trace cache_responses].
  rewrite skipn_length_app.
  split; [reflexivity|]. split; [apply writes_owner|]. split; [reflexivity|].
  rewrite Hrun by reflexivity || assumption.
  cbn [snd add_effects trace store_accepts]. rewrite skipn_length_app.
  reflexivity.
Qed.

(** The four queued answers are replayed twice in a row, with the same
    writes each time. *)
Lemma replay_writes_own_entries_and_keeps_them_witness :
  effects_of syncLocalToCloud
    (exec syncLocalToCloud (exec (setConnectionMode cloud) Samples.client_queued))
  = effects_of syncLocalToCloud (exec (setConnectionMode cloud) Samples.client_queued).
Proof.
  refine (proj2 (proj2 (proj2
            (replay_writes_own_entries_and_keeps_them
               (exec (setConnectionMode cloud) Samples.client_queued)
               Samples.ann _ _)))).
  - reflexivity.
  - reflexivity.
Defined.

End ClientReplay.

Module ClientLink.
Import Client ClientSave ClientMore ClientFrame.

(** X16. Opening the link. A connection attempt made while no link is open and
    whose socket opens puts the client in local mode with the counter at
    0 and the link open to the given address, and sends, in this order and
    before its promise resolves to [true], the [identify] of the signed-in
    user (with "Anonymous" for a missing or empty display name; nothing if
    nobody is signed in) and then [request_sync]. *)
Theorem open_link_identifies_then_syncs :
  forall (s : State) (serverIP : string),
    link_open s = false ->
    let c := connectToLocalHub serverIP opens in
    let s' := exec c s in
    result c s = fulfilled true
    /\ connectionMode s' = local
    /\ wsReconnectAttempts s' = 0
    /\ wsConnection s' = Some {| ws_url := "ws://" ++ serverIP;
                                 ws_readyState := OPEN |}
    /\ effects_of c s
       = dispatchEvent (connectionModeChanged local)
         :: match currentUser s with
            | Some user =>
                [socket_send
                   (identify (uid user)
                      (match user_displayName user with
                       | Some name => if String.eqb name "" then "Anonymous"
                                      else name
                       | None => "Anonymous"
                       end));
                 socket_send request_sync]
            | None => [socket_send request_sync]
            end.
Proof.
  intros s serverIP Hclosed c s'. subst c s'.
  unfold effects_of, connectToLocalHub, onopen. client_run. rewrite Hclosed.
  client_run.
  destruct (currentUser s) as [user|]; client_run;
    repeat rewrite <- app_assoc; rewrite skipn_length_app; repeat split.
  destruct (user_displayName user) as [name|]; simpl; [|reflexivity].
  destruct (String.eqb name ""); reflexivity.
Qed.

(** Ann's client reconnects after three failed attempts. *)
Lemma open_link_identifies_then_syncs_witness :
  let c := connectToLocalHub "192.168.1.100:8080" opens in
  effects_of c Samples.client_retrying
  = dispatchEvent (connectionModeChanged local)
    :: match currentUser Samples.client_retrying with
       | Some user =>
           [socket_send
              (identify (uid user)
                 (match user_displayName user with
                  | Some name => if String.eqb name "" then "Anonymous" else name
                  | None => "Anonymous"
                  end));
            socket_send request_sync]
       | None => [socket_send request_sync]
       end.
Proof.
  refine (proj2 (proj2 (proj2 (proj2
            (open_link_identifies_then_syncs Samples.client_retrying
               "192.168.1.100:8080" _))))).
  reflexivity.
Defined.

(** X17. Losing the network. The [offline] event puts the client in offline mode
    and shows the offline notice without touching the link, the counter or
    the caches; when the link closes afterwards, or closes in any mode other
    than local, the link is dropped and no reconnect is scheduled: the
    counter stays, no timer is set and nothing is shown. *)
Theorem no_reconnect_outside_local_mode :
  forall s : State,
    (let s1 := exec on_offline s in
     connectionMode s1 = offline
     /\ wsConnection s1 = wsConnection s
     /\ wsReconnectAttempts s1 = wsReconnectAttempts s
     /\ cache_responses s1 = cache_responses s
     /\ cache_peerData s1 = cache_peerData s
     /\ effects_of on_offline s
        = [dispatchEvent (connectionModeChanged offline);
           showNotification offline_notice 5000]
     /\ effects_of handleWebSocketDisconnect s1 = []
     /\ wsReconnectAttempts (exec handleWebSocketDisconnect s1)
        = wsReconnectAttempts s
     /\ wsConnection (exec handleWebSocketDisconnect s1) = None)
    /\ (connectionMode s <> local ->
        effects_of handleWebSocketDisconnect s = []
        /\ connectionMode (exec handleWebSocketDisconnect s) = connectionMode s
        /\ wsReconnectAttempts (exec handleWebSocketDisconnect s)
           = wsReconnectAttempts s
        /\ wsConnection (exec handleWebSocketDisconnect s) = None).
Proof.
  intros s. split.
  - unfold effects_of, on_offline, handleWebSocketDisconnect. client_run.
    repeat rewrite <- app_assoc. rewrite skipn_length_app, skipn_all.
    repeat split.
  - intros Hmode. unfold effects_of, handleWebSocketDisconnect. client_run.
    destruct (connectionMode s); try contradiction; client_run;
      rewrite skipn_all; repeat split.
Qed.

(** In cloud mode a closing link is simply dropped. *)
Lemma no_reconnect_outside_local_mode_witness :
  effects_of handleWebSocketDisconnect
             (exec (setConnectionMode cloud) Samples.client_linked) = []
  /\ connectionMode (exec handleWebSocketDisconnect
                          (exec (setConnectionMode cloud) Samples.client_linked))
     = connectionMode (exec (setConnectionMode cloud) Samples.client_linked)
  /\ wsReconnectAttempts (exec handleWebSocketDisconnect
                               (exec (setConnectionMode cloud) Samples.client_linked))
     = wsReconnectAttempts (exec (setConnectionMode cloud) Samples.client_linked)
  /\ wsConnection (exec handleWebSocketDisconnect
                        (exec (setConnectionMode cloud) Samples.client_linked))
     = None.
Proof.
  refine (proj2 (no_reconnect_outside_local_mode
                   (exec (setConnectionMode cloud) Samples.client_linked)) _).
  discriminate.
Defined.

(** X18. The dialog. An empty address is refused with an alert and changes
    nothing.  Any other address is stored as [lastLocalHubIP] before the
    attempt is made, so it stays stored whatever becomes of the attempt,
    and is the address later retries go to.  When a link is already open
    the dialog reports success and closes without connecting: the open
    link stays as it is and only the stored address changes.  Otherwise
    what it shows follows the way the attempt settles: success when the
    socket opens; the alert that it failed to connect when the socket
    cannot be created; the alert "Connection failed: undefined" when the
    socket reports an error, since the event the promise is rejected with
    has no [message]; the alert "Connection failed: Connection timeout"
    when the timer of 5000 ms fires first. *)
Theorem dialog_stores_address_before_connecting :
  forall (s : State) (serverIP : string) (fate : Fate),
    let c := connectToLocalHubFromDialog serverIP fate in
    (serverIP = "" -> c s = ([alert "Please enter a server IP address"], s))
    /\ (serverIP <> "" ->
        lastLocalHubIP (exec c s) = Some serverIP
        /\ (link_open s = true ->
            result c s = [closeDialog; notify_connected]
            /\ wsConnection (exec c s) = wsConnection s
            /\ effects_of c s = [])
        /\ (link_open s = false ->
            result c s
            = match fate with
              | constructor_throws =>
                  [alert "Failed to connect. Please check the IP address and try again."]
              | opens => [closeDialog; notify_connected]
              | errors => [alert "Connection failed: undefined"]
              | times_out => [alert "Connection failed: Connection timeout"]
              end)).
Proof.
  intros s serverIP fate c. subst c. split.
  - intros ->. reflexivity.
  - intros Hne. unfold effects_of, connectToLocalHubFromDialog.
    apply String.eqb_neq in Hne. rewrite Hne.
    unfold connectToLocalHub, onopen, link_open, set_lastLocalHubIP.
    client_run.
    split; [|split].
    + destruct (wsConnection s) as [w|];
        [destruct (is_OPEN (ws_readyState w))|];
        client_run; try reflexivity;
        destruct fate; client_run; try reflexivity;
        destruct (currentUser s); client_run; reflexivity.
    + intros Ho. destruct (wsConnection s) as [w|]; [|discriminate].
      rewrite Ho. client_run. rewrite skipn_all. repeat split.
    + intros Hc.
      assert (Hm : match wsConnection s with
                   | Some w => is_OPEN (ws_readyState w)
                   | None => false
                   end = false) by exact Hc.
      rewrite Hm. client_run.
      destruct fate; client_run; try reflexivity;
        destruct (currentUser s); client_run; reflexivity.
Qed.

(** With a link already open, entering another address only changes what
    is stored. *)
Lemma dialog_stores_address_before_connecting_witness :
  let c := connectToLocalHubFromDialog "10.0.0.9:8080" errors in
  lastLocalHubIP (exec c Samples.client_linked) = Some "10.0.0.9:8080"
  /\ (link_open Samples.client_linked = true ->
      result c Samples.client_linked = [closeDialog; notify_connected]
      /\ wsConnection (exec c Samples.client_linked)
         = wsConnection Samples.client_linked
      /\ effects_of c Samples.client_linked = [])
  /\ (link_open Samples.client_linked = false ->
      result c Samples.client_linked
      = match errors with
        | constructor_throws =>
            [alert "Failed to connect. Please check the IP address and try again."]
        | opens => [closeDialog; notify_connected]
        | errors => [alert "Connection failed: undefined"]
        | times_out => [alert "Connection failed: Connection timeout"]
        end).
Proof.
  refine (proj2 (dialog_stores_address_before_connecting
                   Samples.client_linked "10.0.0.9:8080" errors) _).
  discriminate.
Defined.

End ClientLink.

(* ================================================================== *)
(** * The curriculum data file                                          *)
(* ================================================================== *)

Module CurriculumFacts.
Import Curriculum.

Section Counting.
Context {Item : Type}.

Lemma count_topics (topics : list (Topic Item)) (totals : Counts) :
  fold_left count_topic topics totals
  = {| totalVideos :=
         (totalVideos totals
          + list_sum (map (fun t => count_of (topic_videos t)) topics))%nat;
       totalQuizzes :=
         (totalQuizzes totals
          + list_sum (map (fun t => count_of (topic_quizzes t)) topics))%nat |}.
Proof.
  revert totals. induction topics as [|t rest IH]; intros totals; simpl.
  - destruct totals. simpl. now rewrite !Nat.add_0_r.
  - rewrite IH. unfold count_topic. simpl. f_equal; lia.
Qed.

Lemma count_units (units : list (Unit_ Item)) (totals : Counts) :
  fold_left count_unit units totals
  = {| totalVideos :=
         (totalVideos totals + list_sum (map videos_of_unit units))%nat;
       totalQuizzes :=
         (totalQuizzes totals + list_sum (map quizzes_of_unit units))%nat |}.
Proof.
  revert totals. induction units as [|u rest IH]; intros totals; simpl.
  - destruct totals. simpl. now rewrite !Nat.add_0_r.
  - rewrite IH. unfold count_unit, videos_of_unit, quizzes_of_unit.
    destruct (unit_topics u) as [topics|].
    + rewrite count_topics. simpl. f_equal; lia.
    + f_equal; lia.
Qed.

(** X19. [getTotalItemCounts] returns, for an array of units, the number of
    video objects and the number of quiz objects summed over the topics of
    all units, a unit without a topics array and a topic without a videos
    or quizzes array counting for nothing; so the totals of two arrays put
    end to end are the sums of their totals.  For an argument that is
    neither an array nor [undefined] it returns zero for both.  Called
    with no argument, or with [undefined], it counts the array the data
    file declares, whose totals are 147 videos and 100 quizzes. *)
Theorem getTotalItemCounts_sums_over_topics :
  forall builtin units more : list (Unit_ Item),
    getTotalItemCounts builtin (array units)
    = {| totalVideos := list_sum (map videos_of_unit units);
         totalQuizzes := list_sum (map quizzes_of_unit units) |}
    /\ totalVideos (getTotalItemCounts builtin (array (units ++ more)))
       = (totalVideos (getTotalItemCounts builtin (array units))
          + totalVideos (getTotalItemCounts builtin (array more)))%nat
    /\ totalQuizzes (getTotalItemCounts builtin (array (units ++ more)))
       = (totalQuizzes (getTotalItemCounts builtin (array units))
          + totalQuizzes (getTotalItemCounts builtin (array more)))%nat
    /\ getTotalItemCounts builtin not_an_array
       = {| totalVideos := 0; totalQuizzes := 0 |}
    /\ getTotalItemCounts builtin undefined
       = getTotalItemCounts builtin (array builtin)
    /\ getTotalItemCounts ALL_UNITS_DATA undefined
       = {| totalVideos := 147; totalQuizzes := 100 |}.
Proof.
  intros builtin units more.
  assert (Harray : forall l : list (Unit_ Item),
             getTotalItemCounts builtin (array l)
             = {| totalVideos := list_sum (map videos_of_unit l);
                  totalQuizzes := list_sum (map quizzes_of_unit l) |}).
  { intros l. unfold getTotalItemCounts. now rewrite count_units. }
  rewrite !Harray. cbn [totalVideos totalQuizzes].
  rewrite !map_app, !list_sum_app.
  split; [reflexivity|]. split; [reflexivity|]. split; [reflexivity|].
  split; [reflexivity|]. split; [exact (Harray builtin)|].
  vm_compute. reflexivity.
Qed.

End Counting.
End CurriculumFacts.

(* ================================================================== *)
(** * From one client through the Hub to another                        *)
(* ================================================================== *)

Module EndToEnd.
Import ClientMore.

Lemma save_sends_submission (a : Client.State) (user : Client.User)
    (q ans reason : string) (now : Z) :
  Client.currentUser a = Some user ->
  Client.connectionMode a = Client.local ->
  Client.link_open a = true ->
  Client.effects_of (Client.saveResponse q ans reason now) a
  = [Client.cache_set q (Client.uid user)
       (Client.responseData_of user q ans reason now);
     Client.socket_send (submit_response (submission_of user q ans reason now));
     Client.dispatchEvent (Client.responseSaved q true Client.local)].
Proof.
  intros Huser Hmode Hopen.
  unfold Client.effects_of, Client.saveResponse, Client.link_open in *.
  ClientSave.client_run. rewrite Huser. ClientSave.client_run.
  rewrite Hmode. ClientSave.client_run.
  destruct (Client.wsConnection a) as [w|]; [|discriminate].
  rewrite Hopen. ClientSave.client_run.
  repeat rewrite <- app_assoc. rewrite skipn_length_app. reflexivity.
Qed.

(** X20. An answer saved on one client while its link is open travels to every
    other connected client.  The client sends one [submit_response]; the
    Hub, on handling it, stores under (questionId, userId) the very
    Response the sender cached and relays it to each other open
    connection; the receiving client then holds that answer, reason,
    display name and timestamp in its peer cache under the same key.
    (The local clock reading 0 is excluded: the Hub would replace it.) *)
Theorem saved_answer_reaches_other_clients :
  forall (a b : Client.State) (user : Client.User) (q ans reason : string)
         (now : Z) (h : Hub.State) (wsA wsB : Hub.Ws),
    Client.currentUser a = Some user ->
    Client.connectionMode a = Client.local ->
    Client.link_open a = true ->
    now <> 0 ->
    wsA <> wsB ->
    Hub.is_open wsB h = true ->
    let m := submission_of user q ans reason now in
    let r := Client.responseData_of user q ans reason now in
    let relay := Hub.on_message wsA (Some (submit_response m)) in
    In (Client.socket_send (submit_response m))
       (Client.effects_of (Client.saveResponse q ans reason now) a)
    /\ Client.cached (exec (Client.saveResponse q ans reason now) a)
                     q (Client.uid user) = Some r
    /\ Hub.stored (exec relay h) q (Client.uid user) = Some r
    /\ In (wsB, peer_response r) (Hub.sent_by relay h)
    /\ ~ In (wsA, peer_response r) (Hub.sent_by relay h)
    /\ peer (exec (Client.handleWebSocketMessage (peer_response r)) b)
            q (Client.uid user)
       = Some (entry_of r).
Proof.
  intros a b user q ans reason now h wsA wsB Huser Hmode Hopen Hnow Hws HopenB
         m r relay. subst m r relay.
  assert (Hz : (now =? 0) = false) by now apply Z.eqb_neq.
  split; [|split; [|split; [|split; [|split]]]].
  - rewrite (save_sends_submission a user) by assumption. right. now left.
  - unfold Client.cached. rewrite ClientCache.save_cache, Huser.
    rewrite JsMapFacts.get_set_same. apply JsMapFacts.get_set_same.
  - pose proof (HubSubmit.stored_submit_same wsA
                  (submission_of user q ans reason now) h) as Hst.
    cbn [submission_of sub_questionId sub_userId sub_timestamp Hub.stamp] in Hst.
    rewrite Hz in Hst. exact Hst.
  - rewrite HubMessages.submit_sent.
    cbn [submission_of sub_timestamp]. rewrite Hz.
    apply in_or_app. left. apply in_map_iff. exists wsB. split; [reflexivity|].
    apply HubMessages.recipients_others. split; [congruence|].
    rewrite HubFacts.is_open_eq in HopenB.
    destruct (JsMap.get wsB (Hub.wss_clients h)) as [st|] eqn:E; [|discriminate].
    destruct st; try discriminate. now apply JsMapFacts.get_In.
  - rewrite HubMessages.submit_sent. intros Hin.
    apply in_app_or in Hin as [Hin|Hin].
    + apply in_map_iff in Hin as (w & Hw & Hrec). injection Hw as ->.
      apply HubMessages.recipients_others in Hrec. tauto.
    + destruct (Hub.is_open wsA h); [|contradiction].
      destruct Hin as [Hin|[]]. discriminate.
  - apply (ClientInbound.peer_after_same
             (Client.responseData_of user q ans reason now) b).
Qed.

(** Ann answers on her linked client; the Hub relays to Bob's connection;
    Bob's client caches the answer. *)
Lemma saved_answer_reaches_other_clients_witness :
  peer (exec (Client.handleWebSocketMessage
                (peer_response (Client.responseData_of Samples.ann "Q1" "B" "" 100)))
             Scenarios.client_bob)
       "Q1" (Client.uid Samples.ann)
  = Some (entry_of (Client.responseData_of Samples.ann "Q1" "B" "" 100)).
Proof.
  refine (proj2 (proj2 (proj2 (proj2 (proj2
            (saved_answer_reaches_other_clients
               Samples.client_linked Scenarios.client_bob Samples.ann
               "Q1" "B" "" 100 Samples.hub_two 1%nat 2%nat _ _ _ _ _ _)))))).
  - reflexivity.
  - reflexivity.
  - reflexivity.
  - discriminate.
  - discriminate.
  - vm_compute. reflexivity.
Defined.

Lemma keys_of_question (q : string) (m : JsMap.t string Response) :
  Forall (fun e => resp_questionId (snd e) = q /\ resp_userId (snd e) = fst e) m ->
  map key_of (map snd m) = map (fun e => (q, fst e)) m.
Proof.
  induction 1 as [|[u r] rest [Hq Hu] _ IH]; simpl; [reflexivity|].
  simpl in Hq, Hu. unfold key_of at 1. now rewrite Hq, Hu, IH.
Qed.

Lemma NoDup_pair_with (q : string) (l : list string) :
  NoDup l -> NoDup (map (fun u => (q, u)) l).
Proof.
  induction 1 as [|u l Hnin _ IH]; simpl; constructor; [|assumption].
  intros Hin. apply in_map_iff in Hin as (u' & Hu' & Hin).
  injection Hu' as ->. contradiction.
Qed.

(** In a well-formed map of stored Responses no two Responses carry the
    same key. *)
Lemma payload_keys_unique (rs : JsMap.t string (JsMap.t string Response)) :
  HubSpec.stored_well_formed rs ->
  NoDup (map key_of (Hub.all_responses rs)).
Proof.
  intros [Hk Hq]. induction rs as [|[q m] rest IH]; simpl; [constructor|].
  inversion Hk as [|? ? Hnin Hrest]; subst.
  inversion Hq as [|? ? [Hm Hf] Hqrest]; subst. cbn [fst snd] in *.
  unfold Hub.all_responses in *. simpl. rewrite map_app.
  rewrite (keys_of_question q m Hf).
  apply NoDup_app.
  - apply (NoDup_pair_with q) in Hm. now rewrite map_map in Hm.
  - now apply IH.
  - intros [q0 u0] Hin1 Hin2.
    apply in_map_iff in Hin1 as (e & He & _). injection He as <- _.
    apply in_map_iff in Hin2 as (r & Hr & Hin2).
    apply in_flat_map in Hin2 as ([q1 m1] & Hq1 & Hr1). simpl in Hr1.
    apply in_map_iff in Hr1 as ([u1 r1] & Hr1 & Hin1). simpl in Hr1. subst r1.
    rewrite Forall_forall in Hqrest. destruct (Hqrest _ Hq1) as [_ Hf1].
    rewrite Forall_forall in Hf1. destruct (Hf1 _ Hin1) as [Hfq _].
    cbn [fst snd] in Hfq. unfold key_of in Hr. injection Hr as Hrq _.
    apply Hnin. apply in_map_iff. exists (q1, m1). split; [|assumption].
    simpl. congruence.
Qed.

Lemma split_last_of_key (l : list Response) (r : Response) :
  NoDup (map key_of l) ->
  In r l ->
  exists before after,
    l = before ++ r :: after
    /\ Forall (fun r' => keyed (resp_questionId r) (resp_userId r) r' = false) after.
Proof.
  intros Hnd Hin. apply in_split in Hin as (before & after & ->).
  exists before, after. split; [reflexivity|].
  rewrite map_app in Hnd. apply NoDup_remove_2 in Hnd.
  apply Forall_forall. intros r' Hr'.
  destruct (keyed (resp_questionId r) (resp_userId r) r') eqn:E; [|reflexivity].
  exfalso. apply Hnd. apply in_or_app. right.
  unfold keyed in E. apply andb_prop in E as [Eq Eu].
  apply String.eqb_eq in Eq, Eu.
  apply in_map_iff. exists r'. split; [|assumption].
  unfold key_of. now rewrite Eq, Eu.
Qed.

(** X21. A late joiner converges. When a client connects to a Hub in any
    reachable state that stores something, the [bulk_update] it is sent
    on connection, once handled, leaves in its peer cache, for every key
    under which the Hub stores a Response, exactly the entry of that
    Response, whatever the cache held before and without any
    [request_sync]. *)
Theorem late_joiner_converges :
  forall (h : Hub.State) (ws : Hub.Ws) (ip rnd : string) (b : Client.State)
         (q u : string) (r : Response),
    Hub.reachable h ->
    Hub.stored h q u = Some r ->
    exists id serverTime n payload,
      Hub.sent_by (Hub.step (Hub.Accept ws ip rnd)) h
      = [(ws, welcome id serverTime n); (ws, bulk_update payload)]
      /\ peer (exec (Client.handleWebSocketMessage (bulk_update payload)) b) q u
         = Some (entry_of r).
Proof.
  intros h ws ip rnd b q u r Hreach Hst.
  pose proof (HubInvariant.reachable_well_formed h Hreach) as Hwf.
  apply HubInvariant.well_formed_split in Hwf as [_ Hwf].
  pose proof (HubConnect.stored_in_all h q u r Hst) as Hin.
  exists {| cid_time := Hub.clock h (Hub.ticks h); cid_rand := rnd |},
         (Hub.clock h (S (S (Hub.ticks h)))),
         (JsSet.size (Hub.activeUsers (Hub.sessionData h))),
         (Hub.all_responses (Hub.stored_map h)).
  split.
  - unfold Hub.sent_by, Hub.step. rewrite exec_bind.
    rewrite HubConnect.on_connection_wire.
    + unfold exec, Hub.set_wss_clients.
      cbn [snd Hub.wire Hub.stored_map Hub.sessionData Hub.clock Hub.ticks].
      rewrite skipn_length_app. unfold Hub.stored_map in *.
      cbn [Hub.sessionData].
      destruct (Hub.all_responses (Hub.responses (Hub.sessionData h)))
        as [|x l] eqn:Ea; [contradiction|].
      unfold Hub.stored, Hub.stored_map in Hst.
      destruct (Hub.responses (Hub.sessionData h)); [discriminate|].
      reflexivity.
    + rewrite HubFacts.is_open_eq. unfold exec, Hub.set_wss_clients.
      cbn [snd Hub.wss_clients]. now rewrite JsMapFacts.get_set_same.
  - assert (Hkey : resp_questionId r = q /\ resp_userId r = u).
    { unfold Hub.stored in Hst. destruct Hwf as [_ Hq].
      fold (Hub.stored_map h) in Hst.
      destruct (JsMap.get q (Hub.stored_map h)) as [m|] eqn:Em; [|discriminate].
      apply JsMapFacts.get_In in Em. apply JsMapFacts.get_In in Hst.
      rewrite Forall_forall in Hq. destruct (Hq _ Em) as [_ Hf].
      rewrite Forall_forall in Hf. exact (Hf _ Hst). }
    destruct Hkey as [<- <-].
    destruct (split_last_of_key _ r (payload_keys_unique _ Hwf) Hin)
      as (before & after & -> & Hafter).
    simpl Client.handleWebSocketMessage.
    now apply ClientInbound.bulk_last.
Qed.

(** Bob connects late to the Hub that holds Ann's answer. *)
Lemma late_joiner_converges_witness :
  exists id serverTime n payload,
    Hub.sent_by (Hub.step (Hub.Accept 3%nat "10.0.0.3" "c")) Samples.hub_with_data
    = [(3%nat, welcome id serverTime n); (3%nat, bulk_update payload)]
    /\ peer (exec (Client.handleWebSocketMessage (bulk_update payload))
                  Scenarios.client_bob) "Q1" "u1"
       = Some (entry_of (Hub.response_of Samples.submit_B_100 100)).
Proof.
  apply (late_joiner_converges Samples.hub_with_data 3%nat "10.0.0.3" "c"
           Scenarios.client_bob "Q1" "u1").
  - exists Samples.clk.
    exists [Hub.Accept 1%nat "10.0.0.1" "a"; Hub.Accept 2%nat "10.0.0.2" "b";
            Hub.Message 1%nat (Some (identify "u1" "Ann"));
            Hub.Message 1%nat (Some (submit_response Samples.submit_B_100))].
    vm_compute. reflexivity.
  - vm_compute. reflexivity.
Defined.

End EndToEnd.
